(** * wind-visualization: the HTM index, the ingest pipeline and the query
    handlers, embedded from the Python sources under [server/].

    Python [float] and [np.float64] are IEEE binary64 numbers: they are modelled
    by Rocq's primitive floats, which compute with the same rounding.  Python
    [int] is [Z], [str] is [string], a [list] is a [list], a [dict] whose order
    matters is an association list and a blob store is a [gmap] from paths to
    row lists.  Code that raises is modelled in the error monad [result].

    Part I holds the embedding, one module per source file; Part II holds the
    properties. *)

From Stdlib Require Import ZArith Bool List String Ascii Lia DecimalString.
From Stdlib Require Import Floats.PrimFloat Floats.SpecFloat Floats.FloatOps.
From Stdlib Require Import Floats.FloatAxioms.
From stdpp Require Import base option list gmap strings sets.

Local Open Scope string_scope.
Local Open Scope list_scope.
Local Open Scope Z_scope.

(** * Part I: the embedding *)

(** ** Python exceptions and the error monad *)

Inductive exn : Type :=
| ValueError (msg : string)
| IndexError
| AssertionError (msg : string)
| FileNotFoundError (path : string)
| NotADirectoryError (path : string)
| IsADirectoryError (path : string)
| LinAlgError
| OverflowError (msg : string)
| TypeError (msg : string)
| AttributeError (msg : string).

Inductive result (A : Type) : Type :=
| Ok (a : A)
| Raise (e : exn).

Arguments Ok {A} a.
Arguments Raise {A} e.

#[global] Instance result_ret : MRet result := fun _ a => Ok a.

#[global] Instance result_bind : MBind result := fun _ _ f m =>
  match m with
  | Ok a => f a
  | Raise e => Raise e
  end.

#[global] Instance result_fmap : FMap result := fun _ _ f m =>
  match m with
  | Ok a => Ok (f a)
  | Raise e => Raise e
  end.

Definition is_Ok {A} (m : result A) : Prop := exists a, m = Ok a.

(** [for x in xs: acc = body(acc, x)] where the body may raise. *)
Fixpoint for_each {A S : Type} (body : S -> A -> result S) (xs : list A) (s : S)
  : result S :=
  match xs with
  | [] => Ok s
  | x :: xs' => s' ← body s x; for_each body xs' s'
  end.

(** [for _ in range(n)]: the body runs [n] times, never for [n <= 0]. *)
Definition py_range_iter {S : Type} (n : Z) (body : S -> S) (s : S) : S :=
  Nat.iter (Z.to_nat n) body s.

(** [for _ in range(n)] around a body that may raise. *)
Definition py_range_for {S : Type} (n : Z) (body : S -> result S) (s : S)
  : result S :=
  Nat.iter (Z.to_nat n) (fun r => s' ← r; body s') (Ok s).

(** ** Python [str] methods the sources use *)

Module pystr.

(** [s.split(sep)] for a one-character separator: never the empty list. *)
Fixpoint split (sep : ascii) (s : string) : list string :=
  match s with
  | EmptyString => [EmptyString]
  | String c s' =>
      if Ascii.eqb c sep then EmptyString :: split sep s'
      else match split sep s' with
           | x :: xs => String c x :: xs
           | [] => [String c EmptyString]
           end
  end.

(** [sep.join(parts)]. *)
Fixpoint join (sep : string) (parts : list string) : string :=
  match parts with
  | [] => EmptyString
  | [x] => x
  | x :: rest => (x ++ sep ++ join sep rest)%string
  end.

(** [s.replace(a, b)] for one-character [a] and [b]. *)
Fixpoint replace (a b : ascii) (s : string) : string :=
  match s with
  | EmptyString => EmptyString
  | String c s' => String (if Ascii.eqb c a then b else c) (replace a b s')
  end.

(** [s.count(a)] for a one-character [a]. *)
Fixpoint count (a : ascii) (s : string) : Z :=
  match s with
  | EmptyString => 0
  | String c s' => (if Ascii.eqb c a then 1 else 0) + count a s'
  end.

(** [s.startswith(a)] for a one-character [a]. *)
Definition startswith (a : ascii) (s : string) : bool :=
  match s with
  | String c _ => Ascii.eqb c a
  | EmptyString => false
  end.

(** [xs[:-1]]. *)
Definition drop_last {A} (xs : list A) : list A := removelast xs.

End pystr.

Definition dash : ascii := "-"%char.
Definition slash : ascii := "/"%char.

(** Python list indexing [xs[i]]: a negative index counts from the end, and an
    index outside [-len, len) raises IndexError. *)
Definition py_getitem {A} (xs : list A) (i : Z) : result A :=
  let n := Z.of_nat (length xs) in
  let j := if i <? 0 then i + n else i in
  if (j <? 0) || (n <=? j) then Raise IndexError
  else match xs !! Z.to_nat j with
       | Some x => Ok x
       | None => Raise IndexError
       end.

(** [xs[i].append(x)] on a list of lists: the row is found as [xs[i]] is. *)
Definition py_append_at {A} (xss : list (list A)) (i : Z) (x : A)
  : result (list (list A)) :=
  row ← py_getitem xss i;
  let j := if i <? 0 then i + Z.of_nat (length xss) else i in
  Ok (<[Z.to_nat j := row ++ [x]]> xss).

(** [range(start, stop)]. *)
Definition py_range (start stop : Z) : list Z :=
  map (fun i => start + Z.of_nat i) (seq 0 (Z.to_nat (stop - start))).

(** [min(xs)] and [max(xs)] on a list of integers: ValueError on the empty
    list. *)
Definition py_min_list (xs : list Z) : result Z :=
  match xs with
  | [] => Raise (ValueError "min() arg is an empty sequence")
  | x :: rest => Ok (fold_left Z.min rest x)
  end.

Definition py_max_list (xs : list Z) : result Z :=
  match xs with
  | [] => Raise (ValueError "max() arg is an empty sequence")
  | x :: rest => Ok (fold_left Z.max rest x)
  end.

(** [n / 2] on an integer [n]: the binary64 number nearest to the quotient,
    OverflowError when the quotient is beyond the largest one. *)
Definition py_int_truediv_2 (n : Z) : result float :=
  let r := SF2Prim (binary_normalize prec emax n (-1) false) in
  if is_infinity r
  then Raise (OverflowError "integer division result too large for a float")
  else Ok r.

(** [int(f)] on a float: truncation towards zero. *)
Definition py_int_of_float (f : float) : result Z :=
  match Prim2SF f with
  | S754_nan => Raise (ValueError "cannot convert float NaN to integer")
  | S754_infinity _ =>
      Raise (OverflowError "cannot convert float infinity to integer")
  | S754_zero _ => Ok 0
  | S754_finite s m e =>
      let v := if 0 <=? e then Z.pos m * 2 ^ e else Z.pos m / 2 ^ (- e) in
      Ok (if s then - v else v)
  end.

(** [if k not in d: d[k] = []] and then [d[k].append(v)], on a dict in
    insertion order. *)
Fixpoint dict_append {V} (d : list (string * list V)) (k : string) (v : V)
  : list (string * list V) :=
  match d with
  | [] => [(k, [v])]
  | (k', vs) :: rest =>
      if String.eqb k' k then (k', vs ++ [v]) :: rest
      else (k', vs) :: dict_append rest k v
  end.

(** ** The numeric libraries outside the repository

    [math.cos], [math.sin], [math.acos], [math.asin], [math.atan2], [math.tan]
    and float [**] call the C library, and [np.roots] calls LAPACK's eigenvalue solver: none of them is
    code of this repository, so the embedding takes them as an interface.
    [np.roots] returns real or complex roots; a real root has imaginary part
    zero. *)

Definition complex : Type := (float * float)%type.

Class MathLib : Type := {
  libm_cos : float -> float;
  libm_sin : float -> float;
  libm_acos : float -> float;
  libm_asin : float -> float;
  libm_atan2 : float -> float -> float;
  libm_tan : float -> float;
  libm_pow : float -> float -> float;
  np_roots : list float -> result (list complex)
}.

(** ** server/logic/constants.py *)

Module constants.

Definition INGEST_MIN_DEPTH : Z := 10.
Definition INGEST_MAX_DEPTH : Z := 20.
Definition EARTH_RADIUS : float := 6371000%float.
Definition SIMPLIFIED_DEPTH : Z := 20.
Definition DETAILED_DEPTH : Z := 20.
Definition MAX_RADIUS : float := 1000%float.

End constants.

(** ** server/logic/htm.py *)

Module htm.

Definition coordinates_type : Type := (float * float * float)%type.
Definition triangle_type : Type :=
  (coordinates_type * coordinates_type * coordinates_type)%type.

(** [sys.float_info.epsilon] is 2^-52. *)
Definition EPSILON : float := 0x1p-52%float.

(** [math.pi], the binary64 number nearest to pi. *)
Definition math_pi : float := 0x1.921fb54442d18p+1%float.

(** *** numpy on three-element arrays

    Elementwise operations round each element once.  [np.dot], [np.cross]
    and [np.linalg.norm] are written with their products summed in index
    order, every operation rounded once; numpy hands the dot product and the
    norm to its BLAS, which may fuse or reorder the three products, so that
    its result can differ from this one in the last place. *)

Definition np_add (a b : coordinates_type) : coordinates_type :=
  let '(a0, a1, a2) := a in
  let '(b0, b1, b2) := b in
  (a0 + b0, a1 + b1, a2 + b2)%float.

Definition np_sub (a b : coordinates_type) : coordinates_type :=
  let '(a0, a1, a2) := a in
  let '(b0, b1, b2) := b in
  (a0 - b0, a1 - b1, a2 - b2)%float.

Definition np_div (a : coordinates_type) (k : float) : coordinates_type :=
  let '(a0, a1, a2) := a in
  (a0 / k, a1 / k, a2 / k)%float.

Definition np_dot (a b : coordinates_type) : float :=
  let '(a0, a1, a2) := a in
  let '(b0, b1, b2) := b in
  (a0 * b0 + a1 * b1 + a2 * b2)%float.

Definition np_cross (a b : coordinates_type) : coordinates_type :=
  let '(a0, a1, a2) := a in
  let '(b0, b1, b2) := b in
  (a1 * b2 - a2 * b1, a2 * b0 - a0 * b2, a0 * b1 - a1 * b0)%float.

Definition np_linalg_norm (a : coordinates_type) : float :=
  PrimFloat.sqrt (np_dot a a).

(** numpy orders complex numbers lexicographically, real part first; on a
    real root this is the comparison of floats. *)
Definition complex_le (x y : complex) : bool :=
  let '(xr, xi) := x in
  let '(yr, yi) := y in
  ((xr <? yr)%float && negb (is_nan xi) && negb (is_nan yi))
  || ((xr =? yr)%float && (xi <=? yi)%float).

(** *** The [math] module as Python wraps the C library *)

Section math.

Context {M : MathLib}.

(** CPython's wrapper of a one-argument C function that cannot overflow:
    a NaN from a number, or an infinity from a finite number, raises. *)
Definition math_1 (func : float -> float) (x : float) : result float :=
  let r := func x in
  if is_nan r && negb (is_nan x) then Raise (ValueError "math domain error")
  else if is_infinity r && is_finite x then Raise (ValueError "math domain error")
  else Ok r.

Definition math_cos : float -> result float := math_1 libm_cos.
Definition math_acos : float -> result float := math_1 libm_acos.
Definition math_asin : float -> result float := math_1 libm_asin.
Definition math_tan : float -> result float := math_1 libm_tan.

(** [math.atan2] never raises. *)
Definition math_atan2 (y x : float) : float := libm_atan2 y x.

(** [x ** y] on floats: an overflow of a finite argument raises. *)
Definition float_pow (x y : float) : result float :=
  let r := libm_pow x y in
  if is_infinity r && is_finite x && is_finite y then Raise (OverflowError "pow")
  else Ok r.

Definition math_radians (x : float) : float := (x * (math_pi / 180))%float.
Definition math_degrees (x : float) : float := (x * (180 / math_pi))%float.

(** Compiled by numba: [math.cos] and [math.sin] are the C functions. *)
Definition lat_lon_to_xyz (lat lon : float) : coordinates_type :=
  let lat_rad := math_radians lat in
  let lon_rad := math_radians lon in
  let x := (libm_cos lat_rad * libm_cos lon_rad)%float in
  let y := (libm_cos lat_rad * libm_sin lon_rad)%float in
  let z := libm_sin lat_rad in
  (x, y, z).

(** [xyz_to_lat_lon]. *)
Definition xyz_to_lat_lon (xyz : coordinates_type) : result (float * float) :=
  let '(x, y, z) := xyz in
  lat_rad ← math_asin z;
  let lon_rad := math_atan2 y x in
  let lat := math_degrees lat_rad in
  let lon := math_degrees lon_rad in
  Ok (lat, lon).

End math.

Definition midpoint_xyz (xyz1 xyz2 : coordinates_type) : coordinates_type :=
  let v1 := xyz1 in
  let v2 := xyz2 in
  let v := np_add v1 v2 in
  let v := np_div v (np_linalg_norm v) in
  v.

(** Python's [min(a, b)] and [max(a, b)]: the first argument wins a tie and
    any comparison with NaN. *)
Definition py_min (a b : float) : float := if (b <? a)%float then b else a.
Definition py_max (a b : float) : float := if (a <? b)%float then b else a.

Definition angle_between_np_vectors {M : MathLib} (v1 v2 : coordinates_type)
  : result float :=
  let val := (np_dot v1 v2 / (np_linalg_norm v1 * np_linalg_norm v2))%float in
  let clamped := py_max (-1)%float (py_min 1%float val) in
  math_acos clamped.

Record Halfspace : Type := mkHalfspace {
  vector : coordinates_type;
  distance : float
}.

Definition arcangle {M : MathLib} (self : Halfspace) : result float :=
  math_acos (distance self).

Inductive HalfspaceIntersection : Type := OUTSIDE | PARTIAL | FULL.

Record Trixel : Type := mkTrixel {
  name : string;
  vertices : triangle_type
}.

(** [Trixel.lat_lon]: the dict with keys "name" and "vertices". *)
Definition lat_lon {M : MathLib} (self : Trixel)
  : result (string * list (float * float)) :=
  let '(v0, v1, v2) := vertices self in
  p0 ← xyz_to_lat_lon v0;
  p1 ← xyz_to_lat_lon v1;
  p2 ← xyz_to_lat_lon v2;
  Ok (name self, [p0; p1; p2]).

(** [Trixel.depth]: [len(self.name.split("-"))]. *)
Definition depth (self : Trixel) : Z :=
  Z.of_nat (length (pystr.split dash (name self))).

(** [Trixel.numba_contains]. *)
Definition numba_contains (vert : triangle_type) (x y z : float) : bool :=
  let '(vert0, vert1, vert2) := vert in
  let p := (x, y, z) in
  if (np_dot (np_cross vert0 vert1) p <? - EPSILON)%float then false
  else if (np_dot (np_cross vert1 vert2) p <? - EPSILON)%float then false
  else if (np_dot (np_cross vert2 vert0) p <? - EPSILON)%float then false
  else true.

Definition contains (self : Trixel) (x y z : float) : bool :=
  numba_contains (vertices self) x y z.

Definition get_midpoint (self : Trixel) : coordinates_type :=
  let '(v0, v1, v2) := vertices self in
  let v := np_add (np_add v0 v1) v2 in
  np_div v (np_linalg_norm v).

(** [Trixel.get_subtrixels]: the generator's four trixels, in the order it
    yields them. *)
Definition get_subtrixels (self : Trixel) : list Trixel :=
  let '(v0, v1, v2) := vertices self in
  let name := name self in
  let w0 := midpoint_xyz v1 v2 in
  let w1 := midpoint_xyz v2 v0 in
  let w2 := midpoint_xyz v0 v1 in
  [ mkTrixel (name ++ "-0") (v0, w2, w1);
    mkTrixel (name ++ "-1") (v1, w0, w2);
    mkTrixel (name ++ "-2") (v2, w1, w0);
    mkTrixel (name ++ "-3") (w0, w1, w2) ].

(** [Trixel.get_subtrixels_at_depth]. *)
Definition get_subtrixels_at_depth (self : Trixel) (depth' : Z)
  : result (list Trixel) :=
  if depth' <? 1 then Raise (ValueError "depth must be greater or equal to 1")
  else
    let self_depth := depth self in
    if self_depth =? depth' then Ok [self]
    else if depth' <? self_depth then
      Raise (ValueError "depth must be greater than current depth")
    else
      let subtrixels := get_subtrixels self in
      Ok (py_range_iter (depth' - self_depth - 1)
            (fun subtrixels => flat_map get_subtrixels subtrixels)
            subtrixels).

(** [Trixel.intersects_halfspace]. *)

Definition in_unit_interval (s : complex) : bool :=
  complex_le (0%float, 0%float) s && complex_le s (1%float, 0%float).

Section intersects.

Context {M : MathLib}.

(** The first loop over the sides: [true] when some side's polynomial has a
    root [s] with [0 <= s <= 1], which makes the method return PARTIAL. *)
Fixpoint side_intersected (v : coordinates_type) (d : float)
    (sides : list (coordinates_type * coordinates_type)) : result bool :=
  match sides with
  | [] => Ok false
  | (v_i, v_j) :: rest =>
      theta_ij ← angle_between_np_vectors v_i v_j;
      u ← math_tan (theta_ij / 2)%float;
      let gamma_i := np_dot v v_i in
      let gamma_j := np_dot v v_j in
      u2 ← float_pow u 2%float;
      let a := (- u2 * (gamma_i + d))%float in
      let b := (gamma_i * (u2 - 1) + gamma_j * (u2 + 1))%float in
      let c := (gamma_i - d)%float in
      solutions ← np_roots [a; b; c];
      if existsb in_unit_interval solutions then Ok true
      else side_intersected v d rest
  end.

Definition intersects_halfspace (self : Trixel) (halfspace : Halfspace)
  : result HalfspaceIntersection :=
  let v := vector halfspace in
  let d := distance halfspace in
  let epsilon := EPSILON in
  let '(v0, v1, v2) := vertices self in
  let v0_inside := (d <? np_dot v v0)%float in
  let v1_inside := (d <? np_dot v v1)%float in
  let v2_inside := (d <? np_dot v v2)%float in
  if v0_inside && v1_inside && v2_inside then Ok FULL
  else if v0_inside || v1_inside || v2_inside then Ok PARTIAL
  else
    let v_bounding := np_cross (np_sub v1 v0) (np_sub v2 v1) in
    let v_bounding := np_div v_bounding (np_linalg_norm v_bounding) in
    let d_bounding := np_dot v0 v_bounding in
    let bounding := mkHalfspace v_bounding d_bounding in
    theta_bounding ← angle_between_np_vectors v v_bounding;
    arc_h ← arcangle halfspace;
    arc_b ← arcangle bounding;
    let arcangle_sum := (arc_h + arc_b)%float in
    if (arcangle_sum <=? theta_bounding)%float then Ok OUTSIDE
    else
      let sides := [(v0, v1); (v1, v2); (v2, v0)] in
      side_intersected v d sides ≫= fun crossed : bool =>
      if crossed then Ok PARTIAL
      else if existsb (fun '(v_i, v_j) =>
                         (np_dot (np_cross v_i v_j) v <? - epsilon)%float) sides
      then Ok OUTSIDE
      else Ok PARTIAL.

End intersects.

(** *** The octahedron *)

Definition octahedron_vertices : list coordinates_type :=
  [ (0, 0, 1); (1, 0, 0); (0, 1, 0); (-1, 0, 0); (0, -1, 0); (0, 0, -1) ]%float.

Definition ov (i : nat) : coordinates_type :=
  nth i octahedron_vertices (0, 0, 0)%float.

(** The dict [octahedron], in insertion order. *)
Definition octahedron : list (string * Trixel) :=
  [ ("N0", mkTrixel "N0" (ov 1, ov 0, ov 4));
    ("N1", mkTrixel "N1" (ov 4, ov 0, ov 3));
    ("N2", mkTrixel "N2" (ov 3, ov 0, ov 2));
    ("N3", mkTrixel "N3" (ov 2, ov 0, ov 1));
    ("S0", mkTrixel "S0" (ov 1, ov 5, ov 2));
    ("S1", mkTrixel "S1" (ov 2, ov 5, ov 3));
    ("S2", mkTrixel "S2" (ov 3, ov 5, ov 4));
    ("S3", mkTrixel "S3" (ov 4, ov 5, ov 1)) ].

(** [octahedron[key]] for a key of the dict, [None] for any other string. *)
Fixpoint dict_get {V} (d : list (string * V)) (key : string) : option V :=
  match d with
  | [] => None
  | (k, v) :: rest => if String.eqb k key then Some v else dict_get rest key
  end.

Definition octahedron_values : list Trixel := map snd octahedron.

(** The trixel stored under a key that the source writes as a literal. *)
Definition octahedron_at (key : string) : Trixel :=
  match dict_get octahedron key with
  | Some trixel => trixel
  | None => mkTrixel key (ov 0, ov 0, ov 0)
  end.

Section enumeration.

Context {M : MathLib}.

(** One pass of [for trixel in ...: intersection = ...; if FULL: selected.append
    elif PARTIAL: candidates.append], on the pair (selected, candidates). *)
Definition classify (self : Halfspace)
    (acc : list Trixel * list Trixel) (trixel : Trixel)
  : result (list Trixel * list Trixel) :=
  let '(selected, candidates) := acc in
  intersection ← intersects_halfspace trixel self;
  match intersection with
  | FULL => Ok (selected ++ [trixel], candidates)
  | PARTIAL => Ok (selected, candidates ++ [trixel])
  | OUTSIDE => Ok (selected, candidates)
  end.

(** [Halfspace.get_all_trixels_to_depth]. *)
Definition get_all_trixels_to_depth (self : Halfspace) (depth' : Z)
  : result (list Trixel) :=
  if depth' <? 1 then Raise (ValueError "depth must be greater or equal to 1")
  else
    '(selected, candidates) ← for_each (classify self) octahedron_values ([], []);
    '(selected, candidates) ←
      py_range_for (depth' - 1)
        (fun '(selected, candidates) =>
           for_each (classify self) (flat_map get_subtrixels candidates)
             (selected, []))
        (selected, candidates);
    Ok (selected ++ candidates).

(** [Halfspace.get_all_expanded_trixels_to_depth]. *)
Definition get_all_expanded_trixels_to_depth (self : Halfspace) (depth' : Z)
  : result (list Trixel) :=
  trixels ← get_all_trixels_to_depth self depth';
  for_each
    (fun expanded_trixels trixel =>
       if depth trixel =? depth' then Ok (expanded_trixels ++ [trixel])
       else
         subs ← get_subtrixels_at_depth trixel depth';
         Ok (expanded_trixels ++ subs))
    trixels [].

End enumeration.

(** [find_octahedron_trixel_from_xyz]. *)
Definition find_octahedron_trixel_from_xyz (x y z : float) : Trixel :=
  if (0 <? z)%float then
    if (0 <? y)%float then
      if (0 <? x)%float then octahedron_at "N3" else octahedron_at "N2"
    else
      if (0 <? x)%float then octahedron_at "N0" else octahedron_at "N1"
  else
    if (0 <? y)%float then
      if (0 <? x)%float then octahedron_at "S0" else octahedron_at "S1"
    else
      if (0 <? x)%float then octahedron_at "S3" else octahedron_at "S2".

(** The inner function [get_next] of [find_trixel_from_xyz]. *)
Definition get_next (trixel : Trixel) (x y z : float) : result Trixel :=
  match List.find (fun t => contains t x y z) (get_subtrixels trixel) with
  | Some t => Ok t
  | None => Raise (ValueError "point not contained in any trixel")
  end.

(** [find_trixel_from_xyz]. *)
Definition find_trixel_from_xyz (x y z : float) (depth' : Z) : result Trixel :=
  if depth' <? 1 then Raise (ValueError "depth must be greater or equal to 1")
  else
    let octahedron_trixel := find_octahedron_trixel_from_xyz x y z in
    if depth' =? 1 then Ok octahedron_trixel
    else
      py_range_for (depth' - 1) (fun trixel => get_next trixel x y z)
        octahedron_trixel.

(** [find_trixel_from_lat_lon]. *)
Definition find_trixel_from_lat_lon {M : MathLib} (lat lon : float) (depth' : Z)
  : result Trixel :=
  let '(x, y, z) := lat_lon_to_xyz lat lon in
  find_trixel_from_xyz x y z depth'.

(** The loop body of [find_trixel_from_name]: the child a path segment selects. *)
Definition select_child (trixel : Trixel) (segment : string) : result Trixel :=
  match get_subtrixels trixel with
  | [t0; t1; t2; t3] =>
      if String.eqb segment "0" then Ok t0
      else if String.eqb segment "1" then Ok t1
      else if String.eqb segment "2" then Ok t2
      else if String.eqb segment "3" then Ok t3
      else Raise (ValueError "invalid name")
  | _ => Raise (ValueError "not enough values to unpack")
  end.

(** [find_trixel_from_name]. *)
Definition find_trixel_from_name (name' : string) : result Trixel :=
  let path := pystr.split dash name' in
  if (Z.of_nat (length path) <? 1) then Raise (ValueError "invalid name")
  else
    match path with
    | [] => Raise IndexError
    | path0 :: path_rest =>
        match dict_get octahedron path0 with
        | None => Raise (ValueError "invalid name")
        | Some trixel =>
            if Z.of_nat (length path) =? 1 then Ok trixel
            else for_each select_child path_rest trixel
        end
    end.

(** [get_all_trixels]: the layers of depth 1, 2, ..., [depth']. *)
Definition get_all_trixels (depth' : Z) : result (list (list Trixel)) :=
  if depth' <? 1 then Raise (ValueError "depth must be greater or equal to 1")
  else
    py_range_for (depth' - 1)
      (fun trixels =>
         layer ← py_getitem trixels (-1);
         let new_trixels := flat_map get_subtrixels layer in
         Ok (trixels ++ [new_trixels]))
      [octahedron_values].

(** [sphere_surface_radius_to_halfspace_distance] and its two helpers. *)
Definition sphere_surface_radius_to_angle (distance' : float) : float :=
  (distance' / constants.EARTH_RADIUS)%float.

Definition angle_to_halfspace_distance {M : MathLib} (angle : float)
  : result float :=
  math_cos angle.

Definition sphere_surface_radius_to_halfspace_distance {M : MathLib}
    (distance' : float) : result float :=
  angle_to_halfspace_distance (sphere_surface_radius_to_angle distance').

End htm.

(** The order in which Python enumerates a [set] is not specified: [list(s)]
    is some enumeration of the elements, each once.  The same holds of the
    names [os.listdir] returns. *)
Class PySetOrder : Type := {
  list_of_set : gset string -> list string;
  list_of_set_perm : forall X, list_of_set X ≡ₚ elements X
}.

(** ** The file system and the blob store outside the repository

    [posixpath.join], [posixpath.normpath] and [posixpath.abspath] are written
    out as the Python library defines them.  A file system is the set of its
    directories and the map of its numeric blobs ([data.npy] files, each a
    list of rows), both keyed by the absolute path of the entry: "/" and the
    components of the path joined by "/".  The root directory always exists,
    and no name is both a directory and a file.

    The operating system resolves a path by following its components one by
    one, each looked up in a directory that has to exist: "a/../b" names
    what "b" names only where "a" is a directory.  There are no symbolic
    links and every directory may be searched.  The sources make a path
    absolute before they hand it to the file system ([os.path.abspath] in
    [join_abs_path] and in app.py), and a path is followed from the root. *)

Module os.

Abbreviation row := (list float).
Abbreviation blob := (list (list float)).

Record filesystem : Type := mkFs {
  dirs : gset string;
  files : gmap string blob
}.

(** [s.endswith("/")]. *)
Fixpoint endswith_slash (s : string) : bool :=
  match s with
  | EmptyString => false
  | String c EmptyString => Ascii.eqb c slash
  | String _ s' => endswith_slash s'
  end.

(** [os.path.join(a, *p)]. *)
Definition path_join (a : string) (p : list string) : string :=
  fold_left
    (fun path b =>
       if pystr.startswith slash b then b
       else if String.eqb path "" || endswith_slash path then (path ++ b)%string
       else (path ++ "/" ++ b)%string)
    p a.

(** The loop body of [os.path.normpath]. *)
Definition normpath_step (initial_slashes : nat) (new_comps : list string)
    (comp : string) : list string :=
  if String.eqb comp "" || String.eqb comp "." then new_comps
  else if negb (String.eqb comp "..")
          || (Nat.eqb initial_slashes 0 && Nat.eqb (length new_comps) 0)
          || (match last new_comps with
              | Some c => String.eqb c ".."
              | None => false
              end)
  then new_comps ++ [comp]
  else removelast new_comps.

(** [os.path.normpath]. *)
Definition normpath (path : string) : string :=
  if String.eqb path "" then "."
  else
    let initial_slashes :=
      match path with
      | String "/" (String "/" (String "/" _)) => 1%nat
      | String "/" (String "/" _) => 2%nat
      | String "/" _ => 1%nat
      | _ => 0%nat
      end in
    let comps := pystr.split slash path in
    let comps := fold_left (normpath_step initial_slashes) comps [] in
    let path := pystr.join "/" comps in
    let path :=
      match initial_slashes with
      | 0%nat => path
      | 1%nat => ("/" ++ path)%string
      | _ => ("//" ++ path)%string
      end in
    if String.eqb path "" then "." else path.

(** [os.path.abspath], with [os.getcwd()] passed in. *)
Definition abspath (cwd path : string) : string :=
  if pystr.startswith slash path then normpath path
  else normpath (path_join cwd [path]).

(** Where a list of components leads from the root, as a key of the store. *)
Definition entry (comps : list string) : string :=
  ("/" ++ pystr.join "/" comps)%string.

Definition is_directory (fs : filesystem) (cur : list string) : bool :=
  match cur with
  | [] => true
  | _ => bool_decide (entry cur ∈ dirs fs)
  end.

Definition is_file (fs : filesystem) (cur : list string) : bool :=
  bool_decide (is_Some (files fs !! entry cur)).

(** One component of a path, looked up in the directory [cur]. *)
Definition walk_step (cur : list string) (comp : string) : list string :=
  if String.eqb comp "" || String.eqb comp "." then cur
  else if String.eqb comp ".." then removelast cur
  else cur ++ [comp].

(** Path resolution from [cur]: a component is looked up in what the
    components before it lead to, which has to be a directory (ENOTDIR when
    it is a file, ENOENT when it does not exist).  What the last component
    leads to need not exist. *)
Fixpoint walk (fs : filesystem) (path : string) (cur : list string)
    (comps : list string) : result (list string) :=
  match comps with
  | [] => Ok cur
  | comp :: comps' =>
      if is_directory fs cur then walk fs path (walk_step cur comp) comps'
      else if is_file fs cur then Raise (NotADirectoryError path)
      else Raise (FileNotFoundError path)
  end.

(** The entry a path names; the empty path names none. *)
Definition resolve (fs : filesystem) (path : string) : result (list string) :=
  if String.eqb path "" then Raise (FileNotFoundError path)
  else walk fs path [] (pystr.split slash path).

(** [os.path.isdir]. *)
Definition path_isdir (fs : filesystem) (path : string) : bool :=
  match resolve fs path with
  | Ok cur => is_directory fs cur
  | Raise _ => false
  end.

(** [os.path.isfile]. *)
Definition path_isfile (fs : filesystem) (path : string) : bool :=
  match resolve fs path with
  | Ok cur => is_file fs cur
  | Raise _ => false
  end.

(** [os.path.exists]. *)
Definition path_exists (fs : filesystem) (path : string) : bool :=
  path_isdir fs path || path_isfile fs path.

(** [np.load(path)]. *)
Definition np_load (fs : filesystem) (path : string) : result blob :=
  cur ← resolve fs path;
  match files fs !! entry cur with
  | Some data => Ok data
  | None =>
      if is_directory fs cur then Raise (IsADirectoryError path)
      else Raise (FileNotFoundError path)
  end.

(** [np.save(path, data)] on a path that ends in [.npy]: the file is created
    or overwritten in a directory that exists. *)
Definition np_save (fs : filesystem) (path : string) (data : blob)
  : result filesystem :=
  cur ← resolve fs path;
  if is_directory fs cur then Raise (IsADirectoryError path)
  else Ok (mkFs (dirs fs) (<[entry cur := data]> (files fs))).

(** The name of the entry stored under [key] when it lies in the directory
    [cur] itself. *)
Definition child_name (cur : list string) (key : string) : option string :=
  match pystr.split slash key with
  | "" :: comps =>
      match last comps with
      | Some name =>
          if bool_decide (removelast comps = cur) && negb (String.eqb name "")
          then Some name else None
      | None => None
      end
  | _ => None
  end.

(** [os.listdir(path)]. *)
Definition listdir {O : PySetOrder} (fs : filesystem) (path : string)
  : result (list string) :=
  cur ← resolve fs path;
  if is_directory fs cur
  then Ok (list_of_set
             (list_to_set
                (omap (child_name cur) (elements (dirs fs ∪ dom (files fs))))))
  else if is_file fs cur then Raise (NotADirectoryError path)
  else Raise (FileNotFoundError path).

End os.

(** A call [f(a, ...)] of a function declared with one required positional
    parameter and no other: Python binds the arguments to the parameters
    before it runs the body, and raises TypeError when there is not exactly
    one. *)
Definition py_call_1 {A B} (fname param : string) (f : A -> result B)
    (args : list A) : result B :=
  match args with
  | [a] => f a
  | [] =>
      Raise (TypeError
               (fname ++ "() missing 1 required positional argument: '" ++ param ++ "'"))
  | _ =>
      Raise (TypeError
               (fname ++ "() takes 1 positional argument but "
                ++ NilEmpty.string_of_uint (Nat.to_uint (length args))
                ++ " were given"))
  end.

(** ** server/logic/datasets.py *)

Module datasets.

(** [get_dataset_names(datasets_dir)]. *)
Definition get_dataset_names {O : PySetOrder} (fs : os.filesystem)
    (datasets_dir : string) : result (list string) :=
  entries ← os.listdir fs datasets_dir;
  Ok (List.filter
        (fun d => os.path_isdir fs (os.path_join datasets_dir [d])
                  && negb (pystr.startswith "."%char d))
        entries).

End datasets.

(** [range(start, stop, -1)]. *)
Definition py_range_desc (start stop : Z) : list Z :=
  map (fun i => start - Z.of_nat i) (seq 0 (Z.to_nat (start - stop))).

(** ** server/logic/ingest.py *)

Module ingest.

Import constants.

Record Dataset : Type := mkDataset {
  name : string;
  unprocessed_path : string;
  processed_path : string;
  utm_zone : Z;
  utm_hemisphere : string;
  utm_corner_min_x : Z;
  utm_corner_min_y : Z;
  utm_corner_max_x : Z;
  utm_corner_max_y : Z;
  layers : list string
}.

Record Mapping : Type := mkMapping {
  min_x : Z;
  min_y : Z;
  max_x : Z;
  max_y : Z;
  mapping : list (list string)
}.

(** [Mapping.get_total_entries]. *)
Definition get_total_entries (self : Mapping) : Z :=
  fold_right Z.add 0 (map (fun row => Z.of_nat (length row)) (mapping self)).

(** [Mapping.get_trixel_name]: [self.mapping[y - self.min_y][x - self.min_x]]. *)
Definition get_trixel_name (self : Mapping) (x y : Z) : result string :=
  row ← py_getitem (mapping self) (y - min_y self);
  py_getitem row (x - min_x self).

(** A parsed line of a layer file, [(x, y, z, u, v, w)], and a row of a
    chunk before it is saved, [[lat, lon, z, u, v, w]]. *)
Definition line : Type := (Z * Z * Z * float * float * float)%type.
Definition point_row : Type := (float * float * Z * float * float * float)%type.

(** [sys.maxsize] on a 64-bit platform. *)
Definition sys_maxsize : Z := 2 ^ 63 - 1.

(** [int((lo + hi) / 2)]: the centre of a side of the dataset's rectangle. *)
Definition utm_center (lo hi : Z) : result Z :=
  c ← py_int_truediv_2 (lo + hi);
  py_int_of_float c.

Section layers.

Context {M : MathLib}.

(** [parse_layer_lines]: reading the file and parsing its lines with [int]
    and [float] is taken as given, the list of tuples or the exception. *)
Variable parse_layer_lines : string -> result (list line).

(** [utm.to_latlon(easting, northing, zone_number, zone_letter)] of the utm
    package. *)
Variable to_latlon : Z -> Z -> Z -> string -> result (float * float).

(** [get_layer_min_max_xy]. *)
Definition get_layer_min_max_xy (layer_path : string) : result (Z * Z * Z * Z) :=
  lines ← parse_layer_lines layer_path;
  min_x ← py_min_list (map (fun '(x, y, z, u, v, w) => x) lines);
  max_x ← py_max_list (map (fun '(x, y, z, u, v, w) => x) lines);
  min_y ← py_min_list (map (fun '(x, y, z, u, v, w) => y) lines);
  max_y ← py_max_list (map (fun '(x, y, z, u, v, w) => y) lines);
  min_z ← py_min_list (map (fun '(x, y, z, u, v, w) => z) lines);
  max_z ← py_max_list (map (fun '(x, y, z, u, v, w) => z) lines);
  if negb (min_z =? max_z)
  then Raise (AssertionError "z_min != z_max, this is not a 2D slice")
  else Ok (min_x, max_x, min_y, max_y).

(** [get_dataset_min_max_xy]. *)
Definition get_dataset_min_max_xy (dataset : Dataset) : result (Z * Z * Z * Z) :=
  for_each
    (fun '(min_x, max_x, min_y, max_y) layer_path =>
       '(layer_min_x, layer_max_x, layer_min_y, layer_max_y) ←
         get_layer_min_max_xy layer_path;
       Ok (Z.min min_x layer_min_x, Z.max max_x layer_max_x,
           Z.min min_y layer_min_y, Z.max max_y layer_max_y))
    (layers dataset)
    (sys_maxsize, - sys_maxsize, sys_maxsize, - sys_maxsize).

(** The body of the loop over the cells in [build_utm_to_htm_mapping], on
    [mapping], [prev_trixel] and [cache_hits] (which only feeds the progress
    display). *)
Definition build_cell (dataset : Dataset) (utm_center_x utm_center_y min_y : Z)
    (acc : list (list string) * option htm.Trixel * Z) (cell : Z * Z)
  : result (list (list string) * option htm.Trixel * Z) :=
  let '(mapping, prev_trixel, cache_hits) := acc in
  let '(y, x) := cell in
  let utm_x := utm_center_x + x in
  let utm_y := utm_center_y + y in
  '(lat, lon) ← to_latlon utm_x utm_y (utm_zone dataset) (utm_hemisphere dataset);
  let cached :=
    match prev_trixel with
    | Some prev =>
        let '(px, py, pz) := htm.lat_lon_to_xyz lat lon in
        if htm.contains prev px py pz then Some prev else None
    | None => None
    end in
  match cached with
  | Some prev =>
      mapping ← py_append_at mapping (y - min_y) (htm.name prev);
      Ok (mapping, prev_trixel, cache_hits + 1)
  | None =>
      trixel ← htm.find_trixel_from_lat_lon lat lon INGEST_MAX_DEPTH;
      mapping ← py_append_at mapping (y - min_y) (htm.name trixel);
      Ok (mapping, Some trixel, cache_hits)
  end.

(** [itertools.product(range(min_y, max_y + 1), range(min_x, max_x + 1))]. *)
Definition cells (min_x min_y max_x max_y : Z) : list (Z * Z) :=
  flat_map (fun y => map (fun x => (y, x)) (py_range min_x (max_x + 1)))
    (py_range min_y (max_y + 1)).

(** [build_utm_to_htm_mapping]. *)
Definition build_utm_to_htm_mapping (dataset : Dataset)
    (min_x min_y max_x max_y : Z) : result Mapping :=
  utm_center_x ← utm_center (utm_corner_min_x dataset) (utm_corner_max_x dataset);
  utm_center_y ← utm_center (utm_corner_min_y dataset) (utm_corner_max_y dataset);
  let mapping : list (list string) := repeat [] (Z.to_nat (max_y - min_y + 1)) in
  '(mapping, _, _) ←
    for_each (build_cell dataset utm_center_x utm_center_y min_y)
      (cells min_x min_y max_x max_y) (mapping, None, 0);
  Ok (mkMapping min_x min_y max_x max_y mapping).

(** [parse_layer_to_trixels]: the dict from trixel names to rows, in
    insertion order. *)
Definition parse_layer_to_trixels (dataset : Dataset) (layer_path : string)
    (mapping : Mapping) : result (list (string * list point_row)) :=
  lines ← parse_layer_lines layer_path;
  utm_center_x ← utm_center (utm_corner_min_x dataset) (utm_corner_max_x dataset);
  utm_center_y ← utm_center (utm_corner_min_y dataset) (utm_corner_max_y dataset);
  for_each
    (fun trixels '(x, y, z, u, v, w) =>
       let utm_x := utm_center_x + x in
       let utm_y := utm_center_y + y in
       '(lat, lon) ← to_latlon utm_x utm_y (utm_zone dataset) (utm_hemisphere dataset);
       htm_trixel_name ← get_trixel_name mapping x y;
       Ok (dict_append trixels htm_trixel_name (lat, lon, z, u, v, w)))
    lines [].

End layers.

(** The blob path of a trixel:
    [os.path.join(dataset.processed_path, name.replace("-", "/"), "data.npy")]. *)
Definition trixel_file (dataset : Dataset) (trixel_name : string) : string :=
  let trixel_dirs := pystr.replace dash slash trixel_name in
  os.path_join (processed_path dataset) [trixel_dirs; "data.npy"].

(** ["-".join(trixel_name.split("-")[:-1])]. *)
Definition parent_name (trixel_name : string) : string :=
  pystr.join "-" (pystr.drop_last (pystr.split dash trixel_name)).

(** [trixel.count("-") + 1]. *)
Definition name_depth (trixel_name : string) : Z :=
  pystr.count dash trixel_name + 1.

Section backfill.

Context {O : PySetOrder}.

(** The body of [for trixel_name in t] in [backfill_trixels], on the file
    system and the set [next_trixels]. *)
Definition backfill_step (dataset : Dataset)
    (acc : os.filesystem * gset string) (trixel_name : string)
  : result (os.filesystem * gset string) :=
  let '(fs, next_trixels) := acc in
  let trixel_file' := trixel_file dataset trixel_name in
  let parent_trixel_name := parent_name trixel_name in
  let parent_trixel_file := trixel_file dataset parent_trixel_name in
  trixel_data ← os.np_load fs trixel_file';
  trixel_data ←
    (if os.path_exists fs parent_trixel_file then
       parent_trixel_data ← os.np_load fs parent_trixel_file;
       Ok (parent_trixel_data ++ trixel_data)
     else Ok trixel_data);
  fs ← os.np_save fs parent_trixel_file trixel_data;
  Ok (fs, next_trixels ∪ {[parent_trixel_name]}).

(** The body of [for depth in range(saved_depth - 1, INGEST_MIN_DEPTH - 1, -1)],
    on the file system, [prev_trixels_list] and [trixels_by_depth]. *)
Definition backfill_level (dataset : Dataset)
    (acc : os.filesystem * list string * gmap Z (list string)) (depth : Z)
  : result (os.filesystem * list string * gmap Z (list string)) :=
  let '(fs, prev_trixels_list, trixels_by_depth) := acc in
  '(fs, next_trixels) ← for_each (backfill_step dataset) prev_trixels_list (fs, ∅);
  let prev_trixels_list := list_of_set next_trixels in
  Ok (fs, prev_trixels_list, <[depth := prev_trixels_list]> trixels_by_depth).

(** [backfill_trixels]: the returned dict, and the file system it leaves. *)
Definition backfill_trixels (dataset : Dataset) (saved_trixels : gset string)
    (fs : os.filesystem) : result (gmap Z (list string) * os.filesystem) :=
  let saved_trixels_list := list_of_set saved_trixels in
  first ← py_getitem saved_trixels_list 0;
  let saved_depth := name_depth first in
  if negb (forallb (fun trixel => name_depth trixel =? saved_depth)
             saved_trixels_list)
  then Raise (AssertionError "Not all saved trixels have the same depth")
  else
    let trixels_by_depth : gmap Z (list string) :=
      {[ saved_depth := saved_trixels_list ]} in
    '(fs, _, trixels_by_depth) ←
      for_each (backfill_level dataset)
        (py_range_desc (saved_depth - 1) (INGEST_MIN_DEPTH - 1))
        (fs, saved_trixels_list, trixels_by_depth);
    Ok (trixels_by_depth, fs).

End backfill.

End ingest.

(** ** server/app.py *)

Module app.

Import constants htm.

(** What a handler returns: [jsonify({"error": msg}), status], or a JSON body
    with status 200.  A handler that raises makes the server answer 500. *)
Inductive response : Type :=
| json_error (msg : string) (status : Z)
| json_trixels (body : list (string * list (float * float)))
| json_data (body : gmap string os.blob).

(** [not s] for a query or body parameter: absent or empty. *)
Definition falsy (s : option string) : bool :=
  match s with
  | None => true
  | Some s => String.eqb s ""
  end.

(** The two fields a detailed request reads from a JSON object:
    [json_body.get("trixels")] when it is a list of strings ([None] when the
    field is absent or is not a list), and [json_body.get("dataset")] when
    it is a string. *)
Record detailed_body : Type := mkBody {
  body_trixels : option (list string);
  body_dataset : option string
}.

(** [request.json] as the handler receives it: a JSON value that Python
    counts as false (null, false, 0, an empty string, list or object), an
    object with fields, or a value of another type, given by the name of its
    Python type.  Flask refuses a request that carries no JSON when
    [request.json] is read, before any of the handler's own tests. *)
Inductive json_value : Type :=
| json_falsy
| json_object (fields : detailed_body)
| json_other (type_name : string).

Section handlers.

Context {M : MathLib} {O : PySetOrder}.

(** [float(s)] on a string: [None] stands for ValueError. *)
Variable py_float : string -> option float.

(** [os.path.dirname(os.path.abspath(__file__))]. *)
Variable server_dir : string.

(** [trixels_in_halfspace] from the construction of the halfspace on. *)
Definition halfspace_trixels (lat lon radius : float) : result response :=
  let halfspace_vector := lat_lon_to_xyz lat lon in
  halfspace_distance ← sphere_surface_radius_to_halfspace_distance radius;
  let halfspace := mkHalfspace halfspace_vector halfspace_distance in
  trixels ← get_all_expanded_trixels_to_depth halfspace DETAILED_DEPTH;
  trixels_response ←
    for_each (fun trixels_response trixel =>
                entry ← lat_lon trixel;
                Ok (trixels_response ++ [entry]))
      trixels [];
  Ok (json_trixels trixels_response).

(** [trixels_in_halfspace] once the three parameters are floats. *)
Definition trixels_in_halfspace_floats (lat lon radius : float) : result response :=
  if negb ((-90 <=? lat)%float && (lat <=? 90)%float)
     || negb ((-180 <=? lon)%float && (lon <=? 180)%float)
  then Ok (json_error
             "Latitude must be between -90 and 90. Longitude must be between -180 and 180."
             400)
  else if (radius <? 0)%float
  then Ok (json_error "Radius must be greater than or equal to 0." 400)
  else if (MAX_RADIUS <? radius)%float
  then Ok (json_error "Radius must be less than or equal to 1000.0." 400)
  else halfspace_trixels lat lon radius.

(** [trixels_in_halfspace], on [request.args.get]. *)
Definition trixels_in_halfspace (args : string -> option string) : result response :=
  let lat := args "lat" in
  let lon := args "lon" in
  let radius := args "radius" in
  if falsy lat || falsy lon || falsy radius
  then Ok (json_error "Latitude, longitude and radius parameters are required." 400)
  else
    match lat ≫= py_float, lon ≫= py_float, radius ≫= py_float with
    | Some lat, Some lon, Some radius => trixels_in_halfspace_floats lat lon radius
    | _, _, _ => Ok (json_error "Invalid latitude, longitude or radius values." 400)
    end.

(** The body of [for trixel_name in trixel_names] in
    [detailed_by_trixel_names], on the dict [data]. *)
Definition load_trixel (fs : os.filesystem) (dataset_dir : string)
    (data : gmap string os.blob) (trixel_name : string)
  : result (gmap string os.blob) :=
  let trixel_file :=
    os.path_join dataset_dir [pystr.replace dash slash trixel_name; "data.npy"] in
  if negb (os.path_exists fs trixel_file) then Ok (<[trixel_name := []]> data)
  else
    trixel_data ← os.np_load fs trixel_file;
    Ok (<[trixel_name := trixel_data]> data).

(** [detailed_by_trixel_names] from the construction of the dataset's
    directory on. *)
Definition detailed_data (fs : os.filesystem) (dataset : string)
    (trixel_names : list string) : result response :=
  let dataset_dir := os.path_join server_dir ["data"; "processed"; dataset] in
  data ← for_each (load_trixel fs dataset_dir) trixel_names ∅;
  Ok (json_data data).

(** [detailed_by_trixel_names], on [request.json].  The handler calls
    [get_dataset_names()] with no argument. *)
Definition detailed_by_trixel_names (fs : os.filesystem)
    (json_body : json_value) : result response :=
  match json_body with
  | json_falsy => Ok (json_error "JSON body is required." 400)
  | json_other type_name =>
      Raise (AttributeError
               ("'" ++ type_name ++ "' object has no attribute 'get'"))
  | json_object json_body =>
      match body_trixels json_body with
      | None | Some [] =>
          Ok (json_error "Trixels parameter is required and must be a list." 400)
      | Some trixel_names =>
          let dataset := body_dataset json_body in
          if falsy dataset
          then Ok (json_error "Dataset parameter is required." 400)
          else
            let dataset := default "" dataset in
            dataset_names ←
              py_call_1 "get_dataset_names" "datasets_dir"
                (datasets.get_dataset_names fs) [];
            if negb (bool_decide (dataset ∈ dataset_names))
            then Ok (json_error ("Dataset " ++ dataset ++ " does not exist.") 400)
            else detailed_data fs dataset trixel_names
      end
  end.

End handlers.

End app.

(** ** server/ingest_data.py *)

Module ingest_data.

(** What running the script leaves: the exit status of the process, and the
    file system and printed lines when no exception escaped. *)
Record run : Type := mkRun {
  exit_status : Z;
  outcome : result (os.filesystem * list string)
}.

Section script.

(** [os.getcwd()]. *)
Variable cwd : string.

(** [process_data] from [get_ingestable_datasets] on: the scan of the input
    directory and the ingest of each dataset found, with what they print. *)
Variable ingest_datasets :
  os.filesystem -> string -> string -> result (os.filesystem * list string).

(** [join_abs_path] of logic/helpers.py. *)
Definition join_abs_path (path : string) (paths : list string) : string :=
  os.abspath cwd (os.path_join path paths).

(** [os.makedirs(path)] on a normalised absolute path: the directory and
    its missing ancestors. *)
Definition makedirs (fs : os.filesystem) (path : string) : os.filesystem :=
  let comps := filter (fun c => c ≠ "") (pystr.split slash path) in
  let ancestors :=
    map (fun k => ("/" ++ pystr.join "/" (take k comps))%string)
      (seq 1 (length comps)) in
  os.mkFs (os.dirs fs ∪ list_to_set ancestors) (os.files fs).

(** [process_data]. *)
Definition process_data (fs : os.filesystem) (input_dir output_dir : string)
  : result (os.filesystem * list string) :=
  let unprocessed_dir := join_abs_path input_dir [] in
  let processed_dir := join_abs_path output_dir [] in
  if negb (os.path_exists fs unprocessed_dir)
  then Ok (fs, [("Unprocessed directory " ++ unprocessed_dir ++ " does not exist")%string])
  else
    let fs :=
      if negb (os.path_exists fs processed_dir) then makedirs fs processed_dir
      else fs in
    '(fs, printed) ← ingest_datasets fs unprocessed_dir processed_dir;
    Ok (fs, ("Looking for datasets to process in " ++ unprocessed_dir)%string :: printed).

(** The [if __name__ == "__main__"] block, on [sys.argv]: [sys.exit(1)] and an
    exception that escapes both end the process with status 1, and the end
    of the script with status 0. *)
Definition main (fs : os.filesystem) (argv : list string) : run :=
  if negb (Z.of_nat (length argv) =? 3)
  then mkRun 1
         (Ok (fs, ["Usage: python -m server.scripts.ingest_data [input_dir] [output_dir]"]))
  else
    match (input_dir ← py_getitem argv 1;
           output_dir ← py_getitem argv 2;
           process_data fs input_dir output_dir) with
    | Ok done => mkRun 0 (Ok done)
    | Raise e => mkRun 1 (Raise e)
    end.

End script.

End ingest_data.

(** * Part II: properties *)

(** ** A reference numeric library in binary64

    Properties that hold of every numeric library are stated for every
    [MathLib].  Where a concrete run is needed, this library stands in for
    the C library and numpy: series for the trigonometric functions, exact at
    zero (cos 0 = 1, sin 0 = 0), and the closed form of the roots of a
    polynomial of degree at most two.  It agrees with the C library to a few
    units in the last place, which no run below is sensitive to. *)
Module reference.

Local Open Scope float_scope.

(** [1 - x2/(a(a+1)) * (1 - x2/((a+2)(a+3)) * (...))], [n] factors deep:
    the Taylor series of cos (from [a = 1]) and of sin x / x (from [a = 2]). *)
Fixpoint alternating (n : nat) (a x2 : float) : float :=
  match n with
  | O => 1
  | S n' => 1 - x2 / (a * (a + 1)) * alternating n' (a + 2) x2
  end.

Definition cos (x : float) : float := alternating 24 1 (x * x).
Definition sin (x : float) : float := x * alternating 24 2 (x * x).
Definition tan (x : float) : float := sin x / cos x.

(** [1/a - y2 * (1/(a+2) - y2 * (...))]: the series of atan y / y. *)
Fixpoint gregory (n : nat) (a y2 : float) : float :=
  match n with
  | O => 1 / a
  | S n' => 1 / a - y2 * gregory n' (a + 2) y2
  end.

(** atan, after halving the angle three times. *)
Definition half_angle (x : float) : float := x / (1 + sqrt (1 + x * x)).

Definition atan (x : float) : float :=
  let y := half_angle (half_angle (half_angle x)) in
  8 * (y * gregory 16 1 (y * y)).

Definition pi : float := 0x1.921fb54442d18p+1.

Definition acos (x : float) : float :=
  if x =? -1 then pi else 2 * atan (sqrt (1 - x * x) / (1 + x)).

Definition asin (x : float) : float := 2 * atan (x / (1 + sqrt (1 - x * x))).

Definition atan2 (y x : float) : float :=
  if 0 <? x then atan (y / x)
  else if x <? 0 then (if y <? 0 then atan (y / x) - pi else atan (y / x) + pi)
  else if 0 <? y then pi / 2
  else if y <? 0 then - (pi / 2)
  else y.

(** pow, at the exponents 0, 1 and 2. *)
Definition pow (x y : float) : float :=
  if y =? 0 then 1 else if y =? 1 then x else if y =? 2 then x * x else nan.

Definition finite (x : float) : bool := is_finite x.

(** The roots of a polynomial of degree at most two, as [np.roots] finds
    them: zero coefficients at the front are dropped and those at the back
    give zero roots; the roots of what is left are the eigenvalues of its
    companion matrix, whose first row holds the coefficients divided by the
    leading one: a matrix with an entry that is not finite is refused, and
    the two roots of a quadratic are a complex pair when the discriminant is
    negative. *)
Fixpoint drop_zeros (p : list float) : list float :=
  match p with
  | c :: rest => if c =? 0 then drop_zeros rest else p
  | [] => []
  end.

Definition roots (p : list float) : result (list complex) :=
  let stripped := drop_zeros p in
  let core := rev (drop_zeros (rev stripped)) in
  let trailing := repeat ((0, 0) : complex) (length stripped - length core) in
  match core with
  | [a; b; c] =>
      let B := b / a in
      let C := c / a in
      let disc := B * B - 4 * C in
      if negb (finite B && finite C) then Raise LinAlgError
      else if disc <? 0
      then Ok ([ (- B / 2, sqrt (- disc) / 2); (- B / 2, - (sqrt (- disc) / 2)) ]
                 ++ trailing)
      else Ok ([ ((- B + sqrt disc) / 2, 0); ((- B - sqrt disc) / 2, 0) ]
                 ++ trailing)
  | [a; b] =>
      if negb (finite (b / a)) then Raise LinAlgError
      else Ok ((- (b / a), 0) :: trailing)
  | _ => Ok trailing
  end.

End reference.

Definition reference_math : MathLib := {|
  libm_cos := reference.cos;
  libm_sin := reference.sin;
  libm_acos := reference.acos;
  libm_asin := reference.asin;
  libm_atan2 := reference.atan2;
  libm_tan := reference.tan;
  libm_pow := reference.pow;
  np_roots := reference.roots
|}.

(** ** Subdivision (htm.py) *)

Section subdivision_table.

Import htm.

(** The spec's words: midpoint(a, b) = normalize(a + b). *)
Definition normalize (v : coordinates_type) : coordinates_type :=
  np_div v (np_linalg_norm v).

Definition midpoint (a b : coordinates_type) : coordinates_type :=
  normalize (np_add a b).

(** C4: for a trixel named P with vertices (v0, v1, v2), [get_subtrixels]
    yields exactly four children, in this order: P-0 with (v0, w2, w1), P-1
    with (v1, w0, w2), P-2 with (v2, w1, w0) and P-3 with (w0, w1, w2), where
    w0 = midpoint(v1, v2), w1 = midpoint(v2, v0), w2 = midpoint(v0, v1) and
    midpoint(a, b) = normalize(a + b). *)
Theorem get_subtrixels_table (P : string) (v0 v1 v2 : coordinates_type) :
  let w0 := midpoint v1 v2 in
  let w1 := midpoint v2 v0 in
  let w2 := midpoint v0 v1 in
  get_subtrixels (mkTrixel P (v0, v1, v2)) =
    [ mkTrixel (P ++ "-0") (v0, w2, w1);
      mkTrixel (P ++ "-1") (v1, w0, w2);
      mkTrixel (P ++ "-2") (v2, w1, w0);
      mkTrixel (P ++ "-3") (w0, w1, w2) ]
  /\ midpoint_xyz = midpoint.
Proof.
  split; reflexivity.
Qed.

End subdivision_table.

(** ** Descent from a point (htm.py) *)

Section descent.

Import htm.

Lemma radians_zero : math_radians 0 = 0%float.
Proof. vm_compute. reflexivity. Qed.

Lemma lat_lon_to_xyz_origin (M : MathLib) :
  libm_cos 0 = 1%float -> libm_sin 0 = 0%float ->
  lat_lon_to_xyz 0 0 = (1, 0, 0)%float.
Proof.
  intros Hcos Hsin. unfold lat_lon_to_xyz.
  rewrite radians_zero, Hcos, Hsin. vm_compute. reflexivity.
Qed.

(** C1, as the code has it: with a C library that returns cos 0 = 1 and
    sin 0 = 0, the point at latitude 0, longitude 0 has z = 0, so the octant
    test [z > 0] fails and the descent starts in the southern root S3: the
    trixel found at depth 1 is named "S3" and the one at depth 2 "S3-2". *)
Theorem find_trixel_at_origin (M : MathLib) :
  libm_cos 0 = 1%float -> libm_sin 0 = 0%float ->
  name <$> find_trixel_from_lat_lon 0 0 1 = Ok "S3"
  /\ name <$> find_trixel_from_lat_lon 0 0 2 = Ok "S3-2".
Proof.
  intros Hcos Hsin. unfold find_trixel_from_lat_lon.
  rewrite (lat_lon_to_xyz_origin M Hcos Hsin).
  split; vm_compute; reflexivity.
Qed.

Lemma find_trixel_at_origin_witness :
  (@libm_cos reference_math 0 = 1%float /\ @libm_sin reference_math 0 = 0%float)
  /\ name <$> @find_trixel_from_lat_lon reference_math 0 0 1 = Ok "S3"
  /\ name <$> @find_trixel_from_lat_lon reference_math 0 0 2 = Ok "S3-2".
Proof.
  split.
  - split; vm_compute; reflexivity.
  - apply (find_trixel_at_origin reference_math); vm_compute; reflexivity.
Defined.

(** C1, as the spec states it, fails: at latitude 0, longitude 0 the descent
    does not return "N0" at depth 1, nor "N0-2" at depth 2. *)
Lemma find_trixel_at_origin_not_N0 :
  name <$> @find_trixel_from_lat_lon reference_math 0 0 1 <> Ok "N0"
  /\ name <$> @find_trixel_from_lat_lon reference_math 0 0 2 <> Ok "N0-2".
Proof.
  split; vm_compute; discriminate.
Qed.

End descent.

(** ** Python indexing *)

Lemma py_getitem_nonneg {A} (xs : list A) (i : Z) (x : A) :
  0 <= i -> xs !! Z.to_nat i = Some x -> py_getitem xs i = Ok x.
Proof.
  intros Hi Hx. unfold py_getitem.
  pose proof (lookup_lt_Some _ _ _ Hx) as Hlt.
  destruct (i <? 0) eqn:Hneg; [apply Z.ltb_lt in Hneg; lia |].
  rewrite Hneg.
  destruct (Z.of_nat (length xs) <=? i) eqn:Hge; [apply Z.leb_le in Hge; lia |].
  simpl. rewrite Hx. reflexivity.
Qed.

Lemma py_getitem_negative {A} (xs : list A) (i : Z) (x : A) :
  i < 0 -> 0 <= i + Z.of_nat (length xs) ->
  xs !! Z.to_nat (i + Z.of_nat (length xs)) = Some x ->
  py_getitem xs i = Ok x.
Proof.
  intros Hi Hlo Hx. unfold py_getitem.
  destruct (i <? 0) eqn:Hneg; [| apply Z.ltb_ge in Hneg; lia].
  destruct (i + Z.of_nat (length xs) <? 0) eqn:Hlt;
    [apply Z.ltb_lt in Hlt; lia |].
  destruct (Z.of_nat (length xs) <=? i + Z.of_nat (length xs)) eqn:Hge;
    [apply Z.leb_le in Hge; lia |].
  simpl. rewrite Hx. reflexivity.
Qed.

Lemma lookup_in_range {A} (xs : list A) (i : Z) :
  0 <= i < Z.of_nat (length xs) -> exists x, xs !! Z.to_nat i = Some x.
Proof.
  intros Hi. apply lookup_lt_is_Some_2. lia.
Qed.

(** ** The grid-to-trixel matrix (ingest.py) *)

Section mapping_lookup.

Import ingest.

Definition width (m : Mapping) : Z := max_x m - min_x m + 1.
Definition height (m : Mapping) : Z := max_y m - min_y m + 1.

(** The matrix [build_utm_to_htm_mapping] fills: one row for each y of
    [min_y .. max_y], one name in it for each x of [min_x .. max_x]. *)
Definition rectangular (m : Mapping) : Prop :=
  Z.of_nat (length (mapping m)) = height m
  /\ Forall (fun row => Z.of_nat (length row) = width m) (mapping m).

(** The name stored for the cell (x, y) of the grid; cells outside the
    rectangle have none. *)
Definition stored_name (m : Mapping) (x y : Z) : option string :=
  if (min_x m <=? x) && (x <=? max_x m) && (min_y m <=? y) && (y <=? max_y m)
  then row ← mapping m !! Z.to_nat (y - min_y m); row !! Z.to_nat (x - min_x m)
  else None.

Lemma stored_name_in_range (m : Mapping) (x y : Z) :
  rectangular m ->
  min_x m <= x <= max_x m -> min_y m <= y <= max_y m ->
  exists row n,
    mapping m !! Z.to_nat (y - min_y m) = Some row
    /\ row !! Z.to_nat (x - min_x m) = Some n
    /\ Z.of_nat (length row) = width m
    /\ stored_name m x y = Some n.
Proof.
  intros [Hrows Hcols] Hx Hy. unfold height in Hrows.
  destruct (lookup_in_range (mapping m) (y - min_y m)) as [row Hrow]; [lia |].
  assert (Hlen : Z.of_nat (length row) = width m).
  { rewrite Forall_lookup in Hcols. exact (Hcols _ _ Hrow). }
  unfold width in Hlen.
  destruct (lookup_in_range row (x - min_x m)) as [n Hn]; [lia |].
  exists row, n. repeat split; try assumption.
  unfold stored_name.
  replace (min_x m <=? x) with true by (symmetry; apply Z.leb_le; lia).
  replace (x <=? max_x m) with true by (symmetry; apply Z.leb_le; lia).
  replace (min_y m <=? y) with true by (symmetry; apply Z.leb_le; lia).
  replace (y <=? max_y m) with true by (symmetry; apply Z.leb_le; lia).
  simpl. rewrite Hrow. simpl. exact Hn.
Qed.

(** C10: on a rectangular matrix, [get_trixel_name] returns the name stored
    for the cell (x, y) when min_x <= x <= max_x and min_y <= y <= max_y.  It
    checks no bound: for x below min_x by at most the width of a row (with y in
    range) it returns, without failing, the name stored for the cell
    (x + width, y), and for y below min_y by at most the number of rows the
    name stored for the cell (x, y + height). *)
Theorem get_trixel_name_unchecked (m : Mapping) (x y : Z) :
  rectangular m ->
  (min_x m <= x <= max_x m -> min_y m <= y <= max_y m ->
   exists n, stored_name m x y = Some n /\ get_trixel_name m x y = Ok n)
  /\ (min_x m - width m <= x < min_x m -> min_y m <= y <= max_y m ->
      exists n, stored_name m x y = None
                /\ stored_name m (x + width m) y = Some n
                /\ get_trixel_name m x y = Ok n)
  /\ (min_y m - height m <= y < min_y m -> min_x m <= x <= max_x m ->
      exists n, stored_name m x y = None
                /\ stored_name m x (y + height m) = Some n
                /\ get_trixel_name m x y = Ok n).
Proof.
  intros Hrect. split; [| split].
  - intros Hx Hy.
    destruct (stored_name_in_range m x y Hrect Hx Hy) as (row & n & Hrow & Hn & _ & Hs).
    exists n. split; [exact Hs |].
    unfold get_trixel_name.
    rewrite (py_getitem_nonneg (mapping m) (y - min_y m) row ltac:(lia) Hrow). simpl.
    apply py_getitem_nonneg; [lia | exact Hn].
  - intros Hx Hy. unfold width in Hx.
    destruct (stored_name_in_range m (x + width m) y Hrect) as (row & n & Hrow & Hn & Hlen & Hs);
      [unfold width; lia | lia |].
    exists n. split; [| split; [exact Hs |]].
    + unfold stored_name.
      replace (min_x m <=? x) with false by (symmetry; apply Z.leb_gt; lia).
      reflexivity.
    + unfold get_trixel_name.
      rewrite (py_getitem_nonneg (mapping m) (y - min_y m) row ltac:(lia) Hrow). simpl.
      apply py_getitem_negative; [lia | unfold width in Hlen; lia |].
      rewrite Hlen. rewrite <- Hn. f_equal. unfold width. lia.
  - intros Hy Hx. destruct Hrect as [Hrows Hcols]. unfold height in Hy.
    destruct (stored_name_in_range m x (y + height m) (conj Hrows Hcols))
      as (row & n & Hrow & Hn & Hlen & Hs); [lia | unfold height; lia |].
    exists n. split; [| split; [exact Hs |]].
    + unfold stored_name.
      replace (min_y m <=? y) with false by (symmetry; apply Z.leb_gt; lia).
      rewrite andb_false_r. reflexivity.
    + unfold get_trixel_name.
      assert (Hget : py_getitem (mapping m) (y - min_y m) = Ok row).
      { apply py_getitem_negative; [lia | unfold height in Hrows; lia |].
        rewrite Hrows. rewrite <- Hrow. f_equal. unfold height. lia. }
      rewrite Hget. simpl.
      apply py_getitem_nonneg; [lia | exact Hn].
Qed.

(** A two-by-one grid over x = 0, 1 and y = 0. *)
Definition two_cells : Mapping :=
  mkMapping 0 0 1 0 [["N0-0"; "N0-1"]].

Lemma get_trixel_name_unchecked_witness :
  rectangular two_cells
  /\ (exists n, stored_name two_cells 0 0 = Some n
                /\ get_trixel_name two_cells 0 0 = Ok n)
  /\ (exists n, stored_name two_cells (-1) 0 = None
                /\ stored_name two_cells (-1 + width two_cells) 0 = Some n
                /\ get_trixel_name two_cells (-1) 0 = Ok n).
Proof.
  assert (Hrect : rectangular two_cells).
  { split; [reflexivity | repeat constructor]. }
  split; [exact Hrect | split].
  - apply (proj1 (get_trixel_name_unchecked two_cells 0 0 Hrect));
      simpl; lia.
  - apply (proj1 (proj2 (get_trixel_name_unchecked two_cells (-1) 0 Hrect)));
      simpl; unfold width; simpl; lia.
Defined.

End mapping_lookup.

(** ** The ingest command line (ingest_data.py) *)

Section ingest_cli.

Import ingest_data.

Variable cwd : string.
Variable ingest_datasets :
  os.filesystem -> string -> string -> result (os.filesystem * list string).

(** C5, as the code has it: run with any number of arguments other than two
    ([sys.argv] of length other than 3) the script ends with exit status 1;
    run with two arguments of which the first names an input directory that
    does not exist, it prints one diagnostic line, leaves the file system as
    it was, and ends with exit status 0. *)
Theorem ingest_cli_exit_status (fs : os.filesystem) (argv : list string) :
  (length argv <> 3%nat -> exit_status (main cwd ingest_datasets fs argv) = 1)
  /\ (forall script input_dir output_dir,
        argv = [script; input_dir; output_dir] ->
        os.path_exists fs (join_abs_path cwd input_dir []) = false ->
        main cwd ingest_datasets fs argv =
          mkRun 0
            (Ok (fs, [("Unprocessed directory " ++ join_abs_path cwd input_dir []
                         ++ " does not exist")%string]))).
Proof.
  split.
  - intros Hlen. unfold main.
    destruct (Z.of_nat (length argv) =? 3) eqn:E; [| reflexivity].
    apply Z.eqb_eq in E. lia.
  - intros script input_dir output_dir -> Hmissing.
    unfold main.
    change (py_getitem [script; input_dir; output_dir] 1) with (Ok input_dir).
    change (py_getitem [script; input_dir; output_dir] 2) with (Ok output_dir).
    change (negb (Z.of_nat (length [script; input_dir; output_dir]) =? 3))
      with false.
    unfold mbind, result_bind, process_data. rewrite Hmissing. reflexivity.
Qed.

End ingest_cli.

(** An empty disk but for the directory the command runs in. *)
Definition bare_fs : os.filesystem := os.mkFs {[ "/srv" ]} ∅.

Definition ingest_nothing (fs : os.filesystem) (unprocessed processed : string)
  : result (os.filesystem * list string) :=
  Ok (fs, ["No datasets to process"]).

Lemma ingest_cli_exit_status_witness :
  (length ["ingest_data.py"] <> 3%nat
   /\ os.path_exists bare_fs (ingest_data.join_abs_path "/srv" "missing" []) = false)
  /\ ingest_data.exit_status
       (ingest_data.main "/srv" ingest_nothing bare_fs ["ingest_data.py"]) = 1
  /\ ingest_data.main "/srv" ingest_nothing bare_fs
       ["ingest_data.py"; "missing"; "out"] =
     ingest_data.mkRun 0
       (Ok (bare_fs, ["Unprocessed directory /srv/missing does not exist"])).
Proof.
  split; [split; [simpl; lia | vm_compute; reflexivity] |].
  split.
  - apply (proj1 (ingest_cli_exit_status "/srv" ingest_nothing bare_fs
                    ["ingest_data.py"])).
    simpl. lia.
  - apply (proj2 (ingest_cli_exit_status "/srv" ingest_nothing bare_fs
                    ["ingest_data.py"; "missing"; "out"])
             "ingest_data.py" "missing" "out" eq_refl).
    vm_compute. reflexivity.
Defined.

(** C5, as the spec states it, fails for a missing input directory: the
    script run as [ingest missing out] in /srv, where /srv/missing does not
    exist, ends with exit status 0. *)
Lemma ingest_cli_missing_input_exits_zero :
  os.path_exists bare_fs (ingest_data.join_abs_path "/srv" "missing" []) = false
  /\ ingest_data.exit_status
       (ingest_data.main "/srv" ingest_nothing bare_fs
          ["ingest_data.py"; "missing"; "out"]) = 0.
Proof.
  split; vm_compute; reflexivity.
Qed.

(** ** The trixel name grammar *)

(** [(N0|N1|N2|N3|S0|S1|S2|S3)(-[0-3])*], read off the split name. *)
Definition is_root_name (s : string) : bool :=
  bool_decide (s ∈ map fst htm.octahedron).

Definition is_child_digit (s : string) : bool :=
  bool_decide (s ∈ ["0"; "1"; "2"; "3"]).

Definition is_trixel_name (s : string) : bool :=
  match pystr.split dash s with
  | root :: digits => is_root_name root && forallb is_child_digit digits
  | [] => false
  end.

(** ** The detailed query (app.py) *)

Section detailed_query.

Import app.

(** Two processed datasets under /srv/server/data/processed, each with the
    blob of one trixel. *)
Definition two_datasets : os.filesystem :=
  let fs := ingest_data.makedirs (os.mkFs ∅ ∅) "/srv/server/data/processed/alpha/N0" in
  let fs := ingest_data.makedirs fs "/srv/server/data/processed/beta/N0" in
  os.mkFs (os.dirs fs)
    {[ "/srv/server/data/processed/alpha/N0/data.npy" := [[1; 2; 3; 4; 5; 6]%float];
       "/srv/server/data/processed/beta/N0/data.npy" := [[7; 8; 9; 10; 11; 12]%float] ]}.

(** Given the directory of the processed datasets, [get_dataset_names] lists
    alpha and beta, in the order the operating system gives. *)
Lemma get_dataset_names_two_datasets {O : PySetOrder} :
  exists names,
    datasets.get_dataset_names two_datasets "/srv/server/data/processed" = Ok names
    /\ names ≡ₚ ["alpha"; "beta"].
Proof.
  unfold datasets.get_dataset_names, os.listdir.
  replace (os.resolve two_datasets "/srv/server/data/processed")
    with (@Ok (list string) ["srv"; "server"; "data"; "processed"])
    by (vm_compute; reflexivity).
  change (Ok ?a ≫= ?f) with (f a). cbv beta.
  replace (os.is_directory two_datasets ["srv"; "server"; "data"; "processed"])
    with true by (vm_compute; reflexivity).
  cbv iota. change (Ok ?a ≫= ?f) with (f a). cbv beta.
  set (X := list_to_set _ : gset string).
  assert (HX : elements X = ["alpha"; "beta"]) by (vm_compute; reflexivity).
  eexists. split; [reflexivity |].
  assert (Hall : forall d, d ∈ list_of_set X ->
            os.path_isdir two_datasets (os.path_join "/srv/server/data/processed" [d])
            && negb (pystr.startswith "." d) = true).
  { intros d Hd. rewrite list_of_set_perm, HX in Hd.
    apply list_elem_of_In in Hd. simpl in Hd.
    destruct Hd as [<- | [<- | []]]; vm_compute; reflexivity. }
  rewrite <- HX, <- list_of_set_perm.
  induction (list_of_set X) as [| d l IH]; [reflexivity |].
  cbn [List.filter]. rewrite (Hall d) by left.
  rewrite IH; [reflexivity |]. intros d' Hd'. apply Hall. right. exact Hd'.
Qed.

(** C9: [detailed_by_trixel_names] checks no requested name against the
    name grammar, and its loop over the requested names serves files from
    outside the dataset: for the dataset alpha and the requested name
    "..-beta-N0", which is no trixel name, the path built by replacing "-"
    with "/" and joining onto alpha's directory leads to beta's blob, a file
    outside alpha's directory, and the loop stores that file's rows under
    the name.  The handler does not get as far as the loop.  It asks for the
    dataset names with [get_dataset_names()], a call without the argument
    that logic/datasets.py declares, and raises TypeError: the request is
    answered with an error and with no file's contents. *)
Theorem detailed_by_trixel_names_type_error :
  let server_dir := "/srv/server" in
  let dataset := "alpha" in
  let trixel_name := "..-beta-N0" in
  let dataset_dir := os.path_join server_dir ["data"; "processed"; dataset] in
  let trixel_file :=
    os.path_join dataset_dir [pystr.replace dash slash trixel_name; "data.npy"] in
  let rows := [[7; 8; 9; 10; 11; 12]%float] in
  is_trixel_name trixel_name = false
  /\ os.resolve two_datasets dataset_dir
     = Ok ["srv"; "server"; "data"; "processed"; "alpha"]
  /\ os.resolve two_datasets trixel_file
     = Ok ["srv"; "server"; "data"; "processed"; "beta"; "N0"; "data.npy"]
  /\ String.prefix (dataset_dir ++ "/")
       (os.entry ["srv"; "server"; "data"; "processed"; "beta"; "N0"; "data.npy"])
     = false
  /\ os.np_load two_datasets trixel_file = Ok rows
  /\ detailed_data server_dir two_datasets dataset [trixel_name]
     = Ok (json_data {[ trixel_name := rows ]})
  /\ forall O : PySetOrder,
       detailed_by_trixel_names server_dir two_datasets
         (json_object (mkBody (Some [trixel_name]) (Some dataset)))
       = Raise (TypeError
                  "get_dataset_names() missing 1 required positional argument: 'datasets_dir'").
Proof.
  cbv zeta.
  split; [vm_compute; reflexivity |].
  split; [vm_compute; reflexivity |].
  split; [vm_compute; reflexivity |].
  split; [vm_compute; reflexivity |].
  split; [vm_compute; reflexivity |].
  split; [vm_compute; reflexivity |].
  intros O. reflexivity.
Qed.

End detailed_query.

(** ** The radius query (app.py) *)

Section radius_query.

Import app constants.

Context {M : MathLib}.

(** Past its range checks the handler answers with a list of trixels or
    raises: it builds no error response. *)
Lemma halfspace_trixels_no_error (lat lon radius : float) (msg : string) (status : Z) :
  halfspace_trixels lat lon radius <> Ok (json_error msg status).
Proof.
  unfold halfspace_trixels.
  destruct (htm.sphere_surface_radius_to_halfspace_distance radius) as [d |];
    simpl; [| discriminate].
  destruct (htm.get_all_expanded_trixels_to_depth _ _) as [trixels |]; simpl;
    [| discriminate].
  destruct (for_each _ trixels []); simpl; discriminate.
Qed.

(** With the three parameters present, not empty, and parsed by [float],
    the handler is its range checks on the three numbers. *)
Lemma trixels_in_halfspace_parsed (py_float : string -> option float)
    (args : string -> option string) (slat slon sradius : string)
    (lat lon radius : float) :
  args "lat" = Some slat -> args "lon" = Some slon ->
  args "radius" = Some sradius ->
  slat <> EmptyString -> slon <> EmptyString -> sradius <> EmptyString ->
  py_float slat = Some lat -> py_float slon = Some lon ->
  py_float sradius = Some radius ->
  trixels_in_halfspace py_float args = trixels_in_halfspace_floats lat lon radius.
Proof.
  intros Alat Alon Aradius Nlat Nlon Nradius Plat Plon Pradius.
  unfold trixels_in_halfspace. rewrite Alat, Alon, Aradius. simpl.
  rewrite Plat, Plon, Pradius.
  apply String.eqb_neq in Nlat, Nlon, Nradius.
  rewrite Nlat, Nlon, Nradius. reflexivity.
Qed.

(** C8 at a radius that is not a number: [float("nan")] parses, and both
    [radius < 0] and [radius > MAX_RADIUS] are false of NaN, so with latitude
    0 and longitude 0 the handler rejects nothing and goes on to enumerate
    trixels for a halfspace whose distance is cos(NaN / EARTH_RADIUS); whatever
    that yields, it is not an error response. *)
Theorem trixels_in_halfspace_nan_radius :
  trixels_in_halfspace_floats 0 0 nan = halfspace_trixels 0 0 nan
  /\ (forall msg status,
        trixels_in_halfspace_floats 0 0 nan <> Ok (json_error msg status))
  /\ ((0 <=? nan)%float && (nan <=? MAX_RADIUS)%float = false).
Proof.
  assert (H : trixels_in_halfspace_floats 0 0 nan = halfspace_trixels 0 0 nan)
    by reflexivity.
  split; [exact H | split; [| reflexivity]].
  intros msg status. rewrite H. apply halfspace_trixels_no_error.
Qed.

End radius_query.

(** ** Splitting and joining strings *)

Section string_facts.

Import pystr.

Lemma split_nonempty (sep : ascii) (s : string) : split sep s <> [].
Proof.
  destruct s as [| c s]; simpl; [discriminate |].
  destruct (Ascii.eqb c sep); [discriminate |].
  destruct (split sep s); discriminate.
Qed.

Lemma split_cons_char (sep c : ascii) (s : string) :
  Ascii.eqb c sep = false ->
  exists x xs, split sep s = x :: xs /\ split sep (String c s) = String c x :: xs.
Proof.
  intros Hc. simpl. rewrite Hc.
  destruct (split sep s) as [| x xs] eqn:E; [destruct (split_nonempty _ _ E) |].
  exists x, xs. split; reflexivity.
Qed.

(** Splitting [a + sep + b] splits [a] and [b] apart. *)
Lemma split_app_sep (sep : ascii) (a b : string) :
  split sep (a ++ String sep b) = split sep a ++ split sep b.
Proof.
  induction a as [| c a IH]; simpl.
  - rewrite Ascii.eqb_refl. reflexivity.
  - destruct (Ascii.eqb c sep) eqn:Hc.
    + rewrite IH. reflexivity.
    + rewrite IH.
      destruct (split sep a) as [| x xs] eqn:E; [destruct (split_nonempty _ _ E) |].
      reflexivity.
Qed.

Lemma append_cancel_l (p a b : string) :
  (p ++ a)%string = (p ++ b)%string -> a = b.
Proof.
  induction p as [| c p IH]; simpl; intros H; [exact H |].
  injection H as H. apply IH, H.
Qed.

End string_facts.

(** ** Loops *)

Lemma for_each_app {A S} (body : S -> A -> result S) (xs ys : list A) (s : S) :
  for_each body (xs ++ ys) s = (s' ← for_each body xs s; for_each body ys s').
Proof.
  revert s. induction xs as [| x xs IH]; intros s; simpl; [reflexivity |].
  destruct (body s x) as [s1 | e]; simpl; [apply IH | reflexivity].
Qed.

Lemma for_each_cons {A S} (body : S -> A -> result S) (x : A) (xs : list A) (s : S) :
  for_each body (x :: xs) s = (s' ← body s x; for_each body xs s').
Proof. reflexivity. Qed.

(** An invariant of the accumulator that every step keeps holds at the end. *)
Lemma for_each_invariant {A S} (P : S -> Prop) (body : S -> A -> result S)
    (xs : list A) :
  (forall s x s', x ∈ xs -> P s -> body s x = Ok s' -> P s') ->
  forall s s', P s -> for_each body xs s = Ok s' -> P s'.
Proof.
  induction xs as [| x xs IH]; intros Hstep s s' Hs Hrun; simpl in Hrun.
  - injection Hrun as <-. exact Hs.
  - destruct (body s x) as [s1 |] eqn:Hb; simpl in Hrun; [| discriminate].
    apply (IH (fun s0 y s0' Hy => Hstep s0 y s0' (list_elem_of_further _ _ _ Hy))
             s1 s'); [| exact Hrun].
    apply (Hstep s x s1); [left | exact Hs | exact Hb].
Qed.

(** A loop whose body never raises returns. *)
Lemma for_each_total {A S} (body : S -> A -> result S) (xs : list A) :
  (forall s x, is_Ok (body s x)) -> forall s, is_Ok (for_each body xs s).
Proof.
  intros Hbody. induction xs as [| x xs IH]; intros s; simpl.
  - exists s. reflexivity.
  - destruct (Hbody s x) as [s1 ->]. simpl. apply IH.
Qed.

Lemma py_range_for_succ {S} (n : nat) (body : S -> result S) (s : S) :
  py_range_for (Z.of_nat (Datatypes.S n)) body s =
    (s' ← py_range_for (Z.of_nat n) body s; body s').
Proof.
  unfold py_range_for. rewrite !Nat2Z.id. reflexivity.
Qed.

(** ** Depths and names of trixels (htm.py) *)

Section trixel_depth.

Import htm.

Lemma get_subtrixels_names (t : Trixel) :
  map name (get_subtrixels t) =
    [ (name t ++ "-0")%string; (name t ++ "-1")%string;
      (name t ++ "-2")%string; (name t ++ "-3")%string ].
Proof.
  unfold get_subtrixels. destruct (vertices t) as [[v0 v1] v2]. reflexivity.
Qed.

Lemma subtrixel_name (t c : Trixel) :
  c ∈ get_subtrixels t ->
  exists digit, digit ∈ ["0"; "1"; "2"; "3"]
                /\ name c = (name t ++ String dash digit)%string
                /\ pystr.split dash digit = [digit].
Proof.
  intros Hc.
  assert (Hn : name c ∈ map name (get_subtrixels t)).
  { apply list_elem_of_In, in_map, list_elem_of_In, Hc. }
  rewrite get_subtrixels_names in Hn.
  repeat (apply elem_of_cons in Hn; destruct Hn as [-> | Hn]);
    [exists "0" | exists "1" | exists "2" | exists "3" | inversion Hn];
    (split; [set_solver | split; reflexivity]).
Qed.

Lemma subtrixel_split (t c : Trixel) :
  c ∈ get_subtrixels t ->
  exists digit, digit ∈ ["0"; "1"; "2"; "3"]
                /\ pystr.split dash (name c) = pystr.split dash (name t) ++ [digit].
Proof.
  intros Hc. destruct (subtrixel_name t c Hc) as (digit & Hd & Hname & Hsplit).
  exists digit. split; [exact Hd |].
  rewrite Hname, split_app_sep, Hsplit. reflexivity.
Qed.

(** A child is one level below its parent. *)
Lemma subtrixel_depth (t c : Trixel) :
  c ∈ get_subtrixels t -> depth c = depth t + 1.
Proof.
  intros Hc. destruct (subtrixel_split t c Hc) as (digit & _ & Hsplit).
  unfold depth. rewrite Hsplit, length_app. simpl. lia.
Qed.

Lemma root_depth (t : Trixel) : t ∈ octahedron_values -> depth t = 1.
Proof.
  intros Ht. unfold octahedron_values, octahedron in Ht. simpl in Ht.
  repeat (apply elem_of_cons in Ht; destruct Ht as [-> | Ht]);
    try reflexivity.
  inversion Ht.
Qed.

Lemma depth_positive (t : Trixel) : 1 <= depth t.
Proof.
  unfold depth.
  destruct (pystr.split dash (name t)) eqn:E; [destruct (split_nonempty _ _ E) |].
  simpl. lia.
Qed.

Lemma flat_map_subtrixels_depth (d : Z) (l : list Trixel) :
  Forall (fun t => depth t = d) l ->
  Forall (fun t => depth t = d + 1) (flat_map get_subtrixels l).
Proof.
  intros Hl. apply Forall_forall. intros c Hc.
  apply list_elem_of_In, in_flat_map in Hc. destruct Hc as (t & Ht & Hc).
  rewrite Forall_forall in Hl.
  rewrite (subtrixel_depth t c); [| apply list_elem_of_In, Hc].
  rewrite (Hl t); [reflexivity | apply list_elem_of_In, Ht].
Qed.

(** The descendants of a trixel [k] levels below it, by iterated
    subdivision; the trixel itself for [k = 0]. *)
Definition descendants (k : nat) (t : Trixel) : list Trixel :=
  Nat.iter k (flat_map get_subtrixels) [t].

Lemma descendants_depth (k : nat) (t : Trixel) :
  Forall (fun c => depth c = depth t + Z.of_nat k) (descendants k t).
Proof.
  induction k as [| k IH].
  - simpl. constructor; [lia | constructor].
  - unfold descendants in *. simpl.
    replace (depth t + Z.of_nat (S k)) with (depth t + Z.of_nat k + 1) by lia.
    apply flat_map_subtrixels_depth, IH.
Qed.

Lemma iter_flat_map_shift (k : nat) (t : Trixel) :
  Nat.iter k (flat_map get_subtrixels) (get_subtrixels t) = descendants (S k) t.
Proof.
  unfold descendants. rewrite Nat.iter_succ_r. simpl. rewrite app_nil_r.
  reflexivity.
Qed.

(** [get_subtrixels_at_depth] returns the descendants at the depth asked
    for, for every depth at or below the trixel's own. *)
Lemma get_subtrixels_at_depth_descendants (t : Trixel) (d : Z) :
  depth t <= d ->
  get_subtrixels_at_depth t d = Ok (descendants (Z.to_nat (d - depth t)) t).
Proof.
  intros Hd. pose proof (depth_positive t) as Hpos.
  unfold get_subtrixels_at_depth.
  destruct (d <? 1) eqn:E1; [apply Z.ltb_lt in E1; lia |].
  destruct (depth t =? d) eqn:E2.
  - apply Z.eqb_eq in E2. rewrite E2, Z.sub_diag. reflexivity.
  - apply Z.eqb_neq in E2.
    destruct (d <? depth t) eqn:E3; [apply Z.ltb_lt in E3; lia |].
    unfold py_range_iter. rewrite iter_flat_map_shift. do 2 f_equal. lia.
Qed.

End trixel_depth.

(** ** Enumeration of the trixels of a cap (htm.py) *)

Section cap_enumeration.

Import htm.

Context {M : MathLib}.

(** The descendants of a trixel at depth [d]: the trixel itself when it is
    at depth [d] already. *)
Definition descendants_at (d : Z) (t : Trixel) : list Trixel :=
  descendants (Z.to_nat (d - depth t)) t.

(** What the enumeration keeps between levels: selected trixels no deeper
    than level [k], candidates exactly at level [k]. *)
Definition level_invariant (k : Z) (acc : list Trixel * list Trixel) : Prop :=
  Forall (fun t => depth t <= k) (fst acc) /\ Forall (fun t => depth t = k) (snd acc).

Lemma classify_keeps_level (H : Halfspace) (k : Z) (xs : list Trixel) :
  Forall (fun t => depth t = k) xs ->
  forall acc acc', level_invariant k acc ->
    for_each (classify H) xs acc = Ok acc' -> level_invariant k acc'.
Proof.
  intros Hxs. apply for_each_invariant.
  intros [sel cand] t [sel' cand'] Ht [Hsel Hcand] Hstep.
  rewrite Forall_forall in Hxs. specialize (Hxs t Ht).
  unfold classify in Hstep.
  destruct (intersects_halfspace t H) as [[| |] | e]; simpl in Hstep;
    try discriminate; injection Hstep as <- <-; split; simpl in *;
    try assumption.
  - apply Forall_app. split; [assumption | constructor; [| constructor]]. lia.
  - apply Forall_app. split; [assumption | constructor; [| constructor]]. lia.
Qed.

Lemma refine_level (H : Halfspace) (k : Z) (acc acc' : list Trixel * list Trixel) :
  level_invariant k acc ->
  (let '(selected, candidates) := acc in
   for_each (classify H) (flat_map get_subtrixels candidates) (selected, []))
  = Ok acc' ->
  level_invariant (k + 1) acc'.
Proof.
  destruct acc as [sel cand]. intros [Hsel Hcand] Hrun. simpl in *.
  eapply (classify_keeps_level H (k + 1)); [| | exact Hrun].
  - apply flat_map_subtrixels_depth, Hcand.
  - split; simpl; [| constructor].
    eapply Forall_impl; [exact Hsel |]. simpl. intros. lia.
Qed.

Lemma refine_levels (H : Halfspace) (n : nat) (acc acc' : list Trixel * list Trixel) :
  level_invariant 1 acc ->
  py_range_for (Z.of_nat n)
    (fun '(selected, candidates) =>
       for_each (classify H) (flat_map get_subtrixels candidates) (selected, []))
    acc = Ok acc' ->
  level_invariant (1 + Z.of_nat n) acc'.
Proof.
  intros Hacc. revert acc'. induction n as [| n IH]; intros acc' Hrun.
  - unfold py_range_for in Hrun. simpl in Hrun. injection Hrun as <-.
    replace (1 + Z.of_nat 0) with 1 by lia. exact Hacc.
  - rewrite py_range_for_succ in Hrun.
    destruct (py_range_for (Z.of_nat n) _ acc) as [mid |]; simpl in Hrun;
      [| discriminate].
    replace (1 + Z.of_nat (S n)) with (1 + Z.of_nat n + 1) by lia.
    eapply refine_level; [apply IH; reflexivity | exact Hrun].
Qed.

(** Every trixel [get_all_trixels_to_depth] returns is at the depth asked
    for or above it. *)
Lemma get_all_trixels_to_depth_bound (H : Halfspace) (d : Z) (trixels : list Trixel) :
  get_all_trixels_to_depth H d = Ok trixels ->
  1 <= d /\ Forall (fun t => depth t <= d) trixels.
Proof.
  unfold get_all_trixels_to_depth. intros Hrun.
  destruct (d <? 1) eqn:Hd; [discriminate |]. apply Z.ltb_ge in Hd.
  split; [exact Hd |].
  destruct (for_each (classify H) octahedron_values ([], [])) as [acc0 |] eqn:H0;
    simpl in Hrun; [| discriminate].
  assert (I0 : level_invariant 1 acc0).
  { eapply (classify_keeps_level H 1 octahedron_values); [| | exact H0].
    - apply Forall_forall. intros t Ht. apply root_depth, Ht.
    - split; constructor. }
  destruct acc0 as [sel0 cand0]. simpl in Hrun.
  destruct (py_range_for (d - 1) _ (sel0, cand0)) as [[sel cand] |] eqn:H1;
    simpl in Hrun; [| discriminate].
  injection Hrun as <-.
  replace (d - 1) with (Z.of_nat (Z.to_nat (d - 1))) in H1 by lia.
  apply (refine_levels H _ _ _ I0) in H1. destruct H1 as [Hsel Hcand].
  simpl in *. replace (1 + Z.of_nat (Z.to_nat (d - 1))) with d in * by lia.
  apply Forall_app. split; [exact Hsel |].
  eapply Forall_impl; [exact Hcand |]. simpl. intros. lia.
Qed.

(** The expansion loop appends, for each trixel, its descendants at the
    depth asked for. *)
Lemma expand_loop (d : Z) (trixels acc : list Trixel) :
  Forall (fun t => depth t <= d) trixels ->
  for_each
    (fun expanded_trixels trixel =>
       if depth trixel =? d then Ok (expanded_trixels ++ [trixel])
       else
         subs ← get_subtrixels_at_depth trixel d;
         Ok (expanded_trixels ++ subs))
    trixels acc
  = Ok (acc ++ flat_map (descendants_at d) trixels).
Proof.
  intros Hall. revert acc.
  induction Hall as [| t trixels Ht Hall IH]; intros acc; simpl.
  - rewrite app_nil_r. reflexivity.
  - assert (Hstep :
      (if depth t =? d then Ok (acc ++ [t])
       else subs ← get_subtrixels_at_depth t d; Ok (acc ++ subs))
      = Ok (acc ++ descendants_at d t)).
    { unfold descendants_at. destruct (depth t =? d) eqn:E.
      - apply Z.eqb_eq in E. rewrite E, Z.sub_diag. reflexivity.
      - rewrite (get_subtrixels_at_depth_descendants t d Ht). reflexivity. }
    rewrite Hstep. simpl. rewrite IH, <- app_assoc. reflexivity.
Qed.

Lemma descendants_at_depth (d : Z) (t : Trixel) :
  depth t <= d -> Forall (fun c => depth c = d) (descendants_at d t).
Proof.
  intros Ht. unfold descendants_at.
  eapply Forall_impl; [apply descendants_depth |]. simpl. intros c Hc. lia.
Qed.

Lemma classify_total (H : Halfspace) :
  (forall t, is_Ok (intersects_halfspace t H)) ->
  forall acc t, is_Ok (classify H acc t).
Proof.
  intros Htotal [sel cand] t. unfold classify.
  destruct (Htotal t) as [[| |] ->]; simpl; eexists; reflexivity.
Qed.

Lemma get_all_trixels_to_depth_total (H : Halfspace) (d : Z) :
  1 <= d ->
  (forall t, is_Ok (intersects_halfspace t H)) ->
  is_Ok (get_all_trixels_to_depth H d).
Proof.
  intros Hd Htotal. unfold get_all_trixels_to_depth.
  destruct (d <? 1) eqn:E; [apply Z.ltb_lt in E; lia |].
  destruct (for_each_total (classify H) octahedron_values (classify_total H Htotal)
              ([], [])) as [[sel0 cand0] ->].
  simpl.
  assert (Hloop : is_Ok (py_range_for (d - 1)
            (fun '(selected, candidates) =>
               for_each (classify H) (flat_map get_subtrixels candidates)
                 (selected, []))
            (sel0, cand0))).
  { replace (d - 1) with (Z.of_nat (Z.to_nat (d - 1))) by lia.
    induction (Z.to_nat (d - 1)) as [| n IH].
    - eexists. reflexivity.
    - rewrite py_range_for_succ. destruct IH as [[sel cand] ->]. simpl.
      apply for_each_total, classify_total, Htotal. }
  destruct Hloop as [[sel cand] ->]. simpl. eexists. reflexivity.
Qed.

(** C6: for a depth of at least 1, whenever
    [get_all_expanded_trixels_to_depth] returns a list, that list is the
    concatenation, over the trixels [get_all_trixels_to_depth] returns, of
    each trixel's descendants at the requested depth (the trixel itself when
    it already is at that depth), and every trixel in it is at exactly the
    requested depth.  It does return a list whenever the classification of
    trixels against the halfspace does not raise. *)
Theorem expanded_trixels_at_requested_depth (H : Halfspace) (d : Z) :
  1 <= d ->
  (forall expanded,
     get_all_expanded_trixels_to_depth H d = Ok expanded ->
     exists trixels,
       get_all_trixels_to_depth H d = Ok trixels
       /\ expanded = flat_map (descendants_at d) trixels
       /\ (forall t, t ∈ trixels -> depth t = d -> descendants_at d t = [t])
       /\ Forall (fun t => depth t = d) expanded)
  /\ ((forall t, is_Ok (intersects_halfspace t H)) ->
      is_Ok (get_all_expanded_trixels_to_depth H d)).
Proof.
  intros Hd. split.
  - intros expanded Hrun. unfold get_all_expanded_trixels_to_depth in Hrun.
    destruct (get_all_trixels_to_depth H d) as [trixels |] eqn:Hall;
      simpl in Hrun; [| discriminate].
    destruct (get_all_trixels_to_depth_bound H d trixels Hall) as [_ Hbound].
    rewrite (expand_loop d trixels [] Hbound) in Hrun. simpl in Hrun.
    injection Hrun as <-.
    exists trixels. repeat split.
    + intros t _ Ht. unfold descendants_at. rewrite Ht, Z.sub_diag. reflexivity.
    + apply Forall_forall. intros c Hc.
      apply list_elem_of_In, in_flat_map in Hc. destruct Hc as (t & Ht & Hc).
      rewrite Forall_forall in Hbound.
      pose proof (descendants_at_depth d t (Hbound t (proj2 (list_elem_of_In _ _) Ht)))
        as Hdesc.
      rewrite Forall_forall in Hdesc. apply Hdesc, list_elem_of_In, Hc.
  - intros Htotal. unfold get_all_expanded_trixels_to_depth.
    destruct (get_all_trixels_to_depth_total H d Hd Htotal) as [trixels Hall].
    rewrite Hall. simpl.
    destruct (get_all_trixels_to_depth_bound H d trixels Hall) as [_ Hbound].
    rewrite (expand_loop d trixels [] Hbound). eexists. reflexivity.
Qed.

End cap_enumeration.

(** A cap of radius 4000 km around latitude 35, longitude 45: it holds the
    depth-2 trixel N3-3 whole. *)
Definition wide_cap : htm.Halfspace :=
  htm.mkHalfspace (@htm.lat_lon_to_xyz reference_math 35 45)
    (@libm_cos reference_math (htm.sphere_surface_radius_to_angle 4000000)).

Lemma wide_cap_distance :
  @htm.sphere_surface_radius_to_halfspace_distance reference_math 4000000
  = Ok (htm.distance wide_cap).
Proof. vm_compute. reflexivity. Qed.

Lemma expanded_trixels_at_requested_depth_witness :
  1 <= 3
  /\ exists trixels expanded,
       @htm.get_all_trixels_to_depth reference_math wide_cap 3 = Ok trixels
       /\ length trixels = 22%nat
       /\ @htm.get_all_expanded_trixels_to_depth reference_math wide_cap 3 = Ok expanded
       /\ length expanded = 25%nat
       /\ Forall (fun t => htm.depth t = 3) expanded.
Proof.
  split; [lia |].
  assert (Hrun : exists expanded,
            @htm.get_all_expanded_trixels_to_depth reference_math wide_cap 3 = Ok expanded
            /\ length expanded = 25%nat).
  { eexists. split; vm_compute; reflexivity. }
  destruct Hrun as (expanded & Hrun & Hlen).
  destruct (proj1 (@expanded_trixels_at_requested_depth reference_math wide_cap 3
                     ltac:(lia)) expanded Hrun)
    as (trixels & Htrixels & _ & _ & Hall).
  exists trixels, expanded.
  split; [exact Htrixels | split; [| split; [exact Hrun | split; [exact Hlen | exact Hall]]]].
  assert (Hsome : (length <$> @htm.get_all_trixels_to_depth reference_math wide_cap 3)
                  = Ok 22%nat) by (vm_compute; reflexivity).
  rewrite Htrixels in Hsome. injection Hsome as Hsome. exact Hsome.
Defined.

(** ** Names resolve back to their trixels (htm.py) *)

Section name_roundtrip.

Import htm.

(** The trixels reached from an octahedron root by subdivision. *)
Inductive reachable : Trixel -> Prop :=
| reachable_root (t : Trixel) : t ∈ octahedron_values -> reachable t
| reachable_child (t c : Trixel) :
    reachable t -> c ∈ get_subtrixels t -> reachable c.

Lemma select_child_subtrixel (t c : Trixel) (digit : string) :
  c ∈ get_subtrixels t ->
  name c = (name t ++ String dash digit)%string ->
  digit ∈ ["0"; "1"; "2"; "3"] ->
  select_child t digit = Ok c.
Proof.
  unfold select_child, get_subtrixels.
  destruct (vertices t) as [[v0 v1] v2]. intros Hc Hname Hd.
  repeat (apply elem_of_cons in Hd; destruct Hd as [-> | Hd]);
    [| | | | inversion Hd];
    repeat (apply elem_of_cons in Hc; destruct Hc as [-> | Hc]);
    try (inversion Hc; fail);
    simpl in Hname;
    try reflexivity;
    apply append_cancel_l in Hname; discriminate.
Qed.

(** The name of a reachable trixel spells the path that reaches it: a key of
    [octahedron], then the child digits in order. *)
Lemma reachable_path (t : Trixel) :
  reachable t ->
  exists root_name root digits,
    pystr.split dash (name t) = root_name :: digits
    /\ dict_get octahedron root_name = Some root
    /\ for_each select_child digits root = Ok t.
Proof.
  induction 1 as [t Ht | t c Hreach IH Hc].
  - exists (name t), t, [].
    unfold octahedron_values, octahedron in Ht. simpl in Ht.
    repeat (apply elem_of_cons in Ht; destruct Ht as [-> | Ht]);
      try (repeat split; reflexivity).
    inversion Ht.
  - destruct IH as (root_name & root & digits & Hsplit & Hroot & Hwalk).
    destruct (subtrixel_name t c Hc) as (digit & Hd & Hname & Hdigit).
    exists root_name, root, (digits ++ [digit]).
    split; [| split; [exact Hroot |]].
    + rewrite Hname, split_app_sep, Hsplit, Hdigit. reflexivity.
    + rewrite for_each_app, Hwalk. simpl.
      rewrite (select_child_subtrixel t c digit Hc Hname Hd). reflexivity.
Qed.

(** C7: for every trixel T reached from an octahedron root by any number of
    subdivisions, [find_trixel_from_name (name T)] returns T itself: the same
    name and the very same vertex floats, hence vertices equal to within any
    tolerance. *)
Theorem find_trixel_from_name_roundtrip (t : Trixel) :
  reachable t -> find_trixel_from_name (name t) = Ok t.
Proof.
  intros Hreach.
  destruct (reachable_path t Hreach) as (root_name & root & digits & Hsplit & Hroot & Hwalk).
  unfold find_trixel_from_name. rewrite Hsplit, Hroot.
  destruct (Z.of_nat (length (root_name :: digits)) <? 1) eqn:E1;
    [apply Z.ltb_lt in E1; simpl in E1; lia |].
  destruct (Z.of_nat (length (root_name :: digits)) =? 1) eqn:E2; [| exact Hwalk].
  apply Z.eqb_eq in E2. destruct digits as [| digit digits]; [| simpl in E2; lia].
  simpl in Hwalk. exact Hwalk.
Qed.

End name_roundtrip.

(** The third child of the second child of the root S3. *)
Definition s3_2_3 : htm.Trixel :=
  nth 3 (htm.get_subtrixels
           (nth 2 (htm.get_subtrixels (htm.octahedron_at "S3"))
              (htm.octahedron_at "S3")))
    (htm.octahedron_at "S3").

Lemma find_trixel_from_name_roundtrip_witness :
  reachable s3_2_3
  /\ htm.name s3_2_3 = "S3-2-3"
  /\ htm.find_trixel_from_name (htm.name s3_2_3) = Ok s3_2_3.
Proof.
  assert (Hreach : reachable s3_2_3).
  { apply (reachable_child
             (nth 2 (htm.get_subtrixels (htm.octahedron_at "S3"))
                (htm.octahedron_at "S3"))).
    - apply (reachable_child (htm.octahedron_at "S3")).
      + apply reachable_root. vm_compute. set_solver.
      + vm_compute. set_solver.
    - vm_compute. set_solver. }
  split; [exact Hreach | split; [vm_compute; reflexivity |]].
  apply find_trixel_from_name_roundtrip, Hreach.
Defined.


(** ** More on splitting and joining *)

Section split_join.

Import pystr.

(** A string in which the character [c] does not occur. *)
Fixpoint char_free (c : ascii) (s : string) : bool :=
  match s with
  | EmptyString => true
  | String c' s' => negb (Ascii.eqb c' c) && char_free c s'
  end.

Definition sep_string (sep : ascii) : string := String sep EmptyString.

Lemma join_cons (sep : string) (x y : string) (rest : list string) :
  join sep (x :: y :: rest) = (x ++ sep ++ join sep (y :: rest))%string.
Proof. reflexivity. Qed.

Lemma append_cons (c : ascii) (a b : string) :
  (String c a ++ b)%string = String c (a ++ b).
Proof. reflexivity. Qed.

Lemma append_nil (b : string) : (EmptyString ++ b)%string = b.
Proof. reflexivity. Qed.

Lemma append_assoc (a b c : string) :
  ((a ++ b) ++ c)%string = (a ++ (b ++ c))%string.
Proof.
  induction a as [| x a IH]; [reflexivity |].
  rewrite !append_cons, IH. reflexivity.
Qed.

Lemma join_cons_char (sep : string) (c : ascii) (x : string) (rest : list string) :
  join sep (String c x :: rest) = String c (join sep (x :: rest)).
Proof. destruct rest; reflexivity. Qed.

(** Joining what a split produced gives the string back. *)
Lemma join_split (sep : ascii) (s : string) :
  join (sep_string sep) (split sep s) = s.
Proof.
  induction s as [| c s IH]; [reflexivity |].
  simpl split. destruct (Ascii.eqb c sep) eqn:Hc.
  - apply Ascii.eqb_eq in Hc. subst c.
    destruct (split sep s) as [| x xs] eqn:E; [destruct (split_nonempty _ _ E) |].
    rewrite join_cons, IH. reflexivity.
  - destruct (split sep s) as [| x xs] eqn:E; [destruct (split_nonempty _ _ E) |].
    rewrite join_cons_char, IH. reflexivity.
Qed.

Lemma split_char_free (sep : ascii) (s : string) :
  char_free sep s = true -> split sep s = [s].
Proof.
  induction s as [| c s IH]; simpl; [reflexivity |].
  intros H. apply andb_prop in H. destruct H as [Hc Hs].
  apply negb_true_iff in Hc. rewrite Hc, (IH Hs). reflexivity.
Qed.

(** Splitting a join of separator-free parts gives the parts back. *)
Lemma split_join (sep : ascii) (parts : list string) :
  parts <> [] ->
  Forall (fun x => char_free sep x = true) parts ->
  split sep (join (sep_string sep) parts) = parts.
Proof.
  intros Hne Hfree. induction Hfree as [| x rest Hx Hrest IH]; [congruence |].
  destruct rest as [| y rest].
  - simpl. apply split_char_free, Hx.
  - rewrite join_cons.
    change (sep_string sep ++ join (sep_string sep) (y :: rest))%string
      with (String sep (join (sep_string sep) (y :: rest))).
    rewrite split_app_sep, (split_char_free _ _ Hx), IH; [reflexivity | discriminate].
Qed.

(** The parts a split produces hold no separator. *)
Lemma split_parts_free (sep : ascii) (s : string) :
  Forall (fun x => char_free sep x = true) (split sep s).
Proof.
  induction s as [| c s IH]; simpl; [repeat constructor |].
  destruct (Ascii.eqb c sep) eqn:Hc; [constructor; [reflexivity | exact IH] |].
  destruct (split sep s) as [| x xs]; [repeat constructor; simpl; rewrite Hc; reflexivity |].
  inversion IH as [| ? ? Hx Hxs]; subst.
  constructor; [simpl; rewrite Hc, Hx; reflexivity | exact Hxs].
Qed.

Lemma join_app (sep : string) (l1 l2 : list string) :
  l1 <> [] -> l2 <> [] ->
  join sep (l1 ++ l2) = (join sep l1 ++ sep ++ join sep l2)%string.
Proof.
  intros H1 H2. induction l1 as [| x l1 IH]; [congruence |].
  destruct l1 as [| y l1].
  - destruct l2 as [| z l2]; [congruence | reflexivity].
  - change ((x :: y :: l1) ++ l2) with (x :: y :: (l1 ++ l2)).
    rewrite !join_cons. change (y :: l1 ++ l2) with ((y :: l1) ++ l2).
    rewrite IH by discriminate. rewrite !append_assoc. reflexivity.
Qed.

(** [s.count(sep) + 1] is the number of parts of [s.split(sep)]. *)
Lemma count_split (sep : ascii) (s : string) :
  count sep s + 1 = Z.of_nat (length (split sep s)).
Proof.
  induction s as [| c s IH]; simpl; [reflexivity |].
  destruct (Ascii.eqb c sep).
  - simpl length. lia.
  - destruct (split sep s) as [| x xs] eqn:E; [destruct (split_nonempty _ _ E) |].
    simpl length in *. lia.
Qed.

(** Replacing one separator by another is splitting on the first and
    joining with the second. *)
Lemma replace_split (a b : ascii) (s : string) :
  replace a b s = join (sep_string b) (split a s).
Proof.
  induction s as [| c s IH]; [reflexivity |].
  simpl. destruct (Ascii.eqb c a) eqn:Hc.
  - destruct (split a s) as [| x xs] eqn:E; [destruct (split_nonempty _ _ E) |].
    rewrite join_cons, <- IH. reflexivity.
  - destruct (split a s) as [| x xs] eqn:E; [destruct (split_nonempty _ _ E) |].
    rewrite join_cons_char, <- IH. reflexivity.
Qed.

Lemma endswith_slash_app (a b : string) :
  b <> EmptyString -> os.endswith_slash (a ++ b) = os.endswith_slash b.
Proof.
  intros Hb. induction a as [| c a IH]; [reflexivity |].
  rewrite append_cons. simpl os.endswith_slash.
  destruct (a ++ b)%string eqn:E; [| exact IH].
  destruct a; [rewrite append_nil in E; congruence | discriminate].
Qed.

End split_join.

(** ** Trixel names and blob paths (ingest.py) *)

Section trixel_paths.

Import pystr ingest.

(** A path component that [normpath] keeps as it is: not empty, not ".",
    not "..", and without "/". *)
Definition plain (c : string) : bool :=
  negb (String.eqb c "") && negb (String.eqb c ".") && negb (String.eqb c "..")
  && char_free slash c.

(** An absolute path in normal form below the root: "/" and then plain
    components joined by "/". *)
Definition absolute_normal (p : string) : bool :=
  match split slash p with
  | "" :: c :: comps => forallb plain (c :: comps)
  | _ => false
  end.

Definition rooted (comps : list string) : string :=
  ("/" ++ join "/" comps)%string.

Lemma absolute_normal_rooted (p : string) :
  absolute_normal p = true ->
  exists comps, comps <> [] /\ Forall (fun c => plain c = true) comps /\ p = rooted comps.
Proof.
  unfold absolute_normal. intros H.
  pose proof (join_split slash p) as Hp.
  destruct (split slash p) as [| [| ch e] [| c comps]]; try discriminate.
  exists (c :: comps). split; [discriminate | split].
  - apply Forall_forall. intros x Hx. rewrite forallb_forall in H.
    apply H, list_elem_of_In, Hx.
  - rewrite <- Hp. reflexivity.
Qed.

Lemma plain_head (c : string) :
  plain c = true ->
  exists ch rest, c = String ch rest /\ Ascii.eqb ch slash = false
                  /\ char_free slash c = true.
Proof.
  unfold plain. intros H.
  apply andb_prop in H. destruct H as [H Hfree].
  destruct c as [| ch rest]; [discriminate |].
  exists ch, rest. split; [reflexivity | split; [| exact Hfree]].
  simpl in Hfree. apply andb_prop in Hfree. destruct Hfree as [Hch _].
  apply negb_true_iff in Hch. exact Hch.
Qed.

Lemma char_free_endswith (c : string) :
  char_free slash c = true -> os.endswith_slash c = false.
Proof.
  induction c as [| ch rest IH]; [reflexivity |].
  simpl. intros H. apply andb_prop in H. destruct H as [Hch Hrest].
  apply negb_true_iff in Hch.
  destruct rest; [exact Hch | apply IH, Hrest].
Qed.

Lemma join_plain_head (comps : list string) :
  comps <> [] -> Forall (fun c => plain c = true) comps ->
  exists ch rest, join "/" comps = String ch rest /\ Ascii.eqb ch slash = false.
Proof.
  intros Hne Hall. destruct comps as [| c comps]; [congruence |].
  inversion Hall as [| ? ? Hc _]; subst.
  destruct (plain_head c Hc) as (ch & rest & -> & Hch & _).
  rewrite join_cons_char. eexists _, _. split; [reflexivity | exact Hch].
Qed.

Lemma join_plain_endswith (comps : list string) :
  comps <> [] -> Forall (fun c => plain c = true) comps ->
  os.endswith_slash (join "/" comps) = false.
Proof.
  intros Hne Hall. induction Hall as [| c comps Hc Hall IH]; [congruence |].
  destruct comps as [| c' comps].
  - simpl. destruct (plain_head c Hc) as (_ & _ & _ & _ & Hfree).
    apply char_free_endswith, Hfree.
  - rewrite join_cons.
    destruct (join_plain_head (c' :: comps) ltac:(discriminate) Hall)
      as (ch & rest & Hj & Hch).
    rewrite endswith_slash_app; [| rewrite Hj; discriminate].
    rewrite endswith_slash_app; [| rewrite Hj; discriminate].
    apply IH. discriminate.
Qed.

Lemma rooted_endswith (comps : list string) :
  comps <> [] -> Forall (fun c => plain c = true) comps ->
  os.endswith_slash (rooted comps) = false.
Proof.
  intros Hne Hall. unfold rooted.
  destruct (join_plain_head comps Hne Hall) as (ch & rest & Hj & Hch).
  rewrite endswith_slash_app; [| rewrite Hj; discriminate].
  apply join_plain_endswith; assumption.
Qed.

Lemma path_join_one (a b : string) :
  os.path_join a [b] =
    if startswith slash b then b
    else if String.eqb a "" || os.endswith_slash a then (a ++ b)%string
    else (a ++ "/" ++ b)%string.
Proof. reflexivity. Qed.

Lemma rooted_not_empty (comps : list string) : String.eqb (rooted comps) "" = false.
Proof. reflexivity. Qed.

(** Joining a plain relative path onto a rooted one. *)
Lemma path_join_rooted (comps more : list string) :
  comps <> [] -> Forall (fun c => plain c = true) comps ->
  more <> [] -> Forall (fun c => plain c = true) more ->
  os.path_join (rooted comps) [join "/" more] = rooted (comps ++ more).
Proof.
  intros Hne Hall Hne' Hall'. rewrite path_join_one.
  destruct (join_plain_head more Hne' Hall') as (ch & rest & Hj & Hch).
  assert (Hstart : startswith slash (join "/" more) = false).
  { rewrite Hj. exact Hch. }
  rewrite Hstart, rooted_not_empty, (rooted_endswith comps Hne Hall).
  unfold rooted.
  rewrite (join_app "/" comps more Hne Hne'), append_assoc. reflexivity.
Qed.

Lemma path_join_two (a b c : string) :
  os.path_join a [b; c] = os.path_join (os.path_join a [b]) [c].
Proof. reflexivity. Qed.

Lemma normpath_step_plain (n : nat) (acc comps : list string) :
  Forall (fun c => plain c = true) comps ->
  fold_left (os.normpath_step n) comps acc = acc ++ comps.
Proof.
  intros Hall. revert acc.
  induction Hall as [| c comps Hc Hall IH]; intros acc; simpl.
  - rewrite app_nil_r. reflexivity.
  - rewrite IH. unfold os.normpath_step. unfold plain in Hc.
    apply andb_prop in Hc. destruct Hc as [Hc _].
    apply andb_prop in Hc. destruct Hc as [Hc Hdd].
    apply andb_prop in Hc. destruct Hc as [He Hd].
    apply negb_true_iff in He, Hd. rewrite He, Hd, Hdd. simpl.
    rewrite <- app_assoc. reflexivity.
Qed.

(** A rooted path of plain components is its own normal form. *)
Lemma normpath_rooted (comps : list string) :
  comps <> [] -> Forall (fun c => plain c = true) comps ->
  os.normpath (rooted comps) = rooted comps.
Proof.
  intros Hne Hall.
  destruct (join_plain_head comps Hne Hall) as (ch & rest & Hj & Hch).
  assert (Hsplit : split slash (rooted comps) = "" :: comps).
  { unfold rooted. change ("/" ++ join "/" comps)%string
      with (EmptyString ++ String slash (join (sep_string slash) comps))%string.
    rewrite split_app_sep, split_join; [reflexivity | exact Hne |].
    eapply Forall_impl; [exact Hall |]. simpl. intros c Hc.
    destruct (plain_head c Hc) as (_ & _ & _ & _ & Hfree). exact Hfree. }
  unfold os.normpath. rewrite Hsplit.
  replace (String.eqb (rooted comps) "") with false by reflexivity.
  assert (Hslashes :
    match rooted comps with
    | String "/" (String "/" (String "/" _)) => 1%nat
    | String "/" (String "/" _) => 2%nat
    | String "/" _ => 1%nat
    | _ => 0%nat
    end = 1%nat).
  { unfold rooted. rewrite Hj.
    change ("/" ++ String ch rest)%string with (String "/" (String ch rest)).
    destruct ch as [[] [] [] [] [] [] [] []]; try reflexivity.
    discriminate Hch. }
  rewrite Hslashes. simpl fold_left.
  replace (os.normpath_step 1 [] "") with (@nil string) by reflexivity.
  rewrite (normpath_step_plain 1 [] comps Hall). simpl app.
  unfold rooted. rewrite Hj. reflexivity.
Qed.

End trixel_paths.

(** ** Trixel names, their parents and their blob paths (ingest.py) *)

Section trixel_names.

Import pystr ingest.

(** The path segments of a name: ["N0"; "1"; "2"] for "N0-1-2". *)
Definition segments (n : string) : list string := split dash n.

Lemma root_name_plain (r : string) :
  is_root_name r = true -> plain r = true.
Proof.
  unfold is_root_name. intros H. apply bool_decide_eq_true in H. simpl in H.
  repeat (apply elem_of_cons in H; destruct H as [-> | H]); try reflexivity.
  inversion H.
Qed.

Lemma child_digit_plain (s : string) :
  is_child_digit s = true -> plain s = true.
Proof.
  unfold is_child_digit. intros H. apply bool_decide_eq_true in H.
  repeat (apply elem_of_cons in H; destruct H as [-> | H]); try reflexivity.
  inversion H.
Qed.

Lemma trixel_name_segments (n : string) :
  is_trixel_name n = true ->
  exists root digits,
    segments n = root :: digits
    /\ is_root_name root = true
    /\ forallb is_child_digit digits = true.
Proof.
  unfold is_trixel_name, segments. intros H.
  destruct (split dash n) as [| root digits]; [discriminate |].
  apply andb_prop in H. destruct H as [Hr Hd].
  exists root, digits. repeat split; assumption.
Qed.

Lemma trixel_name_plain (n : string) :
  is_trixel_name n = true ->
  segments n <> [] /\ Forall (fun c => plain c = true) (segments n).
Proof.
  intros H. destruct (trixel_name_segments n H) as (root & digits & -> & Hr & Hd).
  split; [discriminate |].
  constructor; [apply root_name_plain, Hr |].
  apply Forall_forall. intros s Hs. rewrite forallb_forall in Hd.
  apply child_digit_plain, Hd, list_elem_of_In, Hs.
Qed.

Lemma name_of_segments (n : string) : join "-" (segments n) = n.
Proof. apply (join_split dash). Qed.

Lemma name_depth_segments (n : string) :
  name_depth n = Z.of_nat (length (segments n)).
Proof. apply count_split. Qed.

Lemma plain_slash_free (l : list string) :
  Forall (fun c => plain c = true) l -> Forall (fun c => char_free slash c = true) l.
Proof.
  intros H. eapply Forall_impl; [exact H |]. simpl. intros c Hc.
  destruct (plain_head c Hc) as (_ & _ & _ & _ & Hfree). exact Hfree.
Qed.

Lemma rooted_inj (l1 l2 : list string) :
  l1 <> [] -> l2 <> [] ->
  Forall (fun c => plain c = true) l1 -> Forall (fun c => plain c = true) l2 ->
  rooted l1 = rooted l2 -> l1 = l2.
Proof.
  intros H1 H2 P1 P2 Heq. unfold rooted in Heq.
  apply append_cancel_l in Heq.
  rewrite <- (split_join slash l1 H1 (plain_slash_free l1 P1)).
  rewrite <- (split_join slash l2 H2 (plain_slash_free l2 P2)).
  unfold sep_string. change (String slash "") with "/". rewrite Heq. reflexivity.
Qed.

Section blob_paths.

Variable dataset : Dataset.
Variable comps : list string.
Hypothesis processed_rooted : processed_path dataset = rooted comps.
Hypothesis comps_nonempty : comps <> [].
Hypothesis comps_plain : Forall (fun c => plain c = true) comps.

(** The blob path of a trixel name is the dataset's directory, the
    segments of the name and "data.npy", and is in normal form. *)
Lemma trixel_file_rooted (n : string) :
  is_trixel_name n = true ->
  trixel_file dataset n = rooted (comps ++ segments n ++ ["data.npy"])
  /\ os.normpath (trixel_file dataset n) = trixel_file dataset n.
Proof.
  intros Hn. destruct (trixel_name_plain n Hn) as [Hne Hplain].
  assert (Hfile : trixel_file dataset n = rooted (comps ++ segments n ++ ["data.npy"])).
  { unfold trixel_file. rewrite path_join_two, processed_rooted.
    rewrite (replace_split dash slash n).
    change (sep_string slash) with "/". fold (segments n).
    rewrite (path_join_rooted comps (segments n) comps_nonempty comps_plain Hne Hplain).
    change "data.npy" with (join "/" ["data.npy"]) at 1.
    rewrite path_join_rooted.
    - rewrite <- app_assoc. reflexivity.
    - destruct comps; [congruence | discriminate].
    - apply Forall_app. split; assumption.
    - discriminate.
    - repeat constructor. }
  split; [exact Hfile |].
  rewrite Hfile. apply normpath_rooted.
  - destruct comps; [congruence | discriminate].
  - repeat (apply Forall_app; split); try assumption. repeat constructor.
Qed.

(** Distinct trixel names have distinct blobs. *)
Lemma trixel_file_inj (n m : string) :
  is_trixel_name n = true -> is_trixel_name m = true ->
  os.normpath (trixel_file dataset n) = os.normpath (trixel_file dataset m) ->
  n = m.
Proof.
  intros Hn Hm Heq.
  destruct (trixel_file_rooted n Hn) as [Fn Nn].
  destruct (trixel_file_rooted m Hm) as [Fm Nm].
  rewrite Nn, Nm, Fn, Fm in Heq.
  destruct (trixel_name_plain n Hn) as [_ Pn].
  destruct (trixel_name_plain m Hm) as [_ Pm].
  apply rooted_inj in Heq.
  - apply app_inv_head, app_inv_tail in Heq.
    rewrite <- (name_of_segments n), <- (name_of_segments m), Heq. reflexivity.
  - destruct comps; [congruence | discriminate].
  - destruct comps; [congruence | discriminate].
  - repeat (apply Forall_app; split); try assumption. repeat constructor.
  - repeat (apply Forall_app; split); try assumption. repeat constructor.
Qed.

End blob_paths.

Lemma removelast_cons2 {A} (x y : A) (l : list A) :
  removelast (x :: y :: l) = x :: removelast (y :: l).
Proof. reflexivity. Qed.

Lemma Forall_removelast {A} (P : A -> Prop) (l : list A) :
  Forall P l -> Forall P (removelast l).
Proof.
  induction 1 as [| x l Hx Hl IH]; [constructor |].
  destruct l as [| y l]; [constructor |].
  rewrite removelast_cons2. constructor; assumption.
Qed.

Lemma forallb_removelast {A} (f : A -> bool) (l : list A) :
  forallb f l = true -> forallb f (removelast l) = true.
Proof.
  induction l as [| x l IH]; [reflexivity |].
  destruct l as [| y l]; [reflexivity |].
  rewrite removelast_cons2. simpl forallb at 1. intros H.
  apply andb_prop in H. destruct H as [Hx Hl].
  simpl forallb at 1. rewrite Hx. apply IH, Hl.
Qed.

Lemma length_removelast {A} (l : list A) :
  l <> [] -> S (length (removelast l)) = length l.
Proof.
  induction l as [| x l IH]; [congruence |]. intros _.
  destruct l as [| y l]; [reflexivity |].
  rewrite removelast_cons2.
  change (length (x :: removelast (y :: l))) with (S (length (removelast (y :: l)))).
  rewrite IH by discriminate. reflexivity.
Qed.

(** The parent of a trixel name below the roots is a trixel name one level
    up: the same segments but the last. *)
Lemma parent_name_segments (n : string) :
  is_trixel_name n = true -> 2 <= name_depth n ->
  segments (parent_name n) = removelast (segments n)
  /\ is_trixel_name (parent_name n) = true
  /\ name_depth (parent_name n) = name_depth n - 1.
Proof.
  intros Hn Hdepth. rewrite name_depth_segments in Hdepth.
  destruct (trixel_name_segments n Hn) as (root & digits & Hseg & Hr & Hd).
  assert (Hparent : segments (parent_name n) = removelast (segments n)).
  { unfold parent_name, drop_last, segments.
    apply (split_join dash).
    - fold (segments n). rewrite Hseg in *.
      destruct digits; [simpl in Hdepth; lia | discriminate].
    - apply Forall_removelast, split_parts_free. }
  split; [exact Hparent | split].
  - unfold is_trixel_name. fold (segments (parent_name n)).
    rewrite Hparent, Hseg.
    destruct digits as [| d digits]; [rewrite Hseg in Hdepth; simpl in Hdepth; lia |].
    rewrite removelast_cons2, Hr. apply (forallb_removelast _ _ Hd).
  - rewrite !name_depth_segments, Hparent.
    rewrite <- (length_removelast (segments n)); [lia |].
    rewrite Hseg. discriminate.
Qed.

End trixel_names.

(** ** Path resolution *)

Section path_resolution.

Import pystr ingest.

Lemma split_rooted (comps : list string) :
  comps <> [] -> Forall (fun c => plain c = true) comps ->
  split slash (rooted comps) = "" :: comps.
Proof.
  intros Hne Hplain. unfold rooted.
  change ("/" ++ join "/" comps)%string
    with (EmptyString ++ String slash (join "/" comps))%string.
  rewrite split_app_sep. simpl split at 1.
  destruct comps as [| c comps]; [contradiction |].
  change (join "/" (c :: comps)) with (join (sep_string slash) (c :: comps)).
  rewrite split_join; [reflexivity | discriminate | apply plain_slash_free, Hplain].
Qed.

(** Every directory down to [comps], and [comps] itself, exists. *)
Definition dir_chain (fs : os.filesystem) (comps : list string) : Prop :=
  forall k : nat, os.is_directory fs (take k comps) = true.

Lemma dir_chain_take (fs : os.filesystem) (comps : list string) (k : nat) :
  dir_chain fs comps -> dir_chain fs (take k comps).
Proof.
  intros H j. rewrite take_take. apply H.
Qed.

Lemma is_directory_dirs (fs fs' : os.filesystem) (cur : list string) :
  os.dirs fs' = os.dirs fs -> os.is_directory fs' cur = os.is_directory fs cur.
Proof. unfold os.is_directory. intros ->. reflexivity. Qed.

Lemma dir_chain_dirs (fs fs' : os.filesystem) (comps : list string) :
  os.dirs fs' = os.dirs fs -> dir_chain fs comps -> dir_chain fs' comps.
Proof.
  intros Hd H k. rewrite (is_directory_dirs fs fs' _ Hd). apply H.
Qed.

Lemma walk_step_plain (cur : list string) (c : string) :
  plain c = true -> os.walk_step cur c = cur ++ [c].
Proof.
  unfold plain, os.walk_step. intros H.
  apply andb_prop in H. destruct H as [H _].
  apply andb_prop in H. destruct H as [H Hdd].
  apply andb_prop in H. destruct H as [He Hd].
  apply negb_true_iff in He, Hd, Hdd. rewrite He, Hd, Hdd. reflexivity.
Qed.

(** Following plain components: each is entered from a directory. *)
Lemma walk_plain (fs : os.filesystem) (path : string) (comps : list string) :
  Forall (fun c => plain c = true) comps ->
  forall cur,
    os.walk fs path cur comps = Ok (cur ++ comps)
    <-> (forall k, (k < length comps)%nat ->
           os.is_directory fs (cur ++ take k comps) = true).
Proof.
  induction 1 as [| c comps Hc Hall IH]; intros cur.
  - simpl. rewrite app_nil_r. split; [intros _ k Hk; lia | reflexivity].
  - cbn [os.walk]. rewrite (walk_step_plain cur c Hc). split.
    + intros Hw k Hk.
      destruct (os.is_directory fs cur) eqn:Ed.
      * destruct k as [| k]; [rewrite take_0, app_nil_r; exact Ed |].
        replace (cur ++ c :: comps) with ((cur ++ [c]) ++ comps) in Hw
          by (rewrite <- app_assoc; reflexivity).
        pose proof (proj1 (IH (cur ++ [c])) Hw) as Hw'. simpl in Hk.
        specialize (Hw' k ltac:(lia)). rename Hw' into Hw2.
        clear Hw. rename Hw2 into Hw. cbn [take].
        rewrite <- app_assoc in Hw. exact Hw.
      * destruct (os.is_file fs cur); discriminate.
    + intros Hk.
      pose proof (Hk 0%nat ltac:(simpl; lia)) as H0.
      rewrite take_0, app_nil_r in H0. rewrite H0.
      replace (cur ++ c :: comps) with ((cur ++ [c]) ++ comps)
        by (rewrite <- app_assoc; reflexivity).
      apply IH. intros k Hlt. rewrite <- app_assoc.
      apply (Hk (S k)). simpl. lia.
Qed.

Lemma walk_plain_result (fs : os.filesystem) (path : string) (comps : list string) :
  Forall (fun c => plain c = true) comps ->
  forall cur r, os.walk fs path cur comps = Ok r -> r = cur ++ comps.
Proof.
  induction 1 as [| c comps Hc Hall IH]; intros cur r.
  - simpl. rewrite app_nil_r. congruence.
  - cbn [os.walk]. rewrite (walk_step_plain cur c Hc).
    destruct (os.is_directory fs cur).
    + intros Hw. apply IH in Hw. rewrite Hw, <- app_assoc. reflexivity.
    + destruct (os.is_file fs cur); discriminate.
Qed.

(** A rooted path of plain components leads to those components when the
    directories on the way exist, and to nothing otherwise. *)
Lemma resolve_rooted (fs : os.filesystem) (dir : list string) (name : string) :
  Forall (fun c => plain c = true) dir -> plain name = true ->
  forall r,
    os.resolve fs (rooted (dir ++ [name])) = Ok r
    <-> r = dir ++ [name] /\ dir_chain fs dir.
Proof.
  intros Hdir Hname r.
  assert (Hall : Forall (fun c => plain c = true) (dir ++ [name])).
  { apply Forall_app. split; [exact Hdir | constructor; [exact Hname | constructor]]. }
  assert (Hne : dir ++ [name] <> []) by (destruct dir; discriminate).
  unfold os.resolve. rewrite rooted_not_empty, (split_rooted _ Hne Hall).
  cbn [os.walk os.is_directory]. change (os.walk_step [] "") with (@nil string).
  assert (Hchain : dir_chain fs dir <->
            forall k, (k < length (dir ++ [name]))%nat ->
                      os.is_directory fs ([] ++ take k (dir ++ [name])) = true).
  { rewrite length_app. simpl. split.
    - intros H k Hk. rewrite take_app_le by lia. apply H.
    - intros H k. destruct (decide (k <= length dir)%nat) as [Hle | Hgt].
      + specialize (H k ltac:(lia)). rewrite take_app_le in H by lia. exact H.
      + rewrite take_ge by lia.
        specialize (H (length dir) ltac:(lia)).
        rewrite take_app_le, take_ge in H by lia. exact H. }
  split.
  - intros Hw. pose proof (walk_plain_result fs _ _ Hall [] r Hw) as ->.
    split; [reflexivity |]. apply Hchain.
    apply (proj1 (walk_plain fs (rooted (dir ++ [name])) _ Hall [])). exact Hw.
  - intros [-> Hc].
    apply (proj2 (walk_plain fs (rooted (dir ++ [name])) _ Hall [])), Hchain, Hc.
Qed.

Lemma is_directory_snoc (fs : os.filesystem) (dir : list string) (name : string) :
  os.is_directory fs (dir ++ [name])
  = bool_decide (os.entry (dir ++ [name]) ∈ os.dirs fs).
Proof. destruct dir; reflexivity. Qed.

Lemma entry_rooted (comps : list string) : os.entry comps = rooted comps.
Proof. reflexivity. Qed.

End path_resolution.

(** ** Regrouping concatenations *)

Section regroup.

Context {A B R : Type} `{EqDecision B}.

Lemma fmap_pointwise {C} (X Y : B -> C) (l : list B) :
  (forall T, X T = Y T) -> X <$> l = Y <$> l.
Proof.
  intros H. induction l as [| x l IH]; [reflexivity |].
  rewrite !fmap_cons, H, IH. reflexivity.
Qed.

Lemma concat_fmap_nil (l : list B) : concat ((fun _ => @nil R) <$> l) = [].
Proof. induction l as [| x l IH]; [reflexivity | exact IH]. Qed.

Lemma concat_fmap_app (X Y : B -> list R) (l : list B) :
  concat ((fun T => X T ++ Y T) <$> l) ≡ₚ concat (X <$> l) ++ concat (Y <$> l).
Proof.
  induction l as [| x l IH]; [reflexivity |].
  rewrite !fmap_cons, !concat_cons, IH.
  rewrite <- !app_assoc. apply Permutation_app_head.
  rewrite !app_assoc. apply Permutation_app_tail, Permutation_app_comm.
Qed.

Lemma concat_fmap_perm (X Y : B -> list R) (l : list B) :
  (forall T, T ∈ l -> X T ≡ₚ Y T) -> concat (X <$> l) ≡ₚ concat (Y <$> l).
Proof.
  induction l as [| x l IH]; intros H; [reflexivity |].
  rewrite !fmap_cons, !concat_cons.
  rewrite (H x); [| left]. apply Permutation_app_head, IH.
  intros T HT. apply H. right. exact HT.
Qed.

(** Among distinct groups, an element falls into its own group only. *)
Lemma concat_fmap_single (b : B) (x : list R) (l : list B) :
  NoDup l -> b ∈ l ->
  concat ((fun T => if decide (b = T) then x else []) <$> l) = x.
Proof.
  induction 1 as [| y l Hy Hl IH]; intros Hb; [inversion Hb |].
  rewrite fmap_cons, concat_cons. destruct (decide (b = y)) as [-> | Hne].
  - assert (Hrest : concat ((fun T => if decide (y = T) then x else []) <$> l) = []).
    { clear IH Hb. induction l as [| z l IH]; [reflexivity |].
      rewrite fmap_cons, concat_cons. destruct (decide (y = z)) as [-> | _].
      - exfalso. apply Hy. left.
      - apply IH.
        + intros Hin. apply Hy. right. exact Hin.
        + inversion Hl. assumption. }
    rewrite Hrest, app_nil_r. reflexivity.
  - apply IH. apply elem_of_cons in Hb. destruct Hb as [-> | Hb]; [congruence | exact Hb].
Qed.

(** Concatenating, group by group, the rows of the elements of each group
    gives the rows of all elements, up to order. *)
Lemma concat_regroup (f : A -> list R) (g : A -> B) (S : list A) (groups : list B) :
  NoDup groups ->
  (forall a, a ∈ S -> g a ∈ groups) ->
  concat ((fun T => concat (f <$> filter (fun a => g a = T) S)) <$> groups)
  ≡ₚ concat (f <$> S).
Proof.
  intros Hnd. induction S as [| a S IH]; intros Hin.
  - simpl. rewrite concat_fmap_nil. reflexivity.
  - assert (Hstep : forall T,
      concat (f <$> filter (fun a => g a = T) (a :: S))
      = (if decide (g a = T) then f a else [])
        ++ concat (f <$> filter (fun a => g a = T) S)).
    { intros T. rewrite filter_cons. destruct (decide (g a = T)); reflexivity. }
    rewrite (fmap_pointwise _ _ groups Hstep).
    rewrite concat_fmap_app.
    rewrite (concat_fmap_single (g a) (f a) groups Hnd); [| apply Hin; left].
    rewrite fmap_cons, concat_cons. apply Permutation_app_head, IH.
    intros b Hb. apply Hin. right. exact Hb.
Qed.

End regroup.

(** ** Backfill (ingest.py) *)

Section backfill_level.

Import ingest.

Context {O : PySetOrder}.

Variable dataset : Dataset.

(** The key of a trixel's blob in the store. *)
Definition blob_key (n : string) : string := os.normpath (trixel_file dataset n).

(** The rows stored for a trixel name, none when it has no blob. *)
Definition blob_rows (files : gmap string os.blob) (n : string) : os.blob :=
  default [] (files !! blob_key n).

(** The blob path of a name leads to its key in the store: the directories
    on the way exist. *)
Definition located (fs : os.filesystem) (n : string) : Prop :=
  exists cur,
    os.resolve fs (trixel_file dataset n) = Ok cur /\ os.entry cur = blob_key n.

Lemma walk_dirs (fs fs' : os.filesystem) (path : string) (comps : list string) :
  os.dirs fs' = os.dirs fs ->
  forall cur r, os.walk fs path cur comps = Ok r -> os.walk fs' path cur comps = Ok r.
Proof.
  intros Hd. induction comps as [| c comps IH]; intros cur r; [trivial |].
  cbn [os.walk]. rewrite (is_directory_dirs fs fs' cur Hd).
  destruct (os.is_directory fs cur); [apply IH |].
  destruct (os.is_file fs cur); discriminate.
Qed.

Lemma located_dirs (fs fs' : os.filesystem) (n : string) :
  os.dirs fs' = os.dirs fs -> located fs n -> located fs' n.
Proof.
  intros Hd (cur & Hres & Hkey). exists cur. split; [| exact Hkey].
  unfold os.resolve in *.
  destruct (String.eqb (trixel_file dataset n) ""); [discriminate |].
  apply (walk_dirs fs fs' _ _ Hd), Hres.
Qed.

Lemma located_np_load (fs : os.filesystem) (n : string) (rows : os.blob) :
  located fs n -> os.files fs !! blob_key n = Some rows ->
  os.np_load fs (trixel_file dataset n) = Ok rows.
Proof.
  intros (cur & Hres & Hkey) Hrows. unfold os.np_load.
  rewrite Hres. change (Ok ?a ≫= ?f) with (f a). cbv beta.
  rewrite Hkey, Hrows. reflexivity.
Qed.

Lemma located_isfile (fs : os.filesystem) (n : string) :
  located fs n ->
  os.path_isfile fs (trixel_file dataset n)
  = bool_decide (is_Some (os.files fs !! blob_key n)).
Proof.
  intros (cur & Hres & Hkey). unfold os.path_isfile, os.is_file.
  rewrite Hres, Hkey. reflexivity.
Qed.

Lemma located_np_save (fs : os.filesystem) (n : string) (rows : os.blob) :
  located fs n -> os.path_isdir fs (trixel_file dataset n) = false ->
  os.np_save fs (trixel_file dataset n) rows
  = Ok (os.mkFs (os.dirs fs) (<[blob_key n := rows]> (os.files fs))).
Proof.
  intros (cur & Hres & Hkey) Hdir. unfold os.np_save, os.path_isdir in *.
  rewrite Hres in *. change (Ok ?a ≫= ?f) with (f a). cbv beta.
  rewrite Hdir, Hkey. reflexivity.
Qed.

(** What one pass of the inner loop does to the blobs: the child's rows go
    after whatever its parent holds. *)
Definition merge_child (files : gmap string os.blob) (n : string)
  : gmap string os.blob :=
  <[blob_key (parent_name n) := blob_rows files (parent_name n) ++ blob_rows files n]>
    files.

Definition merge_level (l : list string) (files : gmap string os.blob)
  : gmap string os.blob :=
  fold_left merge_child l files.

Lemma backfill_step_merge (fs : os.filesystem) (next : gset string) (n : string) :
  located fs n -> located fs (parent_name n) ->
  is_Some (os.files fs !! blob_key n) ->
  os.path_isdir fs (trixel_file dataset (parent_name n)) = false ->
  backfill_step dataset (fs, next) n =
    Ok (os.mkFs (os.dirs fs) (merge_child (os.files fs) n),
        next ∪ {[parent_name n]}).
Proof.
  intros Hn Hp [child Hchild] Hdir.
  unfold backfill_step, os.path_exists, merge_child, blob_rows.
  rewrite (located_np_load fs n child Hn Hchild).
  rewrite Hdir, (located_isfile fs _ Hp), Hchild.
  change (Ok ?a ≫= ?f) with (f a). cbv beta. simpl orb.
  destruct (os.files fs !! blob_key (parent_name n)) as [parent_data |] eqn:Hpd.
  - rewrite bool_decide_eq_true_2 by (eexists; reflexivity).
    rewrite (located_np_load fs _ parent_data Hp Hpd).
    change (Ok ?a ≫= ?f) with (f a). cbv beta.
    change (Ok ?a ≫= ?f) with (f a). cbv beta.
    rewrite (located_np_save fs (parent_name n) _ Hp Hdir). reflexivity.
  - rewrite bool_decide_eq_false_2 by (intros [? ?]; discriminate).
    change (Ok ?a ≫= ?f) with (f a). cbv beta.
    rewrite (located_np_save fs (parent_name n) _ Hp Hdir). reflexivity.
Qed.

Lemma path_isdir_dirs (fs fs' : os.filesystem) (n : string) :
  os.dirs fs' = os.dirs fs -> located fs n ->
  os.path_isdir fs' (trixel_file dataset n) = os.path_isdir fs (trixel_file dataset n).
Proof.
  intros Hd Hn. destruct (located_dirs fs fs' n Hd Hn) as (cur' & Hres' & _).
  destruct Hn as (cur & Hres & _). unfold os.path_isdir.
  unfold os.resolve in *.
  destruct (String.eqb (trixel_file dataset n) ""); [discriminate |].
  rewrite (walk_dirs fs fs' _ _ Hd _ _ Hres), Hres.
  apply is_directory_dirs, Hd.
Qed.

(** The inner loop over the names of one level, when every name has a blob
    and no parent's blob path is a child's. *)
Lemma backfill_names_merge (l : list string) :
  forall (fs : os.filesystem) (next : gset string),
    (forall n, n ∈ l -> located fs n /\ located fs (parent_name n)) ->
    (forall n, n ∈ l -> is_Some (os.files fs !! blob_key n)) ->
    (forall n, n ∈ l -> os.path_isdir fs (trixel_file dataset (parent_name n)) = false) ->
    (forall n m, n ∈ l -> m ∈ l -> blob_key (parent_name m) <> blob_key n) ->
    for_each (backfill_step dataset) l (fs, next) =
      Ok (os.mkFs (os.dirs fs) (merge_level l (os.files fs)),
          next ∪ list_to_set (parent_name <$> l)).
Proof.
  induction l as [| n l IH]; intros fs next Hloc Hblob Hdir Hne.
  - simpl. destruct fs. do 2 f_equal. set_solver.
  - rewrite for_each_cons.
    destruct (Hloc n (list_elem_of_here _ _)) as [Hn Hp].
    rewrite (backfill_step_merge fs next n Hn Hp (Hblob n (list_elem_of_here _ _))
               (Hdir n (list_elem_of_here _ _))).
    change (Ok ?a ≫= ?f) with (f a). cbv beta. rewrite IH.
    + unfold merge_level. simpl. do 2 f_equal. set_solver.
    + intros m Hm. destruct (Hloc m (list_elem_of_further _ _ _ Hm)) as [Hm1 Hm2].
      split; apply (located_dirs fs); (reflexivity || assumption).
    + intros m Hm. simpl. unfold merge_child.
      rewrite lookup_insert_ne; [apply Hblob; right; exact Hm |].
      apply Hne; [right; exact Hm | left].
    + intros m Hm.
      destruct (Hloc m (list_elem_of_further _ _ _ Hm)) as [_ Hm2].
      rewrite (path_isdir_dirs fs (os.mkFs (os.dirs fs) (merge_child (os.files fs) n))
                 _ eq_refl Hm2).
      exact (Hdir m (list_elem_of_further _ _ _ Hm)).
    + intros a b Ha Hb. apply Hne; right; assumption.
Qed.

(** The rows a key holds after a level, from the names whose parent it is. *)
Definition merged (files : gmap string os.blob) (k : string) (children : list string)
  : option os.blob :=
  match children with
  | [] => files !! k
  | _ => Some (default [] (files !! k) ++ concat (blob_rows files <$> children))
  end.

Lemma merge_level_lookup (l : list string) :
  forall (files : gmap string os.blob) (k : string),
    (forall n m, n ∈ l -> m ∈ l -> blob_key (parent_name m) <> blob_key n) ->
    merge_level l files !! k =
      merged files k (filter (fun n => blob_key (parent_name n) = k) l).
Proof.
  induction l as [| n l IH]; intros files k Hne; [reflexivity |].
  unfold merge_level. simpl fold_left. fold (merge_level l (merge_child files n)).
  rewrite IH by (intros a b Ha Hb; apply Hne; right; assumption).
  assert (Hsame : forall m, m ∈ l -> blob_rows (merge_child files n) m = blob_rows files m).
  { intros m Hm. unfold blob_rows, merge_child.
    rewrite lookup_insert_ne; [reflexivity |]. apply Hne; [right; exact Hm | left]. }
  assert (Hrows : forall ch, ch ⊆ l ->
            blob_rows (merge_child files n) <$> ch = blob_rows files <$> ch).
  { induction ch as [| c ch IHch]; intros Hsub; [reflexivity |].
    rewrite !fmap_cons, Hsame, IHch; [reflexivity | set_solver | set_solver]. }
  set (ch := filter (fun n0 => blob_key (parent_name n0) = k) l).
  assert (Hch : ch ⊆ l) by (intros x Hx; apply list_elem_of_filter in Hx; tauto).
  rewrite filter_cons. destruct (decide (blob_key (parent_name n) = k)) as [Hk | Hk].
  - fold ch. unfold merged at 2.
    assert (Hlook : merge_child files n !! k =
                    Some (default [] (files !! k) ++ blob_rows files n)).
    { unfold merge_child. rewrite Hk, lookup_insert_eq. unfold blob_rows at 1.
      rewrite Hk. reflexivity. }
    rewrite fmap_cons, concat_cons.
    destruct ch as [| c ch'] eqn:Ech; unfold merged.
    + rewrite Hlook. simpl. rewrite app_nil_r. reflexivity.
    + rewrite Hlook, (Hrows _ Hch). simpl default. rewrite <- app_assoc. reflexivity.
  - fold ch.
    assert (Hlook : merge_child files n !! k = files !! k).
    { unfold merge_child. rewrite lookup_insert_ne; [reflexivity | exact Hk]. }
    destruct ch as [| c ch'] eqn:Ech; unfold merged.
    + exact Hlook.
    + rewrite Hlook, (Hrows _ Hch). reflexivity.
Qed.

End backfill_level.

Lemma filter_none {A} (P : A -> Prop) `{forall x, Decision (P x)} (l : list A) :
  (forall x, x ∈ l -> ~ P x) -> filter P l = [].
Proof.
  induction l as [| x l IH]; intros Hnone; [reflexivity |].
  rewrite filter_cons. destruct (decide (P x)) as [Hx | _].
  - destruct (Hnone x (list_elem_of_here _ _) Hx).
  - apply IH. intros y Hy. apply Hnone, list_elem_of_further, Hy.
Qed.

Lemma filter_agree {A} (P Q : A -> Prop) `{forall x, Decision (P x)}
    `{forall x, Decision (Q x)} (l : list A) :
  (forall x, x ∈ l -> P x <-> Q x) -> filter P l = filter Q l.
Proof.
  induction l as [| x l IH]; intros Hagree; [reflexivity |].
  rewrite !filter_cons.
  pose proof (Hagree x (list_elem_of_here _ _)) as Hx.
  rewrite IH by (intros y Hy; apply Hagree, list_elem_of_further, Hy).
  destruct (decide (P x)), (decide (Q x)); tauto || reflexivity.
Qed.

Lemma filter_eq_singleton {A} `{EqDecision A} (x : A) (l : list A) :
  NoDup l -> x ∈ l -> filter (fun y => y = x) l = [x].
Proof.
  induction 1 as [| y l Hy Hl IH]; intros Hx; [inversion Hx |].
  rewrite filter_cons. destruct (decide (y = x)) as [-> | Hne].
  - rewrite filter_none; [reflexivity |]. intros z Hz ->. exact (Hy Hz).
  - apply IH. apply elem_of_cons in Hx. destruct Hx as [-> | Hx]; [congruence | exact Hx].
Qed.

Lemma filter_within {A} (P Q : A -> Prop) `{forall x, Decision (P x)}
    `{forall x, Decision (Q x)} (l : list A) :
  (forall x, P x -> Q x) -> filter P (filter Q l) = filter P l.
Proof.
  intros Himp. induction l as [| x l IH]; [reflexivity |].
  rewrite !filter_cons. destruct (decide (Q x)) as [HQ | HQ].
  - rewrite filter_cons, IH. reflexivity.
  - rewrite IH. destruct (decide (P x)) as [HP | _]; [| reflexivity].
    destruct (HQ (Himp x HP)).
Qed.

Lemma fmap_pointwise_in {A C} (X Y : A -> C) (l : list A) :
  (forall T, T ∈ l -> X T = Y T) -> X <$> l = Y <$> l.
Proof.
  induction l as [| x l IH]; intros H; [reflexivity |].
  rewrite !fmap_cons, (H x (list_elem_of_here _ _)), IH; [reflexivity |].
  intros T HT. apply H, list_elem_of_further, HT.
Qed.

Section set_order.

Context {O : PySetOrder}.

Lemma list_of_set_elem (X : gset string) (n : string) :
  n ∈ list_of_set X <-> n ∈ X.
Proof. rewrite list_of_set_perm. apply elem_of_elements. Qed.

Lemma list_of_set_empty : list_of_set ∅ = [].
Proof.
  apply Permutation_nil_r. rewrite list_of_set_perm, elements_empty. reflexivity.
Qed.

Lemma list_of_set_first (X : gset string) :
  X <> ∅ -> exists first rest, list_of_set X = first :: rest /\ first ∈ X.
Proof.
  intros Hne. destruct (list_of_set X) as [| first rest] eqn:E.
  - exfalso. apply Hne. apply set_eq. intros x.
    rewrite <- list_of_set_elem, E. set_solver.
  - exists first, rest. split; [reflexivity |].
    apply list_of_set_elem. rewrite E. left.
Qed.

End set_order.

Section backfill_law.

Import ingest constants.

Context {O : PySetOrder}.

Variable dataset : Dataset.
Variable comps : list string.
Hypothesis processed_rooted : processed_path dataset = rooted comps.
Hypothesis comps_nonempty : comps <> [].
Hypothesis comps_plain : Forall (fun c => plain c = true) comps.

(** The ancestor of a name [k] levels up. *)
Definition ancestor (k : nat) (n : string) : string := Nat.iter k parent_name n.

Lemma ancestor_trixel_name (D : Z) (k : nat) (n : string) :
  is_trixel_name n = true -> name_depth n = D -> Z.of_nat k < D ->
  is_trixel_name (ancestor k n) = true
  /\ name_depth (ancestor k n) = D - Z.of_nat k.
Proof.
  intros Hn HD. induction k as [| k IH]; intros Hk.
  - simpl. split; [exact Hn | lia].
  - destruct IH as [Hv Hd]; [lia |].
    unfold ancestor in *. simpl Nat.iter.
    destruct (parent_name_segments _ Hv) as (_ & Hpv & Hpd); [lia |].
    split; [exact Hpv | lia].
Qed.

Lemma blob_key_inj (n m : string) :
  is_trixel_name n = true -> is_trixel_name m = true ->
  blob_key dataset n = blob_key dataset m -> n = m.
Proof.
  apply (trixel_file_inj dataset comps processed_rooted comps_nonempty comps_plain).
Qed.

(** The blob path of a trixel name leads to its key exactly when the
    directory of the trixel and the directories above it exist. *)
Lemma located_chain (fs : os.filesystem) (n : string) :
  is_trixel_name n = true ->
  located dataset fs n <-> dir_chain fs (comps ++ segments n).
Proof.
  intros Hv.
  destruct (trixel_file_rooted dataset comps processed_rooted comps_nonempty
              comps_plain n Hv) as [Hfile Hnorm].
  destruct (trixel_name_plain n Hv) as [_ Hsegs].
  assert (Hall : Forall (fun c => plain c = true) (comps ++ segments n)).
  { apply Forall_app. split; assumption. }
  pose proof (resolve_rooted fs (comps ++ segments n) "data.npy" Hall eq_refl) as Hres.
  rewrite <- app_assoc, <- Hfile in Hres.
  unfold located, blob_key. rewrite Hnorm. split.
  - intros (cur & Hcur & _). apply Hres in Hcur. tauto.
  - intros Hchain. exists (comps ++ segments n ++ ["data.npy"]). split.
    + apply Hres. split; [reflexivity | exact Hchain].
    + rewrite Hfile. reflexivity.
Qed.

Lemma located_parent (fs : os.filesystem) (n : string) :
  is_trixel_name n = true -> 2 <= name_depth n ->
  located dataset fs n -> located dataset fs (parent_name n).
Proof.
  intros Hv Hd Hn.
  destruct (parent_name_segments n Hv Hd) as (Hsegs & Hpv & _).
  apply (located_chain fs _ Hpv). apply (located_chain fs _ Hv) in Hn.
  rewrite Hsegs.
  destruct (trixel_name_plain n Hv) as [Hne _].
  replace (comps ++ removelast (segments n))
    with (take (Nat.pred (length (comps ++ segments n))) (comps ++ segments n)).
  - apply dir_chain_take, Hn.
  - rewrite <- removelast_app by exact Hne. rewrite removelast_firstn_len.
    reflexivity.
Qed.

Variable saved : gset string.
Variable fs0 : os.filesystem.
Variable D : Z.

Hypothesis saved_names :
  forall n, n ∈ saved -> is_trixel_name n = true /\ name_depth n = D.
Hypothesis saved_blobs :
  forall n, n ∈ saved -> os.path_isfile fs0 (trixel_file dataset n) = true.
Hypothesis no_other_blob :
  forall n, is_trixel_name n = true -> n ∉ saved ->
            os.path_exists fs0 (trixel_file dataset n) = false.

(** The rows of the saved blobs, before the backfill. *)
Definition leaf_rows (n : string) : os.blob := blob_rows dataset (os.files fs0) n.

(** The saved names [k] levels below [T]. *)
Definition saved_below (k : nat) (T : string) : list string :=
  filter (fun n => ancestor k n = T) (elements saved).

Definition descendant_rows (k : nat) (T : string) : os.blob :=
  concat (leaf_rows <$> saved_below k T).

Lemma depth_positive_saved (n : string) : n ∈ saved -> 1 <= D.
Proof.
  intros Hn. destruct (saved_names n Hn) as [Hv <-].
  rewrite name_depth_segments.
  destruct (trixel_name_plain n Hv) as [Hne _].
  destruct (segments n); [congruence | simpl; lia].
Qed.

Lemma saved_ancestor (d : Z) (n : string) :
  n ∈ saved -> 1 <= d <= D ->
  is_trixel_name (ancestor (Z.to_nat (D - d)) n) = true
  /\ name_depth (ancestor (Z.to_nat (D - d)) n) = d.
Proof.
  intros Hn Hd. destruct (saved_names n Hn) as [Hv HD].
  destruct (ancestor_trixel_name D (Z.to_nat (D - d)) n Hv HD) as [Ha Hb]; [lia |].
  split; [exact Ha | lia].
Qed.

Lemma saved_located (n : string) : n ∈ saved -> located dataset fs0 n.
Proof.
  intros Hn. destruct (saved_names n Hn) as [Hv _].
  apply (located_chain fs0 n Hv).
  destruct (trixel_file_rooted dataset comps processed_rooted comps_nonempty
              comps_plain n Hv) as [Hfile _].
  destruct (trixel_name_plain n Hv) as [_ Hsegs].
  assert (Hall : Forall (fun c => plain c = true) (comps ++ segments n)).
  { apply Forall_app. split; assumption. }
  pose proof (saved_blobs n Hn) as Hfileb. unfold os.path_isfile in Hfileb.
  destruct (os.resolve fs0 (trixel_file dataset n)) as [cur |] eqn:Hres;
    [| discriminate].
  rewrite Hfile, app_assoc in Hres.
  apply (resolve_rooted fs0 _ "data.npy" Hall eq_refl) in Hres. tauto.
Qed.

Lemma saved_has_blob (n : string) :
  n ∈ saved -> is_Some (os.files fs0 !! blob_key dataset n).
Proof.
  intros Hn. pose proof (saved_blobs n Hn) as Hfile.
  rewrite (located_isfile dataset fs0 n (saved_located n Hn)) in Hfile.
  apply bool_decide_eq_true_1 in Hfile. exact Hfile.
Qed.

(** The blob paths of the ancestors of the saved names lead to their keys. *)
Lemma ancestor_located (k : nat) (n : string) :
  n ∈ saved -> Z.of_nat k < D -> located dataset fs0 (ancestor k n).
Proof.
  intros Hn. destruct (saved_names n Hn) as [Hv HD].
  induction k as [| k IH]; intros Hk; [exact (saved_located n Hn) |].
  destruct (ancestor_trixel_name D k n Hv HD) as [Hkv Hkd]; [lia |].
  unfold ancestor in *. simpl Nat.iter.
  apply located_parent; [exact Hkv | lia | apply IH; lia].
Qed.

Lemma other_blob_absent (fs : os.filesystem) (n : string) :
  os.dirs fs = os.dirs fs0 -> located dataset fs0 n ->
  is_trixel_name n = true -> name_depth n <> D ->
  os.path_isdir fs (trixel_file dataset n) = false
  /\ os.files fs0 !! blob_key dataset n = None.
Proof.
  intros Hdirs Hloc Hv Hd.
  assert (Hnot : n ∉ saved).
  { intros Hin. destruct (saved_names n Hin) as [_ HD]. congruence. }
  pose proof (no_other_blob n Hv Hnot) as Hex.
  unfold os.path_exists in Hex. apply orb_false_elim in Hex.
  destruct Hex as [Hdir Hfile]. split.
  - rewrite (path_isdir_dirs dataset fs0 fs _ Hdirs Hloc). exact Hdir.
  - rewrite (located_isfile dataset fs0 n Hloc) in Hfile.
    apply bool_decide_eq_false in Hfile.
    destruct (os.files fs0 !! blob_key dataset n) eqn:E; [| reflexivity].
    exfalso. apply Hfile. eexists. reflexivity.
Qed.

(** What holds between two levels of the backfill, once the names at depth
    [d] are done. *)
Record level_state (d : Z) (fs : os.filesystem) (prev : list string)
    (tbd : gmap Z (list string)) : Prop := mkLevel {
  ls_dirs : os.dirs fs = os.dirs fs0;
  ls_nodup : NoDup prev;
  ls_prev : forall T,
    T ∈ prev <-> exists n, n ∈ saved /\ ancestor (Z.to_nat (D - d)) n = T;
  ls_here : tbd !! d = Some prev;
  ls_levels : forall d' l T,
    d <= d' <= D -> tbd !! d' = Some l -> T ∈ l ->
    (exists n, n ∈ saved /\ ancestor (Z.to_nat (D - d')) n = T)
    /\ exists rows, os.files fs !! blob_key dataset T = Some rows
                    /\ rows ≡ₚ descendant_rows (Z.to_nat (D - d')) T;
  ls_recorded : forall d', d <= d' <= D -> is_Some (tbd !! d');
  ls_above : forall n,
    is_trixel_name n = true -> name_depth n < d ->
    os.files fs !! blob_key dataset n = os.files fs0 !! blob_key dataset n;
  ls_leaves : forall n,
    n ∈ saved -> os.files fs !! blob_key dataset n = os.files fs0 !! blob_key dataset n
}.

Lemma level_names (d : Z) (fs : os.filesystem) (prev : list string)
    (tbd : gmap Z (list string)) :
  level_state d fs prev tbd -> 1 <= d <= D ->
  forall T, T ∈ prev -> is_trixel_name T = true /\ name_depth T = d.
Proof.
  intros Hst Hd T HT. apply (ls_prev _ _ _ _ Hst) in HT.
  destruct HT as (n & Hn & <-). apply saved_ancestor; assumption.
Qed.

Lemma merge_untouched (prev : list string) (files : gmap string os.blob)
    (d : Z) (n : string) :
  (forall T, T ∈ prev ->
     is_trixel_name (parent_name T) = true /\ name_depth (parent_name T) = d) ->
  (forall a b, a ∈ prev -> b ∈ prev ->
     blob_key dataset (parent_name b) <> blob_key dataset a) ->
  is_trixel_name n = true -> name_depth n <> d ->
  merge_level dataset prev files !! blob_key dataset n = files !! blob_key dataset n.
Proof.
  intros Hparents Hne Hv Hd.
  rewrite (merge_level_lookup dataset prev files _ Hne).
  rewrite filter_none; [reflexivity |].
  intros m Hm Heq. destruct (Hparents m Hm) as [Hpv Hpd].
  apply blob_key_inj in Heq; [| exact Hpv | exact Hv]. congruence.
Qed.

(** One level of the backfill keeps the invariant, one depth up. *)
Lemma backfill_level_state (d : Z) (fs : os.filesystem) (prev : list string)
    (tbd : gmap Z (list string)) :
  1 <= d < D -> level_state (d + 1) fs prev tbd ->
  exists fs' prev' tbd',
    backfill_level dataset (fs, prev, tbd) d = Ok (fs', prev', tbd')
    /\ level_state d fs' prev' tbd'.
Proof.
  intros Hd Hst.
  pose proof (level_names (d + 1) fs prev tbd Hst ltac:(lia)) as Hnames.
  assert (Hparents : forall T, T ∈ prev ->
            is_trixel_name (parent_name T) = true /\ name_depth (parent_name T) = d).
  { intros T HT. destruct (Hnames T HT) as [Hv Hdepth].
    destruct (parent_name_segments T Hv) as (_ & Hpv & Hpd); [lia |].
    split; [exact Hpv | lia]. }
  assert (Hne : forall a b, a ∈ prev -> b ∈ prev ->
            blob_key dataset (parent_name b) <> blob_key dataset a).
  { intros a b Ha Hb Heq. destruct (Hnames a Ha) as [Hav Had].
    destruct (Hparents b Hb) as [Hbv Hbd].
    apply blob_key_inj in Heq; [| exact Hbv | exact Hav]. rewrite <- Heq in Had. lia. }
  assert (Hblob : forall n, n ∈ prev -> is_Some (os.files fs !! blob_key dataset n)).
  { intros n Hn.
    destruct (ls_levels _ _ _ _ Hst (d + 1) prev n ltac:(lia) (ls_here _ _ _ _ Hst) Hn)
      as (_ & rows & Hrows & _).
    eexists. exact Hrows. }
  assert (Hloc0 : forall n, n ∈ prev ->
            located dataset fs0 n /\ located dataset fs0 (parent_name n)).
  { intros T HT. apply (ls_prev _ _ _ _ Hst) in HT. destruct HT as (n & Hn & <-).
    split; [apply ancestor_located; [exact Hn | lia] |].
    apply (ancestor_located (S (Z.to_nat (D - (d + 1)))) n Hn). lia. }
  assert (Hloc : forall n, n ∈ prev ->
            located dataset fs n /\ located dataset fs (parent_name n)).
  { intros n Hn. destruct (Hloc0 n Hn) as [H1 H2].
    split; apply (located_dirs dataset fs0 fs _ (ls_dirs _ _ _ _ Hst)); assumption. }
  assert (Hdir : forall n, n ∈ prev ->
            os.path_isdir fs (trixel_file dataset (parent_name n)) = false).
  { intros n Hn. destruct (Hparents n Hn) as [Hpv Hpd].
    apply (other_blob_absent fs _ (ls_dirs _ _ _ _ Hst) (proj2 (Hloc0 n Hn)) Hpv). lia. }
  unfold backfill_level.
  rewrite (backfill_names_merge dataset prev fs ∅ Hloc Hblob Hdir Hne).
  change (Ok ?a ≫= ?f) with (f a). cbv beta iota.
  set (files' := merge_level dataset prev (os.files fs)).
  set (next := (∅ ∪ list_to_set (parent_name <$> prev) : gset string)).
  eexists _, _, _. split; [reflexivity |].
  assert (Hstep : Z.to_nat (D - d) = S (Z.to_nat (D - (d + 1)))) by lia.
  assert (Hprev' : forall T, T ∈ list_of_set next <->
            exists n, n ∈ saved /\ ancestor (Z.to_nat (D - d)) n = T).
  { intros T. rewrite list_of_set_perm, elem_of_elements. unfold next.
    rewrite elem_of_union, elem_of_list_to_set, list_elem_of_fmap. split.
    - intros [Hemp | (T' & -> & HT')]; [set_solver |].
      apply (ls_prev _ _ _ _ Hst) in HT'. destruct HT' as (n & Hn & <-).
      exists n. split; [exact Hn |]. rewrite Hstep. reflexivity.
    - intros (n & Hn & <-). right.
      exists (ancestor (Z.to_nat (D - (d + 1))) n). split.
      + rewrite Hstep. reflexivity.
      + apply (ls_prev _ _ _ _ Hst). exists n. split; [exact Hn | reflexivity]. }
  constructor.
  - exact (ls_dirs _ _ _ _ Hst).
  - rewrite list_of_set_perm. apply NoDup_elements.
  - exact Hprev'.
  - apply lookup_insert_eq.
  - intros d' l T Hd' Hl HT. destruct (decide (d' = d)) as [-> | Hdd].
    + rewrite lookup_insert_eq in Hl. injection Hl as <-.
      pose proof (proj1 (Hprev' T) HT) as Hanc. split; [exact Hanc |].
      destruct Hanc as (n0 & Hn0 & Hanc0).
      destruct (saved_ancestor d n0 Hn0 ltac:(lia)) as [HTv HTd].
      rewrite Hanc0 in HTv, HTd.
      set (k := Z.to_nat (D - (d + 1))) in *.
      set (ch := filter (fun m => parent_name m = T) prev).
      assert (Hlook : files' !! blob_key dataset T
                      = Some (concat (blob_rows dataset (os.files fs) <$> ch))).
      { unfold files'. rewrite (merge_level_lookup dataset prev _ _ Hne).
        rewrite (filter_agree _ (fun m => parent_name m = T)).
        - fold ch. unfold merged.
          rewrite (ls_above _ _ _ _ Hst T HTv ltac:(lia)).
          assert (HT0 : os.files fs0 !! blob_key dataset T = None).
          { apply (other_blob_absent fs0 T eq_refl); [| exact HTv | lia].
            rewrite <- Hanc0. apply ancestor_located; [exact Hn0 | lia]. }
          rewrite HT0.
          destruct ch as [| c ch'] eqn:Ech; [| reflexivity].
          exfalso.
          assert (Hin : ancestor k n0 ∈ ch).
          { unfold ch. apply list_elem_of_filter. split.
            - rewrite <- Hanc0, Hstep. reflexivity.
            - apply (ls_prev _ _ _ _ Hst). exists n0. split; [exact Hn0 | reflexivity]. }
          rewrite Ech in Hin. inversion Hin.
        - intros m Hm. destruct (Hparents m Hm) as [Hpv _]. split.
          + intros Heq. apply blob_key_inj in Heq; assumption.
          + intros ->. reflexivity. }
      eexists. split; [exact Hlook |].
      rewrite Hstep. fold k. unfold descendant_rows at 1.
      transitivity (concat ((fun T' => descendant_rows k T') <$> ch)).
      * apply concat_fmap_perm. intros T' HT'.
        apply list_elem_of_filter in HT'. destruct HT' as [_ HT'].
        destruct (ls_levels _ _ _ _ Hst (d + 1) prev T' ltac:(lia)
                    (ls_here _ _ _ _ Hst) HT') as (_ & rows & Hrows & Hperm).
        unfold blob_rows. rewrite Hrows. exact Hperm.
      * unfold descendant_rows, saved_below.
        set (S_T := filter (fun n => ancestor (S k) n = T) (elements saved)).
        rewrite (fmap_pointwise_in _
                   (fun T' => concat (leaf_rows <$> filter (fun n => ancestor k n = T') S_T))
                   ch).
        -- apply concat_regroup.
           ++ apply NoDup_filter, (ls_nodup _ _ _ _ Hst).
           ++ intros a Ha. apply list_elem_of_filter in Ha. destruct Ha as [Ha Hsaved].
              apply elem_of_elements in Hsaved.
              apply list_elem_of_filter. split; [exact Ha |].
              apply (ls_prev _ _ _ _ Hst). exists a. split; [exact Hsaved | reflexivity].
        -- intros T' HT'. apply list_elem_of_filter in HT'. destruct HT' as [HpT _].
           unfold S_T. rewrite filter_within; [reflexivity |].
           intros x <-. exact HpT.
    + rewrite lookup_insert_ne in Hl by congruence.
      destruct (ls_levels _ _ _ _ Hst d' l T ltac:(lia) Hl HT)
        as (Hanc & rows & Hrows & Hperm).
      split; [exact Hanc |]. exists rows. split; [| exact Hperm].
      destruct Hanc as (n0 & Hn0 & Hanc0).
      destruct (saved_ancestor d' n0 Hn0 ltac:(lia)) as [HTv HTd].
      rewrite Hanc0 in HTv, HTd.
      simpl. unfold files'.
      rewrite (merge_untouched prev _ d T Hparents Hne HTv ltac:(lia)). exact Hrows.
  - intros d' Hd'. destruct (decide (d' = d)) as [-> | Hdd].
    + rewrite lookup_insert_eq. eexists. reflexivity.
    + rewrite lookup_insert_ne by congruence.
      apply (ls_recorded _ _ _ _ Hst). lia.
  - intros n Hv Hdn. simpl. unfold files'.
    rewrite (merge_untouched prev _ d n Hparents Hne Hv ltac:(lia)).
    apply (ls_above _ _ _ _ Hst n Hv). lia.
  - intros n Hn. simpl. unfold files'.
    destruct (saved_names n Hn) as [Hv HD].
    rewrite (merge_untouched prev _ d n Hparents Hne Hv ltac:(lia)).
    apply (ls_leaves _ _ _ _ Hst n Hn).
Qed.

Lemma range_desc_succ (d : Z) (cnt : nat) :
  map (fun i => d - Z.of_nat i) (seq 0 (S cnt)) =
    d :: map (fun i => d - 1 - Z.of_nat i) (seq 0 cnt).
Proof.
  simpl seq. rewrite map_cons. f_equal; [simpl; lia |].
  rewrite <- seq_shift, map_map. apply map_ext. intros i. lia.
Qed.

(** The levels from depth [d] down, [cnt] of them. *)
Lemma backfill_levels_state (cnt : nat) :
  forall (d : Z) (fs : os.filesystem) (prev : list string) (tbd : gmap Z (list string)),
    level_state (d + 1) fs prev tbd -> d < D -> 0 <= d - Z.of_nat cnt ->
    exists fs' prev' tbd',
      for_each (backfill_level dataset)
        (map (fun i => d - Z.of_nat i) (seq 0 cnt)) (fs, prev, tbd)
      = Ok (fs', prev', tbd')
      /\ level_state (d + 1 - Z.of_nat cnt) fs' prev' tbd'.
Proof.
  induction cnt as [| cnt IH]; intros d fs prev tbd Hst HdD Hlow.
  - exists fs, prev, tbd. split; [reflexivity |].
    replace (d + 1 - Z.of_nat 0) with (d + 1) by lia. exact Hst.
  - rewrite range_desc_succ, for_each_cons.
    destruct (backfill_level_state d fs prev tbd ltac:(lia) Hst)
      as (fs1 & prev1 & tbd1 & Hrun & Hst1).
    rewrite Hrun. change (Ok ?a ≫= ?f) with (f a). cbv beta.
    replace d with (d - 1 + 1) in Hst1 by lia.
    destruct (IH (d - 1) fs1 prev1 tbd1 Hst1 ltac:(lia) ltac:(lia))
      as (fs' & prev' & tbd' & Hrun' & Hst').
    exists fs', prev', tbd'. split; [exact Hrun' |].
    replace (d + 1 - Z.of_nat (S cnt)) with (d - 1 + 1 - Z.of_nat cnt) by lia.
    exact Hst'.
Qed.

Lemma initial_level_state :
  level_state D fs0 (list_of_set saved) {[ D := list_of_set saved ]}.
Proof.
  assert (Hmem : forall T, T ∈ list_of_set saved <-> T ∈ saved).
  { intros T. rewrite list_of_set_perm. apply elem_of_elements. }
  constructor.
  - reflexivity.
  - rewrite list_of_set_perm. apply NoDup_elements.
  - intros T. rewrite Hmem, Z.sub_diag. simpl. split.
    + intros HT. exists T. split; [exact HT | reflexivity].
    + intros (n & Hn & <-). exact Hn.
  - apply lookup_singleton_eq.
  - intros d' l T Hd' Hl HT. assert (d' = D) as -> by lia.
    rewrite lookup_singleton_eq in Hl. injection Hl as <-.
    apply Hmem in HT. rewrite Z.sub_diag. simpl. split.
    + exists T. split; [exact HT | reflexivity].
    + destruct (saved_has_blob T HT) as [rows Hrows].
      exists rows. split; [exact Hrows |].
      unfold descendant_rows, saved_below.
      change (fun n => ancestor 0 n = T) with (fun n : string => n = T).
      rewrite filter_eq_singleton;
        [| apply NoDup_elements | apply elem_of_elements, HT].
      simpl. rewrite app_nil_r. unfold leaf_rows, blob_rows. rewrite Hrows.
      reflexivity.
  - intros d' Hd'. assert (d' = D) as -> by lia.
    rewrite lookup_singleton_eq. eexists. reflexivity.
  - reflexivity.
  - reflexivity.
Qed.

(** What the returned dict holds once the levels from [d] to [D] are
    done: at each of them the ancestors of the saved names, each once, and
    nothing at any other depth. *)
Definition recorded_levels (d : Z) (tbd : gmap Z (list string)) : Prop :=
  (forall d', d <= d' <= D ->
     exists l, tbd !! d' = Some l /\ NoDup l
               /\ forall T, T ∈ l <->
                    exists n, n ∈ saved /\ ancestor (Z.to_nat (D - d')) n = T)
  /\ (forall d', d' < d \/ D < d' -> tbd !! d' = None).

Lemma backfill_level_inserts (fs fs' : os.filesystem) (prev prev' : list string)
    (tbd tbd' : gmap Z (list string)) (d : Z) :
  backfill_level dataset (fs, prev, tbd) d = Ok (fs', prev', tbd') ->
  tbd' = <[d := prev']> tbd.
Proof.
  unfold backfill_level. intros H.
  destruct (for_each _ prev (fs, ∅)) as [[fs1 next] |]; simpl in H; [| discriminate].
  injection H as <- <- <-. reflexivity.
Qed.

Lemma recorded_levels_step (d : Z) (fs : os.filesystem) (prev : list string)
    (tbd : gmap Z (list string)) :
  d < D -> recorded_levels (d + 1) tbd ->
  level_state d fs prev (<[d := prev]> tbd) ->
  recorded_levels d (<[d := prev]> tbd).
Proof.
  intros Hd [Hin Hout] Hst. split.
  - intros d' Hd'. destruct (decide (d' = d)) as [-> | Hne].
    + exists prev. rewrite lookup_insert_eq. split; [reflexivity |].
      split; [exact (ls_nodup _ _ _ _ Hst) | exact (ls_prev _ _ _ _ Hst)].
    + rewrite lookup_insert_ne by congruence. apply Hin. lia.
  - intros d' Hd'. rewrite lookup_insert_ne by lia. apply Hout. lia.
Qed.

Lemma backfill_levels_recorded (cnt : nat) :
  forall (d : Z) (fs : os.filesystem) (prev : list string) (tbd : gmap Z (list string)),
    level_state (d + 1) fs prev tbd ->
    recorded_levels (d + 1) tbd -> d < D -> 0 <= d - Z.of_nat cnt ->
    exists fs' prev' tbd',
      for_each (backfill_level dataset)
        (map (fun i => d - Z.of_nat i) (seq 0 cnt)) (fs, prev, tbd)
      = Ok (fs', prev', tbd')
      /\ level_state (d + 1 - Z.of_nat cnt) fs' prev' tbd'
      /\ recorded_levels (d + 1 - Z.of_nat cnt) tbd'.
Proof.
  induction cnt as [| cnt IH]; intros d fs prev tbd Hst Hrec Hd Hcnt.
  - exists fs, prev, tbd. simpl. rewrite Z.sub_0_r.
    split; [reflexivity | split; assumption].
  - rewrite range_desc_succ, for_each_cons.
    destruct (backfill_level_state d fs prev tbd ltac:(lia) Hst)
      as (fs1 & prev1 & tbd1 & Hrun & Hst1).
    rewrite Hrun. change (Ok ?a ≫= ?f) with (f a). cbv beta.
    pose proof (backfill_level_inserts _ _ _ _ _ _ _ Hrun) as ->.
    pose proof (recorded_levels_step d fs1 prev1 tbd Hd Hrec Hst1) as Hrec1.
    replace d with (d - 1 + 1) in Hst1 at 1 by lia.
    replace d with (d - 1 + 1) in Hrec1 at 1 by lia.
    destruct (IH (d - 1) fs1 prev1 _ Hst1 Hrec1 ltac:(lia) ltac:(lia))
      as (fs' & prev' & tbd' & Hrun' & Hst' & Hrec').
    exists fs', prev', tbd'. split; [exact Hrun' |].
    replace (d + 1 - Z.of_nat (S cnt)) with (d - 1 + 1 - Z.of_nat cnt) by lia.
    split; assumption.
Qed.

Lemma initial_recorded_levels : recorded_levels D {[ D := list_of_set saved ]}.
Proof.
  split.
  - intros d' Hd'. assert (d' = D) as -> by lia.
    exists (list_of_set saved). rewrite lookup_singleton_eq.
    split; [reflexivity |].
    split; [rewrite list_of_set_perm; apply NoDup_elements |].
    intros T. rewrite list_of_set_elem, Z.sub_diag. simpl. split.
    + intros HT. exists T. split; [exact HT | reflexivity].
    + intros (n & Hn & <-). exact Hn.
  - intros d' Hd'. apply lookup_singleton_ne. lia.
Qed.

(** [backfill_trixels] returns.  Every level from [INGEST_MIN_DEPTH] to the
    depth of the saved names is recorded; every recorded name holds the rows
    of the saved names below it; the directories, the blobs of the saved
    names and the blobs above [INGEST_MIN_DEPTH] are left as they were. *)
Lemma backfill_trixels_run :
  saved <> ∅ -> INGEST_MIN_DEPTH <= D ->
  exists tbd fs',
    backfill_trixels dataset saved fs0 = Ok (tbd, fs')
    /\ recorded_levels INGEST_MIN_DEPTH tbd
    /\ os.dirs fs' = os.dirs fs0
    /\ (forall n, n ∈ saved ->
          os.files fs' !! blob_key dataset n = os.files fs0 !! blob_key dataset n)
    /\ (forall n, is_trixel_name n = true -> name_depth n < INGEST_MIN_DEPTH ->
          os.files fs' !! blob_key dataset n = os.files fs0 !! blob_key dataset n)
    /\ (forall d l T,
          INGEST_MIN_DEPTH <= d <= D -> tbd !! d = Some l -> T ∈ l ->
          exists rows,
            os.files fs' !! blob_key dataset T = Some rows
            /\ rows ≡ₚ descendant_rows (Z.to_nat (D - d)) T).
Proof.
  intros Hne HD. unfold backfill_trixels.
  destruct (list_of_set_first saved Hne) as (first & rest & Hlist & Hfirst).
  rewrite Hlist. change (py_getitem (first :: rest) 0) with (Ok first).
  change (Ok first ≫= ?f) with (f first). cbv beta zeta.
  rewrite <- Hlist. destruct (saved_names first Hfirst) as [_ ->].
  assert (Hall : forallb (fun trixel => name_depth trixel =? D) (list_of_set saved) = true).
  { apply forallb_forall. intros n Hn. apply list_elem_of_In, list_of_set_elem in Hn.
    destruct (saved_names n Hn) as [_ ->]. apply Z.eqb_refl. }
  rewrite Hall. cbn [negb]. unfold py_range_desc.
  destruct (backfill_levels_recorded (Z.to_nat (D - 1 - (INGEST_MIN_DEPTH - 1)))
              (D - 1) fs0 (list_of_set saved) {[ D := list_of_set saved ]})
    as (fs' & prev' & tbd' & Hrun & Hst & Hrec).
  - replace (D - 1 + 1) with D by lia.
    apply initial_level_state.
  - replace (D - 1 + 1) with D by lia. apply initial_recorded_levels.
  - lia.
  - unfold INGEST_MIN_DEPTH in *. lia.
  - rewrite Hrun. change (Ok ?a ≫= ?f) with (f a). cbv beta iota.
    replace (D - 1 + 1 - Z.of_nat (Z.to_nat (D - 1 - (INGEST_MIN_DEPTH - 1))))
      with INGEST_MIN_DEPTH in Hst, Hrec by lia.
    exists tbd', fs'. split; [reflexivity |].
    split; [exact Hrec |].
    split; [exact (ls_dirs _ _ _ _ Hst) |].
    split; [exact (ls_leaves _ _ _ _ Hst) |].
    split; [exact (ls_above _ _ _ _ Hst) |].
    intros d l T Hd Hl HT.
    destruct (ls_levels _ _ _ _ Hst d l T ltac:(lia) Hl HT) as (_ & Hrows).
    exact Hrows.
Qed.

End backfill_law.

Section concatenation_law.

Import ingest constants.

Context {O : PySetOrder}.

(** The rows of the blob a file system holds for a trixel name: what
    [np.load] returns for its blob path, and no rows where that raises. *)
Definition stored_rows (dataset : Dataset) (fs : os.filesystem) (n : string)
  : list (list float) :=
  match os.np_load fs (trixel_file dataset n) with
  | Ok rows => rows
  | Raise _ => []
  end.

(** The saved names, at depth [INGEST_MAX_DEPTH], below the trixel named [T]
    of depth [d]: those whose ancestor at depth [d] is [T]. *)
Definition saved_descendants (saved : gset string) (d : Z) (T : string)
  : list string :=
  saved_below saved (Z.to_nat (INGEST_MAX_DEPTH - d)) T.

(** C2: let the processed directory be an absolute path in normal form and
    let the saved names be trixel names of depth [INGEST_MAX_DEPTH] = 20, at
    least one, such that exactly they have blobs: every saved name has one,
    and the blob path of no other trixel name exists (so no ancestor blob
    does).  Then [backfill_trixels] returns, and it leaves the blob of every
    saved name as it was.  At every depth d from [INGEST_MIN_DEPTH] = 10 to
    19 its mapping records a list of names: the ancestors at depth d of the
    saved names, every one of them and each once.  For every name T
    recorded there, the blob of T now exists and holds, up to the order of
    rows, the rows of the blobs of all saved names below T. *)
Theorem backfill_concatenation (dataset : Dataset) (saved : gset string)
    (fs : os.filesystem) :
  absolute_normal (processed_path dataset) = true ->
  saved <> ∅ ->
  (forall n, n ∈ saved ->
     is_trixel_name n = true /\ name_depth n = INGEST_MAX_DEPTH) ->
  (forall n, n ∈ saved -> os.path_isfile fs (trixel_file dataset n) = true) ->
  (forall n, is_trixel_name n = true -> n ∉ saved ->
     os.path_exists fs (trixel_file dataset n) = false) ->
  exists trixels_by_depth fs',
    backfill_trixels dataset saved fs = Ok (trixels_by_depth, fs')
    /\ (forall n, n ∈ saved ->
          os.np_load fs' (trixel_file dataset n) = os.np_load fs (trixel_file dataset n))
    /\ forall d, INGEST_MIN_DEPTH <= d < INGEST_MAX_DEPTH ->
       exists names,
         trixels_by_depth !! d = Some names
         /\ NoDup names
         /\ (forall T, T ∈ names <->
               exists n, n ∈ saved /\ ancestor (Z.to_nat (INGEST_MAX_DEPTH - d)) n = T)
         /\ forall T, T ∈ names ->
            exists rows,
              os.np_load fs' (trixel_file dataset T) = Ok rows
              /\ rows ≡ₚ concat (stored_rows dataset fs <$> saved_descendants saved d T).
Proof.
  intros Hnormal Hne Hnames Hblobs Hothers.
  destruct (absolute_normal_rooted _ Hnormal) as (comps & Hcomps & Hplain & Hrooted).
  destruct (backfill_trixels_run dataset comps Hrooted Hcomps Hplain saved fs
              INGEST_MAX_DEPTH Hnames Hblobs Hothers Hne)
    as (tbd & fs' & Hrun & [Hin _] & Hdirs & Hleaves & _ & Hrows);
    [unfold INGEST_MIN_DEPTH, INGEST_MAX_DEPTH; lia |].
  assert (Hloc : forall k n, n ∈ saved -> Z.of_nat k < INGEST_MAX_DEPTH ->
            located dataset fs (ancestor k n)
            /\ located dataset fs' (ancestor k n)).
  { intros k n Hn Hk.
    pose proof (ancestor_located dataset comps Hrooted Hcomps Hplain saved fs
                  INGEST_MAX_DEPTH Hnames Hblobs k n Hn Hk) as H0.
    split; [exact H0 | exact (located_dirs dataset fs fs' _ Hdirs H0)]. }
  assert (Hleaf : forall n, n ∈ saved ->
            exists rows,
              os.np_load fs (trixel_file dataset n) = Ok rows
              /\ os.np_load fs' (trixel_file dataset n) = Ok rows
              /\ blob_rows dataset (os.files fs) n = rows).
  { intros n Hn.
    destruct (Hloc 0%nat n Hn) as [H0 H1]; [unfold INGEST_MAX_DEPTH; lia |].
    destruct (saved_has_blob dataset comps Hrooted Hcomps Hplain saved fs
                INGEST_MAX_DEPTH Hnames Hblobs n Hn) as [rows Hrows0].
    exists rows. split; [exact (located_np_load dataset fs n rows H0 Hrows0) |].
    split.
    - apply (located_np_load dataset fs' n rows H1). rewrite (Hleaves n Hn). exact Hrows0.
    - unfold blob_rows. rewrite Hrows0. reflexivity. }
  exists tbd, fs'. split; [exact Hrun |]. split.
  - intros n Hn. destruct (Hleaf n Hn) as (rows & H0 & H1 & _). congruence.
  - intros d Hd.
    destruct (Hin d) as (names & Hnames' & Hnodup & Hmem);
      [unfold INGEST_MIN_DEPTH in *; lia |].
    exists names. split; [exact Hnames' |]. split; [exact Hnodup |].
    split; [exact Hmem |].
    intros T HT.
    destruct (Hrows d names T ltac:(lia) Hnames' HT) as (rows & Hlook & Hperm).
    exists rows. split.
    + apply Hmem in HT. destruct HT as (n & Hn & <-).
      destruct (Hloc (Z.to_nat (INGEST_MAX_DEPTH - d)) n Hn) as [_ H1];
        [unfold INGEST_MIN_DEPTH, INGEST_MAX_DEPTH in *; lia |].
      exact (located_np_load dataset fs' _ rows H1 Hlook).
    + rewrite Hperm. unfold descendant_rows, saved_descendants.
      rewrite (fmap_pointwise_in (leaf_rows dataset fs) (stored_rows dataset fs));
        [reflexivity |].
      intros n Hn. unfold saved_below in Hn. apply list_elem_of_filter in Hn.
      destruct Hn as [_ Hn]. apply elem_of_elements in Hn.
      destruct (Hleaf n Hn) as (rows' & H0 & _ & Hb).
      unfold leaf_rows, stored_rows. rewrite H0. exact Hb.
Qed.

End concatenation_law.

(** Three saved leaves at depth 20: two siblings and a cousin of theirs. *)
Definition leaf_a : string := "N0-0-0-0-0-0-0-0-0-0-0-0-0-0-0-0-0-0-0-1".
Definition leaf_b : string := "N0-0-0-0-0-0-0-0-0-0-0-0-0-0-0-0-0-0-0-2".
Definition leaf_c : string := "N0-0-0-0-0-0-0-0-0-0-0-0-0-0-0-0-0-0-1-2".

Definition three_leaves : gset string := {[ leaf_a; leaf_b; leaf_c ]}.

Definition survey : ingest.Dataset :=
  ingest.mkDataset "survey" "/data/unprocessed/survey" "/data/processed/survey"
    32 "N" 0 0 100 100 ["/data/unprocessed/survey/layer.xy"].

(** The directory of a trixel's blob. *)
Definition trixel_dir (dataset : ingest.Dataset) (n : string) : string :=
  os.path_join (ingest.processed_path dataset) [pystr.replace dash slash n].

(** The store after the three leaves were saved: their directories, and
    their blobs of one row each. *)
Definition leaves_only : os.filesystem :=
  let fs := ingest_data.makedirs (os.mkFs ∅ ∅) (trixel_dir survey leaf_a) in
  let fs := ingest_data.makedirs fs (trixel_dir survey leaf_b) in
  let fs := ingest_data.makedirs fs (trixel_dir survey leaf_c) in
  os.mkFs (os.dirs fs)
    (<[blob_key survey leaf_a := [[1; 1; 10; 0; 0; 0]%float]]>
       (<[blob_key survey leaf_b := [[2; 2; 10; 0; 0; 0]%float]]>
          (<[blob_key survey leaf_c := [[3; 3; 10; 0; 0; 0]%float]]> ∅))).

#[local] Instance elements_order : PySetOrder :=
  {| list_of_set := elements; list_of_set_perm := fun X => reflexivity (elements X) |}.

(** Whether a stored path ends in the component "data.npy". *)
Definition names_blob (p : string) : bool :=
  bool_decide (last (pystr.split slash p) = Some "data.npy").

Lemma leaves_only_no_other_blob (n : string) :
  is_trixel_name n = true -> n ∉ three_leaves ->
  os.path_exists leaves_only (ingest.trixel_file survey n) = false.
Proof.
  intros Hv Hn.
  destruct (absolute_normal_rooted (ingest.processed_path survey) eq_refl)
    as (comps & Hcomps & Hplain & Hrooted).
  destruct (trixel_file_rooted survey comps Hrooted Hcomps Hplain n Hv)
    as [Hfile Hnorm].
  destruct (trixel_name_plain n Hv) as [_ Hsegs].
  assert (Hall : Forall (fun c => plain c = true) (comps ++ segments n)).
  { apply Forall_app. split; assumption. }
  assert (Hdiff : forall m, m ∈ three_leaves -> is_trixel_name m = true ->
            blob_key survey m <> blob_key survey n).
  { intros m Hm Hmv Heq.
    apply (trixel_file_inj survey comps Hrooted Hcomps Hplain m n Hmv Hv) in Heq.
    subst m. exact (Hn Hm). }
  unfold os.path_exists, os.path_isdir, os.path_isfile.
  destruct (os.resolve leaves_only (ingest.trixel_file survey n)) as [cur |] eqn:Hres;
    [| reflexivity].
  rewrite Hfile, app_assoc in Hres.
  apply (resolve_rooted leaves_only _ "data.npy" Hall eq_refl) in Hres.
  destruct Hres as [-> _].
  assert (Hkey : os.entry ((comps ++ segments n) ++ ["data.npy"]) = blob_key survey n).
  { unfold blob_key. rewrite Hnorm, Hfile, app_assoc. reflexivity. }
  apply orb_false_intro.
  - rewrite is_directory_snoc, Hkey. apply bool_decide_eq_false_2. intros Hin.
    assert (Hdirs : forallb (fun p => negb (names_blob p))
                      (elements (os.dirs leaves_only)) = true)
      by (vm_compute; reflexivity).
    rewrite forallb_forall in Hdirs.
    apply elem_of_elements, list_elem_of_In, Hdirs in Hin.
    apply negb_true_iff, bool_decide_eq_false in Hin. apply Hin.
    unfold blob_key. rewrite Hnorm, Hfile, app_assoc.
    rewrite split_rooted.
    + rewrite last_cons, last_snoc. reflexivity.
    + destruct (comps ++ segments n); discriminate.
    + apply Forall_app. split; [exact Hall | constructor; [reflexivity | constructor]].
  - unfold os.is_file. rewrite Hkey. apply bool_decide_eq_false_2.
    unfold leaves_only. cbn [os.files].
    rewrite !lookup_insert_ne, lookup_empty.
    + intros [? ?]. discriminate.
    + apply Hdiff; [unfold three_leaves; set_solver | reflexivity].
    + apply Hdiff; [unfold three_leaves; set_solver | reflexivity].
    + apply Hdiff; [unfold three_leaves; set_solver | reflexivity].
Qed.

Lemma three_leaves_conditions :
  absolute_normal (ingest.processed_path survey) = true
  /\ three_leaves <> ∅
  /\ (forall n, n ∈ three_leaves ->
        is_trixel_name n = true /\ ingest.name_depth n = constants.INGEST_MAX_DEPTH)
  /\ (forall n, n ∈ three_leaves ->
        os.path_isfile leaves_only (ingest.trixel_file survey n) = true).
Proof.
  split; [reflexivity |]. split; [unfold three_leaves; set_solver |].
  split; intros n Hn; unfold three_leaves in Hn;
    (apply elem_of_union in Hn; destruct Hn as [Hn | Hn];
     [apply elem_of_union in Hn; destruct Hn as [Hn | Hn] |];
     apply elem_of_singleton in Hn; subst n);
    try split; vm_compute; reflexivity.
Qed.

Lemma backfill_concatenation_witness :
  exists trixels_by_depth fs',
    ingest.backfill_trixels survey three_leaves leaves_only = Ok (trixels_by_depth, fs')
    /\ (forall n, n ∈ three_leaves ->
          os.np_load fs' (ingest.trixel_file survey n)
          = os.np_load leaves_only (ingest.trixel_file survey n))
    /\ forall d, constants.INGEST_MIN_DEPTH <= d < constants.INGEST_MAX_DEPTH ->
       exists names,
         trixels_by_depth !! d = Some names
         /\ NoDup names
         /\ (forall T, T ∈ names <->
               exists n, n ∈ three_leaves
                         /\ ancestor (Z.to_nat (constants.INGEST_MAX_DEPTH - d)) n = T)
         /\ forall T, T ∈ names ->
            exists rows,
              os.np_load fs' (ingest.trixel_file survey T) = Ok rows
              /\ rows ≡ₚ concat (stored_rows survey leaves_only
                                   <$> saved_descendants three_leaves d T).
Proof.
  destruct three_leaves_conditions as (H1 & H2 & H3 & H4).
  exact (backfill_concatenation survey three_leaves leaves_only H1 H2 H3 H4
           leaves_only_no_other_blob).
Defined.


(** ** Comparisons of binary64 numbers *)

Section float_order.

Local Open Scope float_scope.

Lemma SFcompare_antisym (x y : spec_float) :
  SFcompare y x = option_map CompOpp (SFcompare x y).
Proof.
  destruct x as [sx | sx | | sx mx ex], y as [sy | sy | | sy my ey];
    try reflexivity;
    try (destruct sx; reflexivity);
    try (destruct sy; reflexivity);
    try (destruct sx, sy; reflexivity).
  simpl. destruct sx, sy; try reflexivity; simpl;
    rewrite (Z.compare_antisym ex ey);
    destruct (ex ?= ey)%Z; simpl; try reflexivity;
    rewrite (Pos.compare_cont_antisym mx my Eq); reflexivity.
Qed.

(** [x <= y] is [x < y or x == y]. *)
Lemma leb_ltb_eqb (x y : float) : (x <=? y) = (x <? y) || (x =? y).
Proof.
  rewrite FloatAxioms.leb_spec, FloatAxioms.ltb_spec, FloatAxioms.eqb_spec. unfold SFleb, SFltb, SFeqb.
  destruct (SFcompare (Prim2SF x) (Prim2SF y)) as [[| |] |]; reflexivity.
Qed.

Lemma eqb_sym (x y : float) : (x =? y) = (y =? x).
Proof.
  rewrite !FloatAxioms.eqb_spec. unfold SFeqb.
  rewrite (SFcompare_antisym (Prim2SF x) (Prim2SF y)).
  destruct (SFcompare (Prim2SF x) (Prim2SF y)) as [[| |] |]; reflexivity.
Qed.

Lemma is_nan_compare (x : float) :
  is_nan x = false <-> SFcompare (Prim2SF x) (Prim2SF x) = Some Eq.
Proof.
  unfold is_nan. rewrite FloatAxioms.eqb_spec. unfold SFeqb.
  destruct (SFcompare (Prim2SF x) (Prim2SF x)) as [[| |] |]; simpl; split;
    congruence.
Qed.

Lemma not_nan_spec (x : float) : is_nan x = false -> Prim2SF x <> S754_nan.
Proof.
  intros H E. apply is_nan_compare in H. rewrite E in H. discriminate.
Qed.

Lemma SFcompare_defined (x y : spec_float) :
  x <> S754_nan -> y <> S754_nan -> exists c, SFcompare x y = Some c.
Proof.
  intros Hx Hy. destruct x, y; try congruence; simpl; eexists; reflexivity.
Qed.

(** Two numbers, neither of them NaN, are ordered: [x < y] fails exactly
    when [y <= x]. *)
Lemma ltb_negb_leb (x y : float) :
  is_nan x = false -> is_nan y = false -> (x <? y) = negb (y <=? x).
Proof.
  intros Hx Hy. rewrite FloatAxioms.ltb_spec, FloatAxioms.leb_spec. unfold SFltb, SFleb.
  rewrite (SFcompare_antisym (Prim2SF x) (Prim2SF y)).
  destruct (SFcompare_defined _ _ (not_nan_spec x Hx) (not_nan_spec y Hy)) as [c ->].
  destruct c; reflexivity.
Qed.

Lemma SFcompare_refl (x : spec_float) :
  x <> S754_nan -> SFcompare x x = Some Eq.
Proof.
  destruct x as [s | s | | s m e]; intros H; try congruence; simpl.
  - reflexivity.
  - destruct s; reflexivity.
  - destruct s; rewrite Z.compare_refl, Pos.compare_cont_refl; reflexivity.
Qed.

(** A number equal to another is not NaN. *)
Lemma eqb_not_nan (x y : float) : (x =? y) = true -> is_nan x = false.
Proof.
  rewrite FloatAxioms.eqb_spec. unfold SFeqb. intros H. apply is_nan_compare.
  apply SFcompare_refl. intros E. rewrite E in H. discriminate.
Qed.

End float_order.


(** ** Classification against a halfspace (htm.py) *)

Section classification.

Import htm.

Context {M : MathLib}.

(** The spec's words for the side test: the polynomial has a real root [s]
    with [0 <= s <= 1]. *)
Definition real_root_in_unit (s : complex) : bool :=
  let '(re, im) := s in
  ((im =? 0) && (0 <=? re) && (re <=? 1))%float.

(** The spec's side test, side by side with [side_intersected]. *)
Fixpoint spec_side_crossed (v : coordinates_type) (d : float)
    (sides : list (coordinates_type * coordinates_type)) : result bool :=
  match sides with
  | [] => Ok false
  | (v_i, v_j) :: rest =>
      theta_ij ← angle_between_np_vectors v_i v_j;
      u ← math_tan (theta_ij / 2)%float;
      let gamma_i := np_dot v v_i in
      let gamma_j := np_dot v v_j in
      u2 ← float_pow u 2%float;
      let a := (- u2 * (gamma_i + d))%float in
      let b := (gamma_i * (u2 - 1) + gamma_j * (u2 + 1))%float in
      let c := (gamma_i - d)%float in
      solutions ← np_roots [a; b; c];
      if existsb real_root_in_unit solutions then Ok true
      else spec_side_crossed v d rest
  end.

(** The spec's eight steps. *)
Definition spec_intersects_halfspace (T : Trixel) (H : Halfspace)
  : result HalfspaceIntersection :=
  let v := vector H in
  let d := distance H in
  let '(v0, v1, v2) := vertices T in
  let in0 := (d <? np_dot v v0)%float in
  let in1 := (d <? np_dot v v1)%float in
  let in2 := (d <? np_dot v v2)%float in
  if in0 && in1 && in2 then Ok FULL
  else if in0 || in1 || in2 then Ok PARTIAL
  else
    let n := normalize (np_cross (np_sub v1 v0) (np_sub v2 v1)) in
    let d_b := np_dot v0 n in
    theta ← angle_between_np_vectors v n;
    arc ← arcangle H;
    theta_b ← math_acos d_b;
    if (arc + theta_b <=? theta)%float then Ok OUTSIDE
    else
      let sides := [(v0, v1); (v1, v2); (v2, v0)] in
      spec_side_crossed v d sides ≫= fun crossed : bool =>
      if crossed then Ok PARTIAL
      else if existsb (fun '(v_i, v_j) =>
                         (np_dot (np_cross v_i v_j) v <? - EPSILON)%float) sides
      then Ok OUTSIDE
      else Ok PARTIAL.

(** The roots [np.roots] returns for the polynomial of one side. *)
Definition side_roots (v : coordinates_type) (d : float)
    (side : coordinates_type * coordinates_type) : result (list complex) :=
  let '(v_i, v_j) := side in
  theta_ij ← angle_between_np_vectors v_i v_j;
  u ← math_tan (theta_ij / 2)%float;
  let gamma_i := np_dot v v_i in
  let gamma_j := np_dot v v_j in
  u2 ← float_pow u 2%float;
  let a := (- u2 * (gamma_i + d))%float in
  let b := (gamma_i * (u2 - 1) + gamma_j * (u2 + 1))%float in
  let c := (gamma_i - d)%float in
  np_roots [a; b; c].

Lemma side_intersected_cons (v : coordinates_type) (d : float)
    (side : coordinates_type * coordinates_type)
    (rest : list (coordinates_type * coordinates_type)) :
  side_intersected v d (side :: rest) =
    (solutions ← side_roots v d side;
     if existsb in_unit_interval solutions then Ok true
     else side_intersected v d rest).
Proof.
  destruct side as [v_i v_j]. unfold side_roots. simpl.
  destruct (angle_between_np_vectors v_i v_j) as [theta |]; [| reflexivity].
  simpl. destruct (math_tan _) as [u |]; [| reflexivity].
  simpl. destruct (float_pow u 2) as [u2 |]; reflexivity.
Qed.

(** On a real number the test of the code is the test of the spec. *)
Lemma in_unit_interval_real (re im : float) :
  (im =? 0)%float = true ->
  in_unit_interval (re, im) = real_root_in_unit (re, im).
Proof.
  intros Him. unfold in_unit_interval, real_root_in_unit, complex_le.
  rewrite Him, (eqb_not_nan im 0 Him).
  assert (Hle : (0 <=? im)%float = true).
  { rewrite leb_ltb_eqb, (eqb_sym 0 im), Him. apply orb_true_r. }
  assert (Hge : (im <=? 0)%float = true).
  { rewrite leb_ltb_eqb, Him. apply orb_true_r. }
  rewrite Hle, Hge, (leb_ltb_eqb 0 re), (leb_ltb_eqb re 1).
  replace (is_nan 0) with false by reflexivity.
  simpl. rewrite !andb_true_r. reflexivity.
Qed.

(** The test of the code accepts a root that is not real whenever its real
    part lies strictly between 0 and 1. *)
Lemma in_unit_interval_complex (re im : float) :
  (0 <? re)%float = true -> (re <? 1)%float = true -> is_nan im = false ->
  in_unit_interval (re, im) = true.
Proof.
  intros H0 H1 Him. unfold in_unit_interval, complex_le.
  rewrite H0, H1, Him. reflexivity.
Qed.

Lemma side_intersected_real_roots (v : coordinates_type) (d : float)
    (sides : list (coordinates_type * coordinates_type)) :
  (forall side solutions, side ∈ sides -> side_roots v d side = Ok solutions ->
     Forall (fun s => (snd s =? 0)%float = true) solutions) ->
  side_intersected v d sides = spec_side_crossed v d sides.
Proof.
  intros Hreal. induction sides as [| [v_i v_j] rest IH]; [reflexivity |].
  pose proof (Hreal (v_i, v_j)) as Hside. unfold side_roots in Hside.
  simpl. destruct (angle_between_np_vectors v_i v_j) as [theta |]; [| reflexivity].
  simpl in *. destruct (math_tan _) as [u |]; [| reflexivity].
  simpl in *. destruct (float_pow u 2) as [u2 |]; [| reflexivity].
  simpl in *. destruct (np_roots _) as [solutions |]; [| reflexivity].
  simpl. rewrite IH by (intros side sols Hin; apply Hreal; right; exact Hin).
  replace (existsb in_unit_interval solutions)
    with (existsb real_root_in_unit solutions); [reflexivity |].
  pose proof (Hside solutions ltac:(left) eq_refl) as Hall.
  clear Hside Hreal IH.
  induction Hall as [| [re im] l Him _ IHl]; [reflexivity |].
  simpl existsb. rewrite IHl, (in_unit_interval_real re im Him). reflexivity.
Qed.

(** The three sides of a trixel, in the order the method visits them. *)
Definition sides_of (T : Trixel) : list (coordinates_type * coordinates_type) :=
  let '(v0, v1, v2) := vertices T in [(v0, v1); (v1, v2); (v2, v0)].

(** Where the roots [np.roots] returns for the three sides of the trixel are
    real, [intersects_halfspace] classifies as the eight steps of the spec
    do. *)
Theorem intersects_halfspace_real_roots (T : Trixel) (H : Halfspace) :
  (forall side solutions,
     side ∈ sides_of T ->
     side_roots (vector H) (distance H) side = Ok solutions ->
     Forall (fun s => (snd s =? 0)%float = true) solutions) ->
  intersects_halfspace T H = spec_intersects_halfspace T H.
Proof.
  intros Hreal. unfold intersects_halfspace, spec_intersects_halfspace.
  unfold sides_of in Hreal.
  destruct (vertices T) as [[v0 v1] v2].
  rewrite (side_intersected_real_roots _ _ _ Hreal). reflexivity.
Qed.

End classification.

(** The root N3 under the cap of radius 4000 km around its centre: the cap
    holds no vertex and crosses every side, and every root is real. *)
Definition root_n3 : htm.Trixel := htm.mkTrixel "N3" (htm.ov 2, htm.ov 0, htm.ov 1).

Lemma intersects_halfspace_real_roots_witness :
  @htm.intersects_halfspace reference_math root_n3 wide_cap
  = @spec_intersects_halfspace reference_math root_n3 wide_cap
  /\ @htm.intersects_halfspace reference_math root_n3 wide_cap = Ok htm.PARTIAL.
Proof.
  split; [| vm_compute; reflexivity].
  apply (@intersects_halfspace_real_roots reference_math root_n3 wide_cap).
  intros side solutions Hside Hroots.
  unfold sides_of, root_n3 in Hside. cbn [htm.vertices] in Hside.
  repeat (apply elem_of_cons in Hside; destruct Hside as [-> | Hside]);
    [| | | inversion Hside];
    vm_compute in Hroots; injection Hroots as <-; repeat constructor.
Defined.

(** The root N3 and a cap of radius 1 km around latitude -8, longitude 45,
    eight degrees south of the equator that bounds N3. *)
Definition southern_cap : htm.Halfspace :=
  htm.mkHalfspace (@htm.lat_lon_to_xyz reference_math (-8) 45)
    (@libm_cos reference_math (htm.sphere_surface_radius_to_angle 1000)).

(** C3 at that root and the cap of the request lat = -8, lon = 45,
    radius = 1000: no vertex of N3 is inside the cap and the
    bounding caps overlap; the polynomial of the side (v1, v2) has no real
    root, but [np.roots] returns its complex pair, whose real part 0.81 lies
    between 0 and 1, and the code's test [0 <= s <= 1] holds of it: the code
    answers PARTIAL.  By the spec's steps no side has a real root in [0, 1] and
    the cap's axis lies beyond the side (v2, v0): OUTSIDE. *)
Theorem intersects_halfspace_complex_root :
  @htm.sphere_surface_radius_to_halfspace_distance reference_math 1000
    = Ok (htm.distance southern_cap)
  /\ @htm.intersects_halfspace reference_math (htm.octahedron_at "N3") southern_cap
    = Ok htm.PARTIAL
  /\ @spec_intersects_halfspace reference_math (htm.octahedron_at "N3") southern_cap
    = Ok htm.OUTSIDE
  /\ exists s rest,
       @side_roots reference_math (htm.vector southern_cap)
         (htm.distance southern_cap) ((0, 0, 1), (1, 0, 0))%float
       = Ok (s :: rest)
       /\ (snd s =? 0)%float = false
       /\ htm.in_unit_interval s = true
       /\ real_root_in_unit s = false.
Proof.
  split; [vm_compute; reflexivity |].
  split; [vm_compute; reflexivity | split; [vm_compute; reflexivity |]].
  eexists _, _. split; [vm_compute; reflexivity |].
  repeat split; vm_compute; reflexivity.
Qed.

(** ** The range checks of the radius query (app.py) *)

Section radius_ranges.

Import app constants.

Context {M : MathLib}.

(** The three ranges the request must lie in. *)
Definition in_ranges (lat lon radius : float) : bool :=
  ((-90 <=? lat) && (lat <=? 90) && (-180 <=? lon) && (lon <=? 180)
   && (0 <=? radius) && (radius <=? MAX_RADIUS))%float.

(** For a radius that is a number (anything but NaN) the handler rejects
    with status 400 exactly the requests outside the ranges, and answers the
    others with the enumeration for the halfspace of the request. *)
Lemma trixels_in_halfspace_ranges (lat lon radius : float) :
  is_nan radius = false ->
  (in_ranges lat lon radius = false ->
   exists msg, trixels_in_halfspace_floats lat lon radius = Ok (json_error msg 400))
  /\ (in_ranges lat lon radius = true ->
      trixels_in_halfspace_floats lat lon radius = halfspace_trixels lat lon radius).
Proof.
  intros Hnan. unfold in_ranges, trixels_in_halfspace_floats.
  rewrite (ltb_negb_leb radius 0 Hnan eq_refl).
  rewrite (ltb_negb_leb MAX_RADIUS radius eq_refl Hnan).
  destruct (-90 <=? lat)%float, (lat <=? 90)%float, (-180 <=? lon)%float,
    (lon <=? 180)%float, (0 <=? radius)%float, (radius <=? MAX_RADIUS)%float;
    simpl; split; intros H; try discriminate; try reflexivity;
    eexists; reflexivity.
Qed.

End radius_ranges.

(** ** Which names resolve (htm.py) *)

Section name_resolution.

Import htm.

Lemma dict_get_keys {V} (d : list (string * V)) (key : string) :
  key ∉ map fst d -> dict_get d key = None.
Proof.
  induction d as [| [k v] d IH]; intros Hk; [reflexivity |].
  simpl. destruct (String.eqb k key) eqn:E.
  - apply String.eqb_eq in E. subst k. exfalso. apply Hk. simpl. left.
  - apply IH. intros Hin. apply Hk. simpl. right. exact Hin.
Qed.

Lemma octahedron_root (r : string) :
  is_root_name r = true ->
  exists root, dict_get octahedron r = Some root
               /\ name root = r /\ root ∈ octahedron_values
               /\ pystr.split dash r = [r].
Proof.
  intros Hr. unfold is_root_name in Hr. apply bool_decide_eq_true_1 in Hr.
  unfold octahedron in Hr. simpl in Hr.
  repeat (apply elem_of_cons in Hr; destruct Hr as [-> | Hr]);
    try (eexists; split; [reflexivity | split; [reflexivity |]];
         split; [| reflexivity];
         unfold octahedron_values, octahedron; simpl; set_solver).
  inversion Hr.
Qed.

Lemma select_child_digit (t : Trixel) (digit : string) :
  is_child_digit digit = true ->
  exists c, select_child t digit = Ok c
            /\ c ∈ get_subtrixels t
            /\ name c = (name t ++ String dash digit)%string.
Proof.
  intros Hd. unfold is_child_digit in Hd. apply bool_decide_eq_true_1 in Hd.
  unfold select_child, get_subtrixels. destruct (vertices t) as [[v0 v1] v2].
  repeat (apply elem_of_cons in Hd; destruct Hd as [-> | Hd]);
    try (eexists; split; [reflexivity | split; [set_solver | reflexivity]]).
  inversion Hd.
Qed.

Lemma select_child_invalid (t : Trixel) (segment : string) :
  is_child_digit segment = false ->
  select_child t segment = Raise (ValueError "invalid name").
Proof.
  intros Hd. unfold is_child_digit in Hd. apply bool_decide_eq_false_1 in Hd.
  unfold select_child, get_subtrixels. destruct (vertices t) as [[v0 v1] v2].
  destruct (String.eqb segment "0") eqn:E0;
    [apply String.eqb_eq in E0; subst; exfalso; apply Hd; set_solver |].
  destruct (String.eqb segment "1") eqn:E1;
    [apply String.eqb_eq in E1; subst; exfalso; apply Hd; set_solver |].
  destruct (String.eqb segment "2") eqn:E2;
    [apply String.eqb_eq in E2; subst; exfalso; apply Hd; set_solver |].
  destruct (String.eqb segment "3") eqn:E3;
    [apply String.eqb_eq in E3; subst; exfalso; apply Hd; set_solver |].
  reflexivity.
Qed.

(** Walking down valid digits from a reachable trixel never fails, and
    spells the name of the trixel it ends at. *)
Lemma walk_digits (digits : list string) :
  forallb is_child_digit digits = true ->
  forall t, reachable t ->
    exists c, for_each select_child digits t = Ok c
              /\ reachable c
              /\ pystr.split dash (name c) = pystr.split dash (name t) ++ digits.
Proof.
  induction digits as [| digit digits IH]; intros Hd t Ht.
  - exists t. rewrite app_nil_r. repeat split. exact Ht.
  - simpl in Hd. apply andb_prop in Hd. destruct Hd as [Hdigit Hrest].
    destruct (select_child_digit t digit Hdigit) as (c & Hsel & Hc & Hname).
    destruct (IH Hrest c (reachable_child t c Ht Hc)) as (e & Hwalk & He & Hsplit).
    exists e. rewrite for_each_cons, Hsel. simpl.
    split; [exact Hwalk | split; [exact He |]].
    rewrite Hsplit, Hname, split_app_sep.
    replace (pystr.split dash digit) with [digit].
    + rewrite <- app_assoc. reflexivity.
    + unfold is_child_digit in Hdigit. apply bool_decide_eq_true_1 in Hdigit.
      repeat (apply elem_of_cons in Hdigit; destruct Hdigit as [-> | Hdigit]);
        try reflexivity.
      inversion Hdigit.
Qed.

Lemma walk_invalid (digits : list string) :
  forallb is_child_digit digits = false ->
  forall t, for_each select_child digits t = Raise (ValueError "invalid name").
Proof.
  induction digits as [| digit digits IH]; intros Hd t; [discriminate |].
  rewrite for_each_cons. simpl in Hd.
  destruct (is_child_digit digit) eqn:Hdigit.
  - destruct (select_child_digit t digit Hdigit) as (c & -> & _). simpl.
    apply IH. exact Hd.
  - rewrite (select_child_invalid t digit Hdigit). reflexivity.
Qed.

Lemma split_injective (sep : ascii) (a b : string) :
  pystr.split sep a = pystr.split sep b -> a = b.
Proof.
  intros H. rewrite <- (join_split sep a), <- (join_split sep b), H. reflexivity.
Qed.

(** Every name of the grammar [(N0|...|S3)(-[0-3])*] resolves: to a trixel
    reached by subdivision that carries this very name, at the depth the
    name spells. *)
Theorem find_trixel_from_name_valid (n : string) :
  is_trixel_name n = true ->
  exists t, find_trixel_from_name n = Ok t
            /\ name t = n
            /\ reachable t
            /\ depth t = ingest.name_depth n.
Proof.
  intros Hn. destruct (trixel_name_segments n Hn) as (r & digits & Hseg & Hr & Hd).
  unfold segments in Hseg.
  destruct (octahedron_root r Hr) as (root & Hget & Hname & Hroot & Hone).
  destruct (walk_digits digits Hd root (reachable_root root Hroot))
    as (t & Hwalk & Ht & Hsplit).
  assert (Hsame : pystr.split dash (name t) = pystr.split dash n).
  { rewrite Hsplit, Hseg, Hname, Hone. reflexivity. }
  exists t. split; [| split; [apply (split_injective dash), Hsame | split; [exact Ht |]]].
  - unfold find_trixel_from_name. rewrite Hseg, Hget.
    destruct (Z.of_nat (length (r :: digits)) <? 1) eqn:E1;
      [apply Z.ltb_lt in E1; simpl in E1; lia |].
    destruct (Z.of_nat (length (r :: digits)) =? 1) eqn:E2; [| exact Hwalk].
    apply Z.eqb_eq in E2. destruct digits; [| simpl in E2; lia].
    simpl in Hwalk. exact Hwalk.
  - unfold depth. rewrite Hsame. symmetry. apply name_depth_segments.
Qed.

Lemma find_trixel_from_name_valid_witness :
  is_trixel_name "N2-0-3" = true
  /\ exists t, find_trixel_from_name "N2-0-3" = Ok t
               /\ name t = "N2-0-3"
               /\ reachable t
               /\ depth t = ingest.name_depth "N2-0-3".
Proof.
  split; [reflexivity |].
  apply (find_trixel_from_name_valid "N2-0-3"). reflexivity.
Defined.

(** Every other string is refused with ValueError("invalid name"): an
    unknown root, or a segment other than 0, 1, 2 or 3. *)
Theorem find_trixel_from_name_invalid (n : string) :
  is_trixel_name n = false ->
  find_trixel_from_name n = Raise (ValueError "invalid name").
Proof.
  intros Hn. unfold is_trixel_name in Hn. unfold find_trixel_from_name.
  destruct (pystr.split dash n) as [| r digits] eqn:Hseg;
    [destruct (split_nonempty _ _ Hseg) |].
  destruct (Z.of_nat (length (r :: digits)) <? 1) eqn:E1;
    [apply Z.ltb_lt in E1; simpl in E1; lia |].
  destruct (is_root_name r) eqn:Hr.
  - destruct (octahedron_root r Hr) as (root & -> & _).
    simpl in Hn.
    destruct (Z.of_nat (length (r :: digits)) =? 1) eqn:E2.
    + apply Z.eqb_eq in E2. destruct digits; [discriminate | simpl in E2; lia].
    + apply walk_invalid, Hn.
  - rewrite dict_get_keys; [reflexivity |].
    unfold is_root_name in Hr. apply bool_decide_eq_false_1 in Hr. exact Hr.
Qed.

Lemma find_trixel_from_name_invalid_witness :
  is_trixel_name "N0-4" = false
  /\ find_trixel_from_name "N0-4" = Raise (ValueError "invalid name").
Proof.
  split; [reflexivity |].
  apply (find_trixel_from_name_invalid "N0-4"). reflexivity.
Defined.

End name_resolution.

(** ** Subdivision to a depth (htm.py) *)

Section subdivision_depth.

Import htm.

Lemma get_subtrixels_length (t : Trixel) : length (get_subtrixels t) = 4%nat.
Proof.
  unfold get_subtrixels. destruct (vertices t) as [[v0 v1] v2]. reflexivity.
Qed.

Lemma flat_map_subtrixels_length (l : list Trixel) :
  length (flat_map get_subtrixels l) = (4 * length l)%nat.
Proof.
  induction l as [| t l IH]; [reflexivity |].
  simpl. rewrite length_app, get_subtrixels_length, IH. lia.
Qed.

Lemma iter_subtrixels_length (k : nat) (l : list Trixel) :
  length (Nat.iter k (flat_map get_subtrixels) l) = (4 ^ k * length l)%nat.
Proof.
  induction k as [| k IH]; simpl; [lia |].
  rewrite flat_map_subtrixels_length, IH. lia.
Qed.

Lemma descendants_length (k : nat) (t : Trixel) :
  length (descendants k t) = (4 ^ k)%nat.
Proof.
  unfold descendants. rewrite iter_subtrixels_length. simpl. lia.
Qed.

(** A descendant's name starts with its ancestor's name. *)
Lemma descendants_suffix (k : nat) (t : Trixel) :
  Forall (fun c => exists suffix, name c = (name t ++ suffix)%string)
    (descendants k t).
Proof.
  induction k as [| k IH].
  - simpl. constructor; [| constructor]. exists EmptyString.
    clear. induction (name t) as [| a s IHs]; [reflexivity |].
    rewrite append_cons, <- IHs. reflexivity.
  - unfold descendants in *. simpl. apply Forall_forall. intros c Hc.
    apply list_elem_of_In, in_flat_map in Hc. destruct Hc as (p & Hp & Hc).
    rewrite Forall_forall in IH.
    destruct (IH p (proj2 (list_elem_of_In _ _) Hp)) as [suffix Hsuffix].
    destruct (subtrixel_name p c (proj2 (list_elem_of_In _ _) Hc))
      as (digit & _ & Hname & _).
    exists (suffix ++ String dash digit)%string.
    rewrite Hname, Hsuffix, append_assoc. reflexivity.
Qed.

(** [get_subtrixels_at_depth] refuses a depth below 1 and a depth above the
    trixel; for a depth [d] at or below the trixel it returns the
    4^(d - depth) descendants at that depth, every one named after the trixel,
    and the trixel alone when it already is at depth [d]. *)
Theorem get_subtrixels_at_depth_cases (t : Trixel) (d : Z) :
  (d < 1 ->
   get_subtrixels_at_depth t d =
     Raise (ValueError "depth must be greater or equal to 1"))
  /\ (1 <= d < depth t ->
      get_subtrixels_at_depth t d =
        Raise (ValueError "depth must be greater than current depth"))
  /\ (depth t <= d ->
      exists l,
        get_subtrixels_at_depth t d = Ok l
        /\ length l = (4 ^ Z.to_nat (d - depth t))%nat
        /\ Forall (fun c => depth c = d
                            /\ exists suffix, name c = (name t ++ suffix)%string) l
        /\ (d = depth t -> l = [t])).
Proof.
  pose proof (depth_positive t) as Hpos. split; [| split].
  - intros Hd. unfold get_subtrixels_at_depth.
    destruct (d <? 1) eqn:E; [reflexivity | apply Z.ltb_ge in E; lia].
  - intros Hd. unfold get_subtrixels_at_depth.
    destruct (d <? 1) eqn:E1; [apply Z.ltb_lt in E1; lia |].
    destruct (depth t =? d) eqn:E2; [apply Z.eqb_eq in E2; lia |].
    destruct (d <? depth t) eqn:E3; [reflexivity | apply Z.ltb_ge in E3; lia].
  - intros Hd. exists (descendants (Z.to_nat (d - depth t)) t).
    split; [apply get_subtrixels_at_depth_descendants, Hd |].
    split; [apply descendants_length |]. split.
    + pose proof (descendants_depth (Z.to_nat (d - depth t)) t) as Hdepth.
      pose proof (descendants_suffix (Z.to_nat (d - depth t)) t) as Hsuffix.
      rewrite Forall_forall in *. intros c Hc. split; [| apply Hsuffix, Hc].
      rewrite (Hdepth c Hc). lia.
    + intros ->. rewrite Z.sub_diag. reflexivity.
Qed.

Lemma get_subtrixels_at_depth_cases_witness :
  (0 < 1 /\ 1 <= 1 < depth (mkTrixel "N0-1" (ov 1, ov 0, ov 4))
   /\ depth (octahedron_at "N0") <= 3)
  /\ get_subtrixels_at_depth (octahedron_at "N0") 0 =
       Raise (ValueError "depth must be greater or equal to 1")
  /\ get_subtrixels_at_depth (mkTrixel "N0-1" (ov 1, ov 0, ov 4)) 1 =
       Raise (ValueError "depth must be greater than current depth")
  /\ exists l,
       get_subtrixels_at_depth (octahedron_at "N0") 3 = Ok l
       /\ length l = 16%nat.
Proof.
  split; [vm_compute; repeat split; discriminate |].
  split; [apply (proj1 (get_subtrixels_at_depth_cases (octahedron_at "N0") 0)); lia |].
  split.
  - apply (proj1 (proj2 (get_subtrixels_at_depth_cases
                           (mkTrixel "N0-1" (ov 1, ov 0, ov 4)) 1))).
    vm_compute. split; [discriminate | reflexivity].
  - destruct (proj2 (proj2 (get_subtrixels_at_depth_cases (octahedron_at "N0") 3)))
      as (l & Hrun & Hlen & _); [vm_compute; discriminate |].
    exists l. split; [exact Hrun | exact Hlen].
Defined.

(** *** All trixels, layer by layer *)

(** The layers [get_all_trixels] builds: layer [i] holds the trixels [i]
    subdivisions below the roots. *)
Definition layer_at (i : nat) : list Trixel :=
  Nat.iter i (flat_map get_subtrixels) octahedron_values.

Lemma get_all_trixels_loop (n : nat) :
  py_range_for (Z.of_nat n)
    (fun trixels =>
       layer ← py_getitem trixels (-1);
       let new_trixels := flat_map get_subtrixels layer in
       Ok (trixels ++ [new_trixels]))
    [octahedron_values]
  = Ok (layer_at <$> seq 0 (S n)).
Proof.
  induction n as [| n IH]; [reflexivity |].
  rewrite py_range_for_succ, IH.
  change (Ok ?a ≫= ?f) with (f a). cbv beta.
  assert (Hlast : py_getitem (layer_at <$> seq 0 (S n)) (-1) = Ok (layer_at n)).
  { apply py_getitem_negative; [lia | rewrite length_fmap, length_seq; lia |].
    rewrite length_fmap, length_seq.
    replace (Z.to_nat (-1 + Z.of_nat (S n))) with n by lia.
    rewrite list_lookup_fmap, lookup_seq_lt by lia. reflexivity. }
  rewrite Hlast.
  change (Ok ?a ≫= ?f) with (f a). cbv beta zeta.
  rewrite (seq_S (S n) 0), fmap_app. reflexivity.
Qed.

Lemma layer_at_depth (i : nat) : Forall (fun t => depth t = Z.of_nat i + 1) (layer_at i).
Proof.
  induction i as [| i IH].
  - apply Forall_forall. intros t Ht. rewrite (root_depth t Ht). reflexivity.
  - unfold layer_at in *. simpl.
    replace (Z.of_nat (S i) + 1) with (Z.of_nat i + 1 + 1) by lia.
    apply flat_map_subtrixels_depth, IH.
Qed.

(** [get_all_trixels] refuses a depth below 1; for a depth [d] of at least
    1 it returns [d] layers: the eight roots first, then each layer the
    subdivision of the one before, so that layer [i] (from 0) holds 8 * 4^i
    trixels, all at depth [i + 1]. *)
Theorem get_all_trixels_layers (d : Z) :
  (d < 1 ->
   get_all_trixels d = Raise (ValueError "depth must be greater or equal to 1"))
  /\ (1 <= d ->
      exists layers,
        get_all_trixels d = Ok layers
        /\ Z.of_nat (length layers) = d
        /\ layers !! 0%nat = Some octahedron_values
        /\ forall (i : nat) (l : list Trixel),
             layers !! i = Some l ->
             length l = (8 * 4 ^ i)%nat
             /\ Forall (fun t => depth t = Z.of_nat i + 1) l
             /\ (Z.of_nat i + 1 < d ->
                 layers !! S i = Some (flat_map get_subtrixels l))).
Proof.
  split.
  - intros Hd. unfold get_all_trixels.
    destruct (d <? 1) eqn:E; [reflexivity | apply Z.ltb_ge in E; lia].
  - intros Hd. exists (layer_at <$> seq 0 (S (Z.to_nat (d - 1)))).
    split; [| split; [| split; [reflexivity |]]].
    + unfold get_all_trixels.
      destruct (d <? 1) eqn:E; [apply Z.ltb_lt in E; lia |].
      rewrite <- get_all_trixels_loop. f_equal. lia.
    + rewrite length_fmap, length_seq. lia.
    + intros i l Hl. rewrite list_lookup_fmap in Hl.
      destruct (seq 0 (S (Z.to_nat (d - 1))) !! i) as [j |] eqn:Hj; [| discriminate].
      apply lookup_seq in Hj. destruct Hj as [-> Hi]. simpl in Hl.
      injection Hl as <-. split; [| split; [apply layer_at_depth |]].
      * unfold layer_at. rewrite iter_subtrixels_length.
        change (length octahedron_values) with 8%nat. lia.
      * intros Hnext. rewrite list_lookup_fmap, lookup_seq_lt by lia.
        reflexivity.
Qed.

Lemma get_all_trixels_layers_witness :
  (0 < 1 /\ 1 <= 2)
  /\ get_all_trixels 0 = Raise (ValueError "depth must be greater or equal to 1")
  /\ exists layers,
       get_all_trixels 2 = Ok layers
       /\ Z.of_nat (length layers) = 2
       /\ layers !! 0%nat = Some octahedron_values.
Proof.
  split; [lia |]. split.
  - apply (proj1 (get_all_trixels_layers 0)). lia.
  - destruct (proj2 (get_all_trixels_layers 2)) as (layers & Hrun & Hlen & Hroots & _);
      [lia |].
    exists layers. split; [exact Hrun | split; [exact Hlen | exact Hroots]].
Defined.

End subdivision_depth.

(** ** Descent to the trixel of a point (htm.py) *)

Section point_descent.

Import htm.

Lemma find_octahedron_trixel_root (x y z : float) :
  find_octahedron_trixel_from_xyz x y z ∈ octahedron_values.
Proof.
  unfold find_octahedron_trixel_from_xyz.
  destruct (0 <? z)%float, (0 <? y)%float, (0 <? x)%float;
    vm_compute; set_solver.
Qed.

Lemma get_next_child (t c : Trixel) (x y z : float) :
  get_next t x y z = Ok c -> c ∈ get_subtrixels t /\ contains c x y z = true.
Proof.
  unfold get_next. intros H.
  destruct (find (fun t0 => contains t0 x y z) (get_subtrixels t)) as [c' |] eqn:E;
    [| discriminate].
  injection H as <-. apply find_some in E. destruct E as [Hin Hc].
  split; [apply list_elem_of_In, Hin | exact Hc].
Qed.

Lemma descend_steps (x y z : float) (n : nat) (root t : Trixel) :
  reachable root ->
  py_range_for (Z.of_nat n) (fun trixel => get_next trixel x y z) root = Ok t ->
  reachable t /\ depth t = depth root + Z.of_nat n
  /\ ((0 < n)%nat -> contains t x y z = true).
Proof.
  intros Hroot. revert t. induction n as [| n IH]; intros t Hrun.
  - unfold py_range_for in Hrun. simpl in Hrun. injection Hrun as <-.
    split; [exact Hroot | split; [lia | lia]].
  - rewrite py_range_for_succ in Hrun.
    destruct (py_range_for (Z.of_nat n) _ root) as [p |]; [| discriminate].
    change (get_next p x y z = Ok t) in Hrun.
    destruct (IH p eq_refl) as (Hp & Hdepth & _).
    destruct (get_next_child p t x y z Hrun) as [Hchild Hcontains].
    split; [exact (reachable_child p t Hp Hchild) |].
    split; [rewrite (subtrixel_depth p t Hchild), Hdepth; lia |].
    intros _. exact Hcontains.
Qed.

Lemma find_trixel_from_xyz_found (x y z : float) (d : Z) (t : Trixel) :
  find_trixel_from_xyz x y z d = Ok t ->
  reachable t /\ depth t = d /\ (2 <= d -> contains t x y z = true).
Proof.
  pose proof (find_octahedron_trixel_root x y z) as Hroot.
  intros Hrun. unfold find_trixel_from_xyz in Hrun.
  destruct (d <? 1) eqn:E1; [discriminate |]. apply Z.ltb_ge in E1.
  destruct (d =? 1) eqn:E2.
  - apply Z.eqb_eq in E2. injection Hrun as <-.
    split; [apply reachable_root, Hroot |].
    split; [rewrite (root_depth _ Hroot); lia | lia].
  - apply Z.eqb_neq in E2.
    replace (d - 1) with (Z.of_nat (Z.to_nat (d - 1))) in Hrun by lia.
    destruct (descend_steps x y z _ _ t (reachable_root _ Hroot) Hrun)
      as (Ht & Hdepth & Hcontains).
    split; [exact Ht |].
    split; [rewrite Hdepth, (root_depth _ Hroot); lia |].
    intros _. apply Hcontains. lia.
Qed.

(** [find_trixel_from_xyz] refuses a depth below 1.  A trixel it returns for
    depth [d] is reached from a root by subdivision and is at depth exactly
    [d]; from depth 2 on it passed the containment test for the point.  The
    trixel of depth [d + 1] is found by one more step from the trixel of
    depth [d], of which it is a child. *)
Theorem find_trixel_from_xyz_result (x y z : float) (d : Z) :
  (d < 1 ->
   find_trixel_from_xyz x y z d =
     Raise (ValueError "depth must be greater or equal to 1"))
  /\ (forall t, find_trixel_from_xyz x y z d = Ok t ->
        reachable t /\ depth t = d /\ (2 <= d -> contains t x y z = true))
  /\ (1 <= d ->
      find_trixel_from_xyz x y z (d + 1) =
        (t ← find_trixel_from_xyz x y z d; get_next t x y z))
  /\ (forall t c, get_next t x y z = Ok c -> c ∈ get_subtrixels t).
Proof.
  split; [| split; [| split]].
  - intros Hd. unfold find_trixel_from_xyz.
    destruct (d <? 1) eqn:E; [reflexivity | apply Z.ltb_ge in E; lia].
  - intros t. apply find_trixel_from_xyz_found.
  - intros Hd. unfold find_trixel_from_xyz.
    destruct (d + 1 <? 1) eqn:E1; [apply Z.ltb_lt in E1; lia |].
    destruct (d + 1 =? 1) eqn:E2; [apply Z.eqb_eq in E2; lia |].
    destruct (d <? 1) eqn:E3; [apply Z.ltb_lt in E3; lia |].
    replace (d + 1 - 1) with (Z.of_nat (S (Z.to_nat (d - 1)))) by lia.
    rewrite py_range_for_succ.
    destruct (d =? 1) eqn:E4.
    + apply Z.eqb_eq in E4. subst d. reflexivity.
    + replace (Z.of_nat (Z.to_nat (d - 1))) with (d - 1) by lia. reflexivity.
  - intros t c Hc. apply (get_next_child t c x y z Hc).
Qed.

Lemma find_trixel_from_xyz_result_witness :
  (0 < 1 /\ 2 <= 3 /\ 1 <= 3)
  /\ find_trixel_from_xyz 1 0 0 0 =
       Raise (ValueError "depth must be greater or equal to 1")
  /\ exists t, find_trixel_from_xyz 1 0 0 3 = Ok t
               /\ reachable t /\ depth t = 3 /\ contains t 1 0 0 = true.
Proof.
  split; [lia |]. split.
  - apply (proj1 (find_trixel_from_xyz_result 1 0 0 0)). lia.
  - assert (Hrun : exists t, find_trixel_from_xyz 1 0 0 3 = Ok t)
      by (eexists; vm_compute; reflexivity).
    destruct Hrun as [t Hrun]. exists t. split; [exact Hrun |].
    destruct (proj1 (proj2 (find_trixel_from_xyz_result 1 0 0 3)) t Hrun)
      as (Ht & Hdepth & Hcontains).
    split; [exact Ht | split; [exact Hdepth | apply Hcontains; lia]].
Defined.

End point_descent.

(** ** What the enumeration of a cap returns (htm.py) *)

Section cap_members.

Import htm.

Context {M : MathLib}.

(** What the enumeration keeps between levels: the selected trixels are
    FULL, the candidates PARTIAL and at the level of the pass. *)
Definition cap_invariant (H : Halfspace) (k : Z)
    (acc : list Trixel * list Trixel) : Prop :=
  Forall (fun t => reachable t /\ depth t <= k
                   /\ intersects_halfspace t H = Ok FULL) (fst acc)
  /\ Forall (fun t => reachable t /\ depth t = k
                      /\ intersects_halfspace t H = Ok PARTIAL) (snd acc).

Lemma classify_keeps_cap (H : Halfspace) (k : Z) (xs : list Trixel) :
  Forall (fun t => reachable t /\ depth t = k) xs ->
  forall acc acc', cap_invariant H k acc ->
    for_each (classify H) xs acc = Ok acc' -> cap_invariant H k acc'.
Proof.
  intros Hxs. apply for_each_invariant.
  intros [sel cand] t [sel' cand'] Ht [Hsel Hcand] Hstep.
  rewrite Forall_forall in Hxs. destruct (Hxs t Ht) as [Hreach Hdepth].
  unfold classify in Hstep.
  destruct (intersects_halfspace t H) as [[| |] | e] eqn:Hint; simpl in Hstep;
    try discriminate; injection Hstep as <- <-; split; simpl in *;
    try assumption.
  - apply Forall_app. split; [assumption |].
    constructor; [| constructor]. repeat split; assumption.
  - apply Forall_app. split; [assumption |].
    constructor; [| constructor]. repeat split; [assumption | lia | assumption].
Qed.

Lemma children_reachable (k : Z) (cand : list Trixel) :
  Forall (fun t => reachable t /\ depth t = k) cand ->
  Forall (fun t => reachable t /\ depth t = k + 1) (flat_map get_subtrixels cand).
Proof.
  intros Hcand. apply Forall_forall. intros c Hc.
  apply list_elem_of_In, in_flat_map in Hc. destruct Hc as (t & Ht & Hc).
  apply list_elem_of_In in Ht, Hc.
  rewrite Forall_forall in Hcand. destruct (Hcand t Ht) as [Hreach Hdepth].
  split; [exact (reachable_child t c Hreach Hc) |].
  rewrite (subtrixel_depth t c Hc), Hdepth. reflexivity.
Qed.

Lemma refine_cap_levels (H : Halfspace) (n : nat) (acc acc' : list Trixel * list Trixel) :
  cap_invariant H 1 acc ->
  py_range_for (Z.of_nat n)
    (fun '(selected, candidates) =>
       for_each (classify H) (flat_map get_subtrixels candidates) (selected, []))
    acc = Ok acc' ->
  cap_invariant H (1 + Z.of_nat n) acc'.
Proof.
  intros Hacc. revert acc'. induction n as [| n IH]; intros acc' Hrun.
  - unfold py_range_for in Hrun. simpl in Hrun. injection Hrun as <-.
    replace (1 + Z.of_nat 0) with 1 by lia. exact Hacc.
  - rewrite py_range_for_succ in Hrun.
    destruct (py_range_for (Z.of_nat n) _ acc) as [[sel cand] |]; simpl in Hrun;
      [| discriminate].
    destruct (IH _ eq_refl) as [Hsel Hcand]. simpl in Hsel, Hcand.
    replace (1 + Z.of_nat (S n)) with (1 + Z.of_nat n + 1) by lia.
    eapply (classify_keeps_cap H); [| | exact Hrun].
    + apply children_reachable.
      eapply Forall_impl; [exact Hcand |]. simpl. intros t (? & ? & _). split; assumption.
    + split; simpl; [| constructor].
      eapply Forall_impl; [exact Hsel |]. simpl. intros t (? & ? & ?).
      repeat split; [assumption | lia | assumption].
Qed.

(** What the first loop and the passes over the levels leave. *)
Lemma get_all_trixels_to_depth_classified (H : Halfspace) (d : Z)
    (trixels : list Trixel) :
  get_all_trixels_to_depth H d = Ok trixels ->
  Forall (fun t =>
            reachable t
            /\ (intersects_halfspace t H = Ok FULL /\ depth t <= d
                \/ intersects_halfspace t H = Ok PARTIAL /\ depth t = d))
    trixels.
Proof.
  intros Hrun. unfold get_all_trixels_to_depth in Hrun.
  destruct (d <? 1) eqn:Hd; [discriminate |]. apply Z.ltb_ge in Hd.
  destruct (for_each (classify H) octahedron_values ([], [])) as [acc0 |] eqn:H0;
    simpl in Hrun; [| discriminate].
  assert (I0 : cap_invariant H 1 acc0).
  { eapply (classify_keeps_cap H 1 octahedron_values); [| | exact H0].
    - apply Forall_forall. intros t Ht.
      split; [apply reachable_root, Ht | apply root_depth, Ht].
    - split; constructor. }
  destruct acc0 as [sel0 cand0]. simpl in Hrun.
  destruct (py_range_for (d - 1) _ (sel0, cand0)) as [[sel cand] |] eqn:H1;
    simpl in Hrun; [| discriminate].
  injection Hrun as <-.
  replace (d - 1) with (Z.of_nat (Z.to_nat (d - 1))) in H1 by lia.
  apply (refine_cap_levels H _ _ _ I0) in H1. destruct H1 as [Hsel Hcand].
  simpl in *. replace (1 + Z.of_nat (Z.to_nat (d - 1))) with d in * by lia.
  apply Forall_app. split.
  - eapply Forall_impl; [exact Hsel |]. simpl. intros t (? & ? & ?).
    split; [assumption | left; split; assumption].
  - eapply Forall_impl; [exact Hcand |]. simpl. intros t (? & ? & ?).
    split; [assumption | right; split; assumption].
Qed.

(** [get_all_trixels_to_depth] refuses a depth below 1.  Every trixel it
    returns for a depth [d] is reached from a root by subdivision and was
    classified against the halfspace as FULL, at a depth of at most [d], or
    as PARTIAL, at depth exactly [d]: none that is OUTSIDE, and none PARTIAL
    above the depth asked for. *)
Theorem get_all_trixels_to_depth_members (H : Halfspace) (d : Z) :
  (d < 1 ->
   get_all_trixels_to_depth H d =
     Raise (ValueError "depth must be greater or equal to 1"))
  /\ (forall trixels,
        get_all_trixels_to_depth H d = Ok trixels ->
        Forall (fun t =>
                  reachable t
                  /\ (intersects_halfspace t H = Ok FULL /\ depth t <= d
                      \/ intersects_halfspace t H = Ok PARTIAL /\ depth t = d))
          trixels).
Proof.
  split.
  - intros Hd. unfold get_all_trixels_to_depth.
    destruct (d <? 1) eqn:E; [reflexivity | apply Z.ltb_ge in E; lia].
  - apply get_all_trixels_to_depth_classified.
Qed.

End cap_members.

Lemma get_all_trixels_to_depth_members_witness :
  0 < 1
  /\ @htm.get_all_trixels_to_depth reference_math wide_cap 0 =
       Raise (ValueError "depth must be greater or equal to 1")
  /\ exists trixels,
       @htm.get_all_trixels_to_depth reference_math wide_cap 3 = Ok trixels
       /\ length trixels = 22%nat
       /\ Forall (fun t =>
                    reachable t
                    /\ (@htm.intersects_halfspace reference_math t wide_cap = Ok htm.FULL
                        /\ htm.depth t <= 3
                        \/ @htm.intersects_halfspace reference_math t wide_cap
                           = Ok htm.PARTIAL /\ htm.depth t = 3))
            trixels.
Proof.
  split; [lia |]. split.
  - apply (proj1 (@get_all_trixels_to_depth_members reference_math wide_cap 0)). lia.
  - assert (Hrun : exists trixels,
              @htm.get_all_trixels_to_depth reference_math wide_cap 3 = Ok trixels
              /\ length trixels = 22%nat)
      by (eexists; split; vm_compute; reflexivity).
    destruct Hrun as (trixels & Hrun & Hlen). exists trixels.
    split; [exact Hrun | split; [exact Hlen |]].
    apply (proj2 (@get_all_trixels_to_depth_members reference_math wide_cap 3)), Hrun.
Defined.

(** ** Names across the index and the ingest (htm.py, ingest.py) *)

Section names_agree.

Import htm.

(** The name arithmetic of the ingest agrees with the subdivision of the
    index: for a child of any trixel, the parent name the backfill computes
    is the trixel's name, and the depth it reads off a name, one more than
    the number of dashes, is the depth of the trixel. *)
Theorem subtrixel_parent_name (t c : Trixel) :
  c ∈ get_subtrixels t ->
  ingest.parent_name (name c) = name t
  /\ ingest.name_depth (name c) = depth c
  /\ depth c = depth t + 1.
Proof.
  intros Hc. destruct (subtrixel_split t c Hc) as (digit & _ & Hsplit).
  split; [| split; [| apply subtrixel_depth, Hc]].
  - unfold ingest.parent_name, pystr.drop_last.
    rewrite Hsplit, removelast_last. apply (join_split dash).
  - unfold ingest.name_depth, depth. apply count_split.
Qed.

Lemma subtrixel_parent_name_witness :
  mkTrixel "S1-2" (ov 3, midpoint_xyz (ov 2) (ov 3), midpoint_xyz (ov 3) (ov 5))
    ∈ get_subtrixels (octahedron_at "S1")
  /\ ingest.parent_name "S1-2" = "S1"
  /\ ingest.name_depth "S1-2" = 2.
Proof.
  assert (Hc : mkTrixel "S1-2"
                 (ov 3, midpoint_xyz (ov 2) (ov 3), midpoint_xyz (ov 3) (ov 5))
               ∈ get_subtrixels (octahedron_at "S1")).
  { unfold get_subtrixels. simpl. set_solver. }
  split; [exact Hc |].
  destruct (subtrixel_parent_name (octahedron_at "S1") _ Hc) as (Hp & Hd & Hd').
  split; [exact Hp |]. simpl name in Hd. rewrite Hd, Hd'. reflexivity.
Defined.

End names_agree.

(** ** Lookups in the grid-to-trixel matrix (ingest.py) *)

Section mapping_bounds.

Import ingest.

Lemma py_getitem_out_of_range {A} (xs : list A) (i : Z) :
  Z.of_nat (length xs) <= i \/ i < - Z.of_nat (length xs) ->
  py_getitem xs i = Raise IndexError.
Proof.
  intros Hi. unfold py_getitem.
  destruct (i <? 0) eqn:Hneg.
  - apply Z.ltb_lt in Hneg.
    destruct (i + Z.of_nat (length xs) <? 0) eqn:Hlo; [reflexivity |].
    apply Z.ltb_ge in Hlo. lia.
  - apply Z.ltb_ge in Hneg.
    destruct (i <? 0) eqn:Hlo; [apply Z.ltb_lt in Hlo; lia |].
    destruct (Z.of_nat (length xs) <=? i) eqn:Hhi; [reflexivity |].
    apply Z.leb_gt in Hhi. lia.
Qed.

Lemma py_getitem_total {A} (xs : list A) (i : Z) :
  - Z.of_nat (length xs) <= i < Z.of_nat (length xs) ->
  exists x, py_getitem xs i = Ok x /\ x ∈ xs.
Proof.
  intros Hi. destruct (Z.lt_ge_cases i 0) as [Hneg | Hpos].
  - destruct (lookup_in_range xs (i + Z.of_nat (length xs))) as [x Hx]; [lia |].
    exists x. split; [apply py_getitem_negative; [lia | lia | exact Hx] |].
    apply list_elem_of_lookup. eexists. exact Hx.
  - destruct (lookup_in_range xs i) as [x Hx]; [lia |].
    exists x. split; [apply py_getitem_nonneg; [lia | exact Hx] |].
    apply list_elem_of_lookup. eexists. exact Hx.
Qed.

(** Beyond the reach of Python's indices [get_trixel_name] raises
    IndexError: for a row index [y - min_y] at or past the number of rows or
    below minus that number, and, with the row found, for a column index
    [x - min_x] at or past the width of a row or below minus the width. *)
Theorem get_trixel_name_index_error (m : Mapping) (x y : Z) :
  rectangular m ->
  (max_y m < y \/ y < min_y m - height m ->
   get_trixel_name m x y = Raise IndexError)
  /\ (min_y m - height m <= y <= max_y m ->
      max_x m < x \/ x < min_x m - width m ->
      get_trixel_name m x y = Raise IndexError).
Proof.
  intros [Hrows Hcols]. split.
  - intros Hy. unfold get_trixel_name.
    rewrite py_getitem_out_of_range; [reflexivity |].
    rewrite Hrows. unfold height in *. lia.
  - intros Hy Hx. unfold get_trixel_name.
    destruct (py_getitem_total (mapping m) (y - min_y m)) as (row & -> & Hrow);
      [rewrite Hrows; unfold height in *; lia |].
    simpl. rewrite Forall_forall in Hcols. specialize (Hcols row Hrow).
    apply py_getitem_out_of_range. rewrite Hcols. unfold width in *. lia.
Qed.

Lemma get_trixel_name_index_error_witness :
  rectangular two_cells
  /\ get_trixel_name two_cells 0 1 = Raise IndexError
  /\ get_trixel_name two_cells 2 0 = Raise IndexError
  /\ get_trixel_name two_cells (-3) 0 = Raise IndexError.
Proof.
  assert (Hrect : rectangular two_cells).
  { split; [reflexivity | repeat constructor]. }
  split; [exact Hrect |]. split; [| split].
  - apply (proj1 (get_trixel_name_index_error two_cells 0 1 Hrect)).
    left. simpl. lia.
  - apply (proj2 (get_trixel_name_index_error two_cells 2 0 Hrect)).
    + unfold height. simpl. lia.
    + left. simpl. lia.
  - apply (proj2 (get_trixel_name_index_error two_cells (-3) 0 Hrect)).
    + unfold height. simpl. lia.
    + right. unfold width. simpl. lia.
Defined.

(** On a rectangular matrix [get_total_entries] is the number of cells of
    the grid. *)
Theorem get_total_entries_rectangular (m : Mapping) :
  rectangular m -> get_total_entries m = width m * height m.
Proof.
  intros [Hrows Hcols]. unfold get_total_entries. rewrite <- Hrows.
  generalize (width m) Hcols. clear. intros w.
  induction (mapping m) as [| row rows IH]; intros Hcols; simpl; [lia |].
  apply Forall_cons in Hcols. destruct Hcols as [Hrow Hrest].
  rewrite (IH Hrest), Hrow. lia.
Qed.

Lemma get_total_entries_rectangular_witness :
  rectangular two_cells /\ get_total_entries two_cells = 2.
Proof.
  assert (Hrect : rectangular two_cells).
  { split; [reflexivity | repeat constructor]. }
  split; [exact Hrect |].
  rewrite (get_total_entries_rectangular two_cells Hrect). reflexivity.
Defined.

End mapping_bounds.

(** ** Where the blobs of trixels lie (ingest.py) *)

Section blob_locations.

Import ingest.

Lemma prefix_append (a b : string) : String.prefix a (a ++ b) = true.
Proof.
  induction a as [| c a IH]; [destruct b; reflexivity |].
  rewrite append_cons. simpl. destruct (ascii_dec c c); [exact IH | contradiction].
Qed.

Lemma rooted_app (comps more : list string) :
  comps <> [] -> more <> [] ->
  rooted (comps ++ more) = (rooted comps ++ "/" ++ pystr.join "/" more)%string.
Proof.
  intros Hc Hm. unfold rooted. rewrite (join_app "/" comps more Hc Hm).
  rewrite <- append_assoc. reflexivity.
Qed.

Lemma trixel_file_parts (dataset : Dataset) (n m : string) :
  absolute_normal (processed_path dataset) = true ->
  is_trixel_name n = true -> is_trixel_name m = true ->
  trixel_file dataset n =
    (processed_path dataset ++ "/" ++ pystr.replace dash slash n ++ "/data.npy")%string
  /\ os.normpath (trixel_file dataset n) = trixel_file dataset n
  /\ String.prefix (processed_path dataset ++ "/") (trixel_file dataset n) = true
  /\ (trixel_file dataset n = trixel_file dataset m -> n = m).
Proof.
  intros Hnormal Hn Hm.
  destruct (absolute_normal_rooted _ Hnormal) as (comps & Hcomps & Hplain & Hrooted).
  destruct (trixel_file_rooted dataset comps Hrooted Hcomps Hplain n Hn)
    as [Hfile Hnorm].
  assert (Hpath : trixel_file dataset n =
            (processed_path dataset ++ "/" ++ pystr.replace dash slash n
             ++ "/data.npy")%string).
  { rewrite Hfile, Hrooted, rooted_app; [| exact Hcomps | destruct (segments n); discriminate].
    rewrite (join_app "/" (segments n) ["data.npy"]);
      [| destruct (trixel_name_plain n Hn) as [Hne _]; exact Hne | discriminate].
    rewrite replace_split. reflexivity. }
  split; [exact Hpath | split; [exact Hnorm | split]].
  - rewrite Hpath, <- append_assoc. apply prefix_append.
  - intros Heq.
    apply (trixel_file_inj dataset comps Hrooted Hcomps Hplain n m Hn Hm).
    rewrite Heq. reflexivity.
Qed.

(** Below an absolute processed directory in normal form, the blob path of
    a trixel name is in normal form itself and lies inside that directory,
    and two trixel names never share a blob path. *)
Theorem trixel_file_location (dataset : Dataset) (n m : string) :
  absolute_normal (processed_path dataset) = true ->
  is_trixel_name n = true -> is_trixel_name m = true ->
  os.normpath (trixel_file dataset n) = trixel_file dataset n
  /\ String.prefix (processed_path dataset ++ "/") (trixel_file dataset n) = true
  /\ (trixel_file dataset n = trixel_file dataset m -> n = m).
Proof.
  intros Hnormal Hn Hm.
  apply (trixel_file_parts dataset n m Hnormal Hn Hm).
Qed.

Lemma trixel_file_location_witness :
  (absolute_normal (processed_path survey) = true
   /\ is_trixel_name "N1-3" = true /\ is_trixel_name "N1-2" = true)
  /\ trixel_file survey "N1-3" = "/data/processed/survey/N1/3/data.npy"
  /\ os.normpath (trixel_file survey "N1-3") = trixel_file survey "N1-3"
  /\ String.prefix (processed_path survey ++ "/") (trixel_file survey "N1-3") = true
  /\ (trixel_file survey "N1-3" = trixel_file survey "N1-2" -> "N1-3" = "N1-2").
Proof.
  split; [repeat split; reflexivity |].
  split; [reflexivity |].
  apply (trixel_file_location survey "N1-3" "N1-2"); reflexivity.
Defined.

End blob_locations.

(** ** The answers of the radius query (app.py) *)

Section radius_answers.

Import htm app constants.

Context {M : MathLib}.

(** The name of a trixel reached by subdivision follows the grammar. *)
Lemma reachable_trixel_name (t : Trixel) :
  reachable t -> is_trixel_name (name t) = true.
Proof.
  intros Ht. destruct (reachable_path t Ht) as (r & root & digits & Hsplit & Hroot & Hwalk).
  unfold is_trixel_name. rewrite Hsplit. apply andb_true_intro. split.
  - destruct (is_root_name r) eqn:Hr; [reflexivity |].
    unfold is_root_name in Hr. apply bool_decide_eq_false_1 in Hr.
    rewrite (dict_get_keys _ _ Hr) in Hroot. discriminate.
  - destruct (forallb is_child_digit digits) eqn:Hd; [reflexivity |].
    rewrite (walk_invalid digits Hd root) in Hwalk. discriminate.
Qed.

Lemma descendants_reachable (k : nat) (t : Trixel) :
  reachable t -> Forall reachable (descendants k t).
Proof.
  intros Ht. induction k as [| k IH].
  - simpl. constructor; [exact Ht | constructor].
  - unfold descendants in *. simpl. apply Forall_forall. intros c Hc.
    apply list_elem_of_In, in_flat_map in Hc. destruct Hc as (p & Hp & Hc).
    apply list_elem_of_In in Hp, Hc. rewrite Forall_forall in IH.
    exact (reachable_child p c (IH p Hp) Hc).
Qed.

(** The expanded enumeration returns trixels reached by subdivision, all at
    the depth asked for. *)
Lemma expanded_trixels_reachable (H : Halfspace) (d : Z) (expanded : list Trixel) :
  get_all_expanded_trixels_to_depth H d = Ok expanded ->
  Forall (fun t => reachable t /\ depth t = d) expanded.
Proof.
  intros Hrun. unfold get_all_expanded_trixels_to_depth in Hrun.
  destruct (get_all_trixels_to_depth H d) as [trixels |] eqn:Hall;
    simpl in Hrun; [| discriminate].
  destruct (get_all_trixels_to_depth_bound H d trixels Hall) as [_ Hbound].
  pose proof (get_all_trixels_to_depth_classified H d trixels Hall) as Hclass.
  rewrite (expand_loop d trixels [] Hbound) in Hrun. simpl in Hrun.
  injection Hrun as <-.
  apply Forall_forall. intros c Hc.
  apply list_elem_of_In, in_flat_map in Hc. destruct Hc as (t & Ht & Hc).
  apply list_elem_of_In in Ht, Hc.
  rewrite Forall_forall in Hbound, Hclass.
  destruct (Hclass t Ht) as [Hreach _]. split.
  - pose proof (descendants_reachable (Z.to_nat (d - depth t)) t Hreach) as Hd.
    rewrite Forall_forall in Hd. apply Hd, Hc.
  - pose proof (descendants_at_depth d t (Hbound t Ht)) as Hd.
    rewrite Forall_forall in Hd. apply Hd, Hc.
Qed.

Lemma lat_lon_entry (t : Trixel) (entry : string * list (float * float)) :
  lat_lon t = Ok entry -> fst entry = name t /\ length (snd entry) = 3%nat.
Proof.
  unfold lat_lon. destruct (vertices t) as [[v0 v1] v2]. intros H.
  destruct (xyz_to_lat_lon v0); simpl in H; [| discriminate].
  destruct (xyz_to_lat_lon v1); simpl in H; [| discriminate].
  destruct (xyz_to_lat_lon v2); simpl in H; [| discriminate].
  injection H as <-. split; reflexivity.
Qed.

(** Every entry of a list of trixels the radius query answers with carries
    a name of the grammar, of depth [DETAILED_DEPTH] = 20, and three
    vertices: the names are ready to be sent to the detailed query. *)
Theorem halfspace_trixels_entries (lat lon radius : float)
    (body : list (string * list (float * float))) :
  halfspace_trixels lat lon radius = Ok (json_trixels body) ->
  Forall (fun entry =>
            is_trixel_name (fst entry) = true
            /\ ingest.name_depth (fst entry) = DETAILED_DEPTH
            /\ length (snd entry) = 3%nat) body.
Proof.
  unfold halfspace_trixels. intros Hrun.
  destruct (sphere_surface_radius_to_halfspace_distance radius) as [dist |];
    simpl in Hrun; [| discriminate].
  destruct (get_all_expanded_trixels_to_depth _ _) as [trixels |] eqn:Hall;
    simpl in Hrun; [| discriminate].
  apply expanded_trixels_reachable in Hall.
  destruct (for_each _ trixels []) as [entries |] eqn:Hloop; simpl in Hrun;
    [| discriminate].
  injection Hrun as <-.
  revert Hloop. apply for_each_invariant; [| constructor].
  intros acc t acc' Ht Hacc Hstep.
  destruct (lat_lon t) as [entry |] eqn:Hentry; simpl in Hstep; [| discriminate].
  injection Hstep as <-. apply Forall_app. split; [exact Hacc |].
  constructor; [| constructor].
  rewrite Forall_forall in Hall. destruct (Hall t Ht) as [Hreach Hdepth].
  destruct (lat_lon_entry t entry Hentry) as [-> Hlen].
  split; [apply reachable_trixel_name, Hreach | split; [| exact Hlen]].
  unfold ingest.name_depth. rewrite count_split. exact Hdepth.
Qed.

End radius_answers.

Lemma halfspace_trixels_entries_witness :
  exists body,
    @app.halfspace_trixels reference_math 35 45 10 = Ok (app.json_trixels body)
    /\ length body = 6%nat
    /\ Forall (fun entry =>
                 is_trixel_name (fst entry) = true
                 /\ ingest.name_depth (fst entry) = constants.DETAILED_DEPTH
                 /\ length (snd entry) = 3%nat) body.
Proof.
  assert (Hrun : exists body,
            @app.halfspace_trixels reference_math 35 45 10 = Ok (app.json_trixels body)
            /\ length body = 6%nat)
    by (eexists; split; vm_compute; reflexivity).
  destruct Hrun as (body & Hrun & Hlen). exists body.
  split; [exact Hrun | split; [exact Hlen |]].
  apply (@halfspace_trixels_entries reference_math 35 45 10 body Hrun).
Defined.

(** ** The answers of the detailed query (app.py) *)

Section detailed_answers.

Import app.

(** The blob path the handler builds for a requested name. *)
Definition requested_file (server_dir dataset trixel_name : string) : string :=
  os.path_join (os.path_join server_dir ["data"; "processed"; dataset])
    [pystr.replace dash slash trixel_name; "data.npy"].

(** The rows the handler answers with for a path: those [np.load] returns,
    and none where it raises. *)
Definition served_rows (fs : os.filesystem) (path : string) : os.blob :=
  match os.np_load fs path with
  | Ok rows => rows
  | Raise _ => []
  end.

Lemma load_trixel_insert (fs : os.filesystem) (dataset_dir : string)
    (data : gmap string os.blob) (trixel_name : string) :
  let path :=
    os.path_join dataset_dir [pystr.replace dash slash trixel_name; "data.npy"] in
  os.path_isdir fs path = false ->
  load_trixel fs dataset_dir data trixel_name =
    Ok (<[trixel_name := served_rows fs path]> data).
Proof.
  intros path Hdir. unfold load_trixel, served_rows. fold path.
  unfold os.path_exists. rewrite Hdir. cbn [orb].
  unfold os.path_isfile, os.np_load, os.is_file.
  destruct (os.resolve fs path) as [cur | e]; [| reflexivity].
  change (Ok cur ≫= ?f) with (f cur). cbv beta.
  destruct (os.files fs !! os.entry cur) as [rows |] eqn:E.
  - rewrite bool_decide_eq_true_2 by (eexists; reflexivity). reflexivity.
  - rewrite bool_decide_eq_false_2 by (intros [? ?]; discriminate). cbn [negb].
    destruct (os.is_directory fs cur); reflexivity.
Qed.

Lemma load_trixels (fs : os.filesystem) (dataset_dir : string)
    (trixel_names : list string) :
  (forall n, n ∈ trixel_names ->
     os.path_isdir fs
       (os.path_join dataset_dir [pystr.replace dash slash n; "data.npy"]) = false) ->
  forall data0,
  exists data,
    for_each (load_trixel fs dataset_dir) trixel_names data0 = Ok data
    /\ dom data = dom data0 ∪ list_to_set trixel_names
    /\ (forall n, n ∈ trixel_names ->
          data !! n =
            Some (served_rows fs
                    (os.path_join dataset_dir
                       [pystr.replace dash slash n; "data.npy"])))
    /\ (forall n, n ∉ trixel_names -> data !! n = data0 !! n).
Proof.
  induction trixel_names as [| m rest IH]; intros Hdirs data0.
  - exists data0. split; [reflexivity |].
    split; [set_solver | split; [intros n Hn; inversion Hn | reflexivity]].
  - rewrite for_each_cons.
    rewrite load_trixel_insert by (apply Hdirs; left).
    change (Ok ?a ≫= ?f) with (f a). cbv beta.
    destruct (IH (fun n Hn => Hdirs n (list_elem_of_further _ _ _ Hn))
                (<[m := served_rows fs
                          (os.path_join dataset_dir
                             [pystr.replace dash slash m; "data.npy"])]> data0))
      as (data & Hrun & Hdom & Hin & Hout).
    exists data. split; [exact Hrun |]. split; [| split].
    + rewrite Hdom, dom_insert_L. set_solver.
    + intros n Hn. destruct (decide (n ∈ rest)) as [Hrest | Hrest];
        [apply Hin, Hrest |].
      rewrite (Hout n Hrest).
      apply elem_of_cons in Hn. destruct Hn as [-> | Hn]; [| contradiction].
      apply lookup_insert_eq.
    + intros n Hn. rewrite Hout by set_solver.
      apply lookup_insert_ne. set_solver.
Qed.

(** The part of [detailed_by_trixel_names] that builds the blob paths and
    loads them (from the dataset's directory on): where no directory sits at
    a requested blob path, it returns a dict that has exactly the requested
    names as keys, each with the rows of the blob its path leads to, and
    with no rows where the path leads to no blob. *)
Theorem detailed_data_answer (server_dir : string) (fs : os.filesystem)
    (trixel_names : list string) (dataset : string) :
  (forall n, n ∈ trixel_names ->
     os.path_isdir fs (requested_file server_dir dataset n) = false) ->
  exists data,
    detailed_data server_dir fs dataset trixel_names = Ok (json_data data)
    /\ dom data = list_to_set trixel_names
    /\ forall n, n ∈ trixel_names ->
         data !! n = Some (served_rows fs (requested_file server_dir dataset n)).
Proof.
  intros Hdirs.
  destruct (load_trixels fs (os.path_join server_dir ["data"; "processed"; dataset])
              trixel_names Hdirs ∅) as (data & Hrun & Hdom & Hin & _).
  exists data. split; [| split; [rewrite Hdom; set_solver | exact Hin]].
  unfold detailed_data. rewrite Hrun. reflexivity.
Qed.

Lemma detailed_data_answer_witness :
  exists data,
    detailed_data "/srv/server" two_datasets "alpha" ["N0"; "N1"; "N0"; "zz-..-N0"]
    = Ok (json_data data)
    /\ dom data = ({[ "N0"; "N1"; "zz-..-N0" ]} : gset string)
    /\ data !! "N0" = Some [[1; 2; 3; 4; 5; 6]%float]
    /\ data !! "N1" = Some []
    /\ data !! "zz-..-N0" = Some [].
Proof.
  destruct (detailed_data_answer "/srv/server" two_datasets
              ["N0"; "N1"; "N0"; "zz-..-N0"] "alpha")
    as (data & Hrun & Hdom & Hrows).
  - intros n Hn.
    repeat (apply elem_of_cons in Hn; destruct Hn as [-> | Hn]);
      try (vm_compute; reflexivity).
    inversion Hn.
  - exists data. split; [exact Hrun |].
    split; [rewrite Hdom; clear; set_solver |].
    split; [rewrite (Hrows "N0") by (clear; set_solver)
           | split; [rewrite (Hrows "N1") by (clear; set_solver)
                    | rewrite (Hrows "zz-..-N0") by (clear; set_solver)]];
      vm_compute; reflexivity.
Defined.

(** The handler itself never answers with data: it turns the request down
    or raises, for every body and every file system. *)
Theorem detailed_by_trixel_names_never_serves {O : PySetOrder}
    (server_dir : string) (fs : os.filesystem) (json_body : json_value)
    (data : gmap string os.blob) :
  detailed_by_trixel_names server_dir fs json_body <> Ok (json_data data).
Proof.
  unfold detailed_by_trixel_names.
  destruct json_body as [| [trixels dataset] | type_name];
    [discriminate | | discriminate].
  cbn [body_trixels body_dataset].
  destruct trixels as [[| n rest] |]; [discriminate | | discriminate].
  destruct (falsy dataset); [discriminate |].
  cbv [py_call_1 mbind result_bind]. discriminate.
Qed.

(** *** Names of the grammar stay inside the dataset *)

(** Joining plain components, one after the other, onto a rooted path. *)
Lemma path_join_plain_list (more : list string) :
  Forall (fun c => plain c = true) more ->
  forall comps,
    comps <> [] -> Forall (fun c => plain c = true) comps ->
    os.path_join (rooted comps) more = rooted (comps ++ more).
Proof.
  induction 1 as [| b rest Hb Hrest IH]; intros comps Hcomps Hplain.
  - rewrite app_nil_r. reflexivity.
  - change (os.path_join (rooted comps) (b :: rest))
      with (os.path_join (os.path_join (rooted comps) [pystr.join "/" [b]]) rest).
    rewrite (path_join_rooted comps [b] Hcomps Hplain);
      [| discriminate | constructor; [exact Hb | constructor]].
    rewrite IH; [rewrite <- app_assoc; reflexivity | destruct comps; discriminate |].
    apply Forall_app. split; [exact Hplain | constructor; [exact Hb | constructor]].
Qed.

Lemma absolute_normal_extend (p : string) (more : list string) :
  absolute_normal p = true ->
  more <> [] -> Forall (fun c => plain c = true) more ->
  absolute_normal (os.path_join p more) = true
  /\ os.path_join p more = (p ++ "/" ++ pystr.join "/" more)%string.
Proof.
  intros Hp Hne Hmore.
  destruct (absolute_normal_rooted _ Hp) as (comps & Hcomps & Hplain & ->).
  rewrite (path_join_plain_list more Hmore comps Hcomps Hplain). split.
  - unfold absolute_normal.
    rewrite split_rooted;
      [| destruct comps; [contradiction | discriminate]
       | apply Forall_app; split; assumption].
    destruct comps as [| c comps]; [contradiction |].
    simpl app. apply forallb_forall. intros x Hx.
    assert (Hall : Forall (fun c0 => plain c0 = true) ((c :: comps) ++ more))
      by (apply Forall_app; split; assumption).
    rewrite Forall_forall in Hall. apply Hall, list_elem_of_In, Hx.
  - apply rooted_app; assumption.
Qed.

(** With the server in an absolute directory in normal form and a dataset
    name that is a plain path component, the blob path the handler builds
    for a name of the grammar is
    [<server_dir>/data/processed/<dataset>/<segments of the name>/data.npy]:
    a path in normal form inside the directory of the dataset, a different
    one for every name, and in every file system it leads nowhere but to
    the entry of that path. *)
Theorem requested_file_inside (server_dir dataset n m : string) :
  absolute_normal server_dir = true -> plain dataset = true ->
  is_trixel_name n = true -> is_trixel_name m = true ->
  let dataset_dir := (server_dir ++ "/data/processed/" ++ dataset)%string in
  requested_file server_dir dataset n =
    (dataset_dir ++ "/" ++ pystr.replace dash slash n ++ "/data.npy")%string
  /\ os.normpath (requested_file server_dir dataset n)
     = requested_file server_dir dataset n
  /\ String.prefix (dataset_dir ++ "/") (requested_file server_dir dataset n) = true
  /\ (requested_file server_dir dataset n = requested_file server_dir dataset m ->
      n = m)
  /\ (forall fs cur,
        os.resolve fs (requested_file server_dir dataset n) = Ok cur ->
        os.entry cur = requested_file server_dir dataset n).
Proof.
  intros Hserver Hdataset Hn Hm dataset_dir.
  assert (Hmore : Forall (fun c => plain c = true) ["data"; "processed"; dataset]).
  { repeat constructor. exact Hdataset. }
  destruct (absolute_normal_extend server_dir ["data"; "processed"; dataset]
              Hserver ltac:(discriminate) Hmore) as [Hnormal Hdir].
  assert (Hdir' : os.path_join server_dir ["data"; "processed"; dataset] = dataset_dir).
  { rewrite Hdir. reflexivity. }
  pose (ds := ingest.mkDataset dataset "" dataset_dir 0 "" 0 0 0 0 []).
  assert (Hfile : forall k, requested_file server_dir dataset k = ingest.trixel_file ds k).
  { intros k. unfold requested_file, ingest.trixel_file. rewrite Hdir'. reflexivity. }
  rewrite Hdir' in Hnormal.
  destruct (trixel_file_parts ds n m Hnormal Hn Hm) as (Hpath & Hnorm & Hprefix & Hinj).
  rewrite !Hfile. repeat split; try assumption.
  intros fs cur Hres.
  destruct (absolute_normal_rooted _ Hnormal) as (comps & Hcomps & Hplain & Hrooted).
  destruct (trixel_file_rooted ds comps Hrooted Hcomps Hplain n Hn) as [Hroot _].
  destruct (trixel_name_plain n Hn) as [_ Hsegs].
  rewrite Hroot, app_assoc in Hres.
  apply resolve_rooted in Hres;
    [| apply Forall_app; split; assumption | reflexivity].
  destruct Hres as [-> _]. rewrite Hroot, app_assoc. reflexivity.
Qed.

Lemma requested_file_inside_witness :
  (absolute_normal "/srv/server" = true /\ plain "alpha" = true
   /\ is_trixel_name "N0-1-2" = true /\ is_trixel_name "S3" = true)
  /\ requested_file "/srv/server" "alpha" "N0-1-2"
     = "/srv/server/data/processed/alpha/N0/1/2/data.npy"
  /\ os.normpath (requested_file "/srv/server" "alpha" "N0-1-2")
     = requested_file "/srv/server" "alpha" "N0-1-2"
  /\ String.prefix "/srv/server/data/processed/alpha/"
       (requested_file "/srv/server" "alpha" "N0-1-2") = true.
Proof.
  split; [repeat split; reflexivity |].
  destruct (requested_file_inside "/srv/server" "alpha" "N0-1-2" "S3")
    as (Hpath & Hnorm & Hprefix & _ & _); try reflexivity.
  split; [rewrite Hpath; reflexivity | split; [exact Hnorm | exact Hprefix]].
Defined.

End detailed_answers.

(** ** What the radius query rejects (app.py) *)

Section radius_rejections.

Import app constants.

Context {M : MathLib}.

(** For a request whose radius is a number, the radius query answers 400
    in exactly these cases: a parameter is missing or empty, a parameter is
    no float, or latitude, longitude or radius lies outside [-90, 90],
    [-180, 180] or [0, MAX_RADIUS]; every other request is answered with the
    enumeration for its halfspace. *)
Theorem trixels_in_halfspace_rejections (py_float : string -> option float)
    (args : string -> option string) :
  (falsy (args "lat") || falsy (args "lon") || falsy (args "radius") = true ->
   trixels_in_halfspace py_float args =
     Ok (json_error "Latitude, longitude and radius parameters are required." 400))
  /\ (forall slat slon sradius,
        args "lat" = Some slat -> args "lon" = Some slon ->
        args "radius" = Some sradius ->
        slat <> EmptyString -> slon <> EmptyString -> sradius <> EmptyString ->
        (py_float slat = None \/ py_float slon = None \/ py_float sradius = None ->
         trixels_in_halfspace py_float args =
           Ok (json_error "Invalid latitude, longitude or radius values." 400))
        /\ (forall lat lon radius,
              py_float slat = Some lat -> py_float slon = Some lon ->
              py_float sradius = Some radius -> is_nan radius = false ->
              (in_ranges lat lon radius = false ->
               exists msg,
                 trixels_in_halfspace py_float args = Ok (json_error msg 400))
              /\ (in_ranges lat lon radius = true ->
                  trixels_in_halfspace py_float args =
                    halfspace_trixels lat lon radius))).
Proof.
  split.
  - intros Hfalsy. unfold trixels_in_halfspace. rewrite Hfalsy. reflexivity.
  - intros slat slon sradius Alat Alon Aradius Nlat Nlon Nradius. split.
    + intros Hnone. unfold trixels_in_halfspace. rewrite Alat, Alon, Aradius.
      simpl. apply String.eqb_neq in Nlat, Nlon, Nradius.
      rewrite Nlat, Nlon, Nradius. simpl.
      destruct (py_float slat), (py_float slon), (py_float sradius);
        try reflexivity.
      destruct Hnone as [H | [H | H]]; discriminate.
    + intros lat lon radius Plat Plon Pradius Hnan.
      rewrite (trixels_in_halfspace_parsed py_float args slat slon sradius
                 lat lon radius Alat Alon Aradius Nlat Nlon Nradius Plat Plon Pradius).
      apply trixels_in_halfspace_ranges, Hnan.
Qed.

End radius_rejections.

(** A parser of the three strings the examples send. *)
Definition float_of_sample (s : string) : option float :=
  if String.eqb s "35" then Some 35%float
  else if String.eqb s "45" then Some 45%float
  else if String.eqb s "10" then Some 10%float
  else if String.eqb s "2000" then Some 2000%float
  else None.

Definition sample_args (radius : string) (key : string) : option string :=
  if String.eqb key "lat" then Some "35"
  else if String.eqb key "lon" then Some "45"
  else if String.eqb key "radius" then Some radius
  else None.

Lemma trixels_in_halfspace_rejections_witness :
  (exists msg,
     @app.trixels_in_halfspace reference_math float_of_sample (sample_args "2000")
     = Ok (app.json_error msg 400))
  /\ @app.trixels_in_halfspace reference_math float_of_sample (sample_args "10")
     = @app.halfspace_trixels reference_math 35 45 10
  /\ @app.trixels_in_halfspace reference_math float_of_sample (sample_args "ten")
     = Ok (app.json_error "Invalid latitude, longitude or radius values." 400)
  /\ @app.trixels_in_halfspace reference_math float_of_sample (sample_args "")
     = Ok (app.json_error "Latitude, longitude and radius parameters are required." 400).
Proof.
  pose proof (fun radius N =>
    proj2 (@trixels_in_halfspace_rejections reference_math float_of_sample
             (sample_args radius))
      "35" "45" radius eq_refl eq_refl eq_refl
      ltac:(discriminate) ltac:(discriminate) N) as Hpresent.
  split; [| split; [| split]].
  - destruct (Hpresent "2000" ltac:(discriminate)) as [_ Hparsed].
    apply (proj1 (Hparsed 35 45 2000 eq_refl eq_refl eq_refl eq_refl))%float.
    reflexivity.
  - destruct (Hpresent "10" ltac:(discriminate)) as [_ Hparsed].
    apply (proj2 (Hparsed 35 45 10 eq_refl eq_refl eq_refl eq_refl))%float.
    reflexivity.
  - destruct (Hpresent "ten" ltac:(discriminate)) as [Hinvalid _].
    apply Hinvalid. right. right. reflexivity.
  - apply (proj1 (@trixels_in_halfspace_rejections reference_math float_of_sample
                    (sample_args ""))).
    reflexivity.
Defined.

(** ** Backfill at the edges (ingest.py) *)

Section backfill_edges.

Import ingest constants.

Context {O : PySetOrder}.

(** [backfill_trixels] on an empty set raises IndexError; on names of
    different depths it raises AssertionError before it touches a blob; on
    names that all are at one depth, at or above [INGEST_MIN_DEPTH] = 10 in
    the tree, it loads and saves nothing and returns the one level it was
    given. *)
Theorem backfill_trixels_edges (dataset : Dataset) (fs : os.filesystem) :
  backfill_trixels dataset ∅ fs = Raise IndexError
  /\ (forall saved n m,
        n ∈ saved -> m ∈ saved -> name_depth n <> name_depth m ->
        backfill_trixels dataset saved fs =
          Raise (AssertionError "Not all saved trixels have the same depth"))
  /\ (forall saved D,
        saved <> ∅ -> (forall n, n ∈ saved -> name_depth n = D) ->
        D <= INGEST_MIN_DEPTH ->
        backfill_trixels dataset saved fs =
          Ok ({[ D := list_of_set saved ]}, fs)).
Proof.
  split; [| split].
  - unfold backfill_trixels. rewrite list_of_set_empty. reflexivity.
  - intros saved n m Hn Hm Hdiff. unfold backfill_trixels.
    destruct (list_of_set_first saved) as (first & rest & Hlist & Hfirst);
      [set_solver |].
    rewrite Hlist. change (py_getitem (first :: rest) 0) with (Ok first).
    change (Ok first ≫= ?f) with (f first). cbv beta zeta.
    rewrite <- Hlist.
    assert (Hall : forallb (fun trixel => name_depth trixel =? name_depth first)
                     (list_of_set saved) = false).
    { destruct (forallb _ (list_of_set saved)) eqn:E; [| reflexivity].
      rewrite forallb_forall in E.
      assert (Hd : forall k, k ∈ saved -> name_depth k = name_depth first).
      { intros k Hk. apply Z.eqb_eq, E, list_elem_of_In, list_of_set_elem, Hk. }
      rewrite (Hd n Hn), (Hd m Hm) in Hdiff. contradiction. }
    rewrite Hall. reflexivity.
  - intros saved D Hne Hdepth Hshallow. unfold backfill_trixels.
    destruct (list_of_set_first saved Hne) as (first & rest & Hlist & Hfirst).
    rewrite Hlist. change (py_getitem (first :: rest) 0) with (Ok first).
    change (Ok first ≫= ?f) with (f first). cbv beta zeta.
    rewrite <- Hlist, (Hdepth first Hfirst).
    assert (Hall : forallb (fun trixel => name_depth trixel =? D)
                     (list_of_set saved) = true).
    { apply forallb_forall. intros k Hk.
      apply list_elem_of_In, list_of_set_elem in Hk.
      rewrite (Hdepth k Hk). apply Z.eqb_refl. }
    rewrite Hall. cbn [negb].
    unfold py_range_desc.
    replace (Z.to_nat (D - 1 - (INGEST_MIN_DEPTH - 1))) with 0%nat by lia.
    reflexivity.
Qed.

End backfill_edges.

Lemma backfill_trixels_edges_witness :
  ingest.backfill_trixels survey ∅ leaves_only = Raise IndexError
  /\ ingest.backfill_trixels survey {[ "N0-1"; "N0-1-2" ]} leaves_only =
       Raise (AssertionError "Not all saved trixels have the same depth")
  /\ ingest.backfill_trixels survey {[ "N0-1"; "N0-2" ]} leaves_only =
       Ok ({[ 2 := list_of_set ({[ "N0-1"; "N0-2" ]} : gset string) ]}, leaves_only).
Proof.
  destruct (backfill_trixels_edges survey leaves_only) as (Hempty & Hmixed & Hshallow).
  split; [exact Hempty | split].
  - apply (Hmixed _ "N0-1" "N0-1-2"); [set_solver | set_solver |].
    vm_compute. discriminate.
  - apply Hshallow.
    + set_solver.
    + intros n Hn. apply elem_of_union in Hn.
      destruct Hn as [Hn | Hn]; apply elem_of_singleton in Hn; subst n; reflexivity.
    + unfold constants.INGEST_MIN_DEPTH. lia.
Defined.

Section backfill_results.

Import ingest constants.

Context {O : PySetOrder}.

(** A path leads to the same entry, or to none, in two file systems with
    the same directories. *)
Lemma resolve_dirs (fs fs' : os.filesystem) (path : string) :
  os.dirs fs' = os.dirs fs ->
  match os.resolve fs path, os.resolve fs' path with
  | Ok cur, Ok cur' => cur = cur'
  | Raise _, Raise _ => True
  | _, _ => False
  end.
Proof.
  intros Hd. unfold os.resolve.
  destruct (String.eqb path ""); [exact I |].
  destruct (os.walk fs path [] (pystr.split slash path)) as [cur |] eqn:E;
    destruct (os.walk fs' path [] (pystr.split slash path)) as [cur' |] eqn:E'.
  - apply (walk_dirs fs fs' _ _ Hd) in E. congruence.
  - apply (walk_dirs fs fs' _ _ Hd) in E. congruence.
  - apply (walk_dirs fs' fs _ _ (eq_sym Hd)) in E'. congruence.
  - exact I.
Qed.

Lemma path_exists_frame (fs fs' : os.filesystem) (path : string) :
  os.dirs fs' = os.dirs fs ->
  (forall cur, os.resolve fs path = Ok cur ->
     os.files fs' !! os.entry cur = os.files fs !! os.entry cur) ->
  os.path_exists fs' path = os.path_exists fs path.
Proof.
  intros Hd Hfiles. pose proof (resolve_dirs fs fs' path Hd) as Hres.
  unfold os.path_exists, os.path_isdir, os.path_isfile, os.is_file.
  destruct (os.resolve fs path) as [cur |]; destruct (os.resolve fs' path) as [cur' |];
    try contradiction; [| reflexivity].
  subst cur'. rewrite (is_directory_dirs fs fs' cur Hd), (Hfiles cur eq_refl).
  reflexivity.
Qed.

(** Under the conditions of the concatenation law (an absolute processed
    directory in normal form; saved names of the grammar at depth
    [INGEST_MAX_DEPTH] = 20, at least one, each with a blob; no blob or
    directory at the blob path of any other name), the dict
    [backfill_trixels] returns has exactly the keys 10 to 20, and under each
    depth the ancestors at that depth of the saved names ([parent_name]
    applied 20 - depth times), every ancestor once; each is a name of the
    grammar at that depth. *)
Theorem backfill_recorded_ancestors (dataset : Dataset) (saved : gset string)
    (fs : os.filesystem) :
  absolute_normal (processed_path dataset) = true ->
  saved <> ∅ ->
  (forall n, n ∈ saved ->
     is_trixel_name n = true /\ name_depth n = INGEST_MAX_DEPTH) ->
  (forall n, n ∈ saved -> os.path_isfile fs (trixel_file dataset n) = true) ->
  (forall n, is_trixel_name n = true -> n ∉ saved ->
     os.path_exists fs (trixel_file dataset n) = false) ->
  exists trixels_by_depth fs',
    backfill_trixels dataset saved fs = Ok (trixels_by_depth, fs')
    /\ (forall d, INGEST_MIN_DEPTH <= d <= INGEST_MAX_DEPTH ->
          exists names,
            trixels_by_depth !! d = Some names
            /\ NoDup names
            /\ (forall T, T ∈ names <->
                  exists n, n ∈ saved
                            /\ Nat.iter (Z.to_nat (INGEST_MAX_DEPTH - d)) parent_name n = T)
            /\ (forall T, T ∈ names ->
                  is_trixel_name T = true /\ name_depth T = d))
    /\ (forall d, d < INGEST_MIN_DEPTH \/ INGEST_MAX_DEPTH < d ->
          trixels_by_depth !! d = None).
Proof.
  intros Hnormal Hne Hnames Hblobs Hothers.
  destruct (absolute_normal_rooted _ Hnormal) as (comps & Hcomps & Hplain & Hrooted).
  destruct (backfill_trixels_run dataset comps Hrooted Hcomps Hplain saved fs
              INGEST_MAX_DEPTH Hnames Hblobs Hothers Hne)
    as (tbd & fs' & Hrun & [Hin Hout] & _); [unfold INGEST_MIN_DEPTH, INGEST_MAX_DEPTH; lia |].
  exists tbd, fs'. split; [exact Hrun | split; [| exact Hout]].
  intros d Hd. destruct (Hin d Hd) as (l & Hl & Hnodup & Hmem).
  exists l. split; [exact Hl | split; [exact Hnodup | split; [exact Hmem |]]].
  intros T HT. apply Hmem in HT. destruct HT as (n & Hn & <-).
  apply (saved_ancestor saved INGEST_MAX_DEPTH Hnames d n Hn).
  unfold INGEST_MIN_DEPTH in Hd. lia.
Qed.

(** Under the same conditions [backfill_trixels] changes no directory and
    no blob of a saved name, and leaves the tree above [INGEST_MIN_DEPTH] = 10
    without blobs. *)
Theorem backfill_frame (dataset : Dataset) (saved : gset string)
    (fs : os.filesystem) :
  absolute_normal (processed_path dataset) = true ->
  saved <> ∅ ->
  (forall n, n ∈ saved ->
     is_trixel_name n = true /\ name_depth n = INGEST_MAX_DEPTH) ->
  (forall n, n ∈ saved -> os.path_isfile fs (trixel_file dataset n) = true) ->
  (forall n, is_trixel_name n = true -> n ∉ saved ->
     os.path_exists fs (trixel_file dataset n) = false) ->
  exists trixels_by_depth fs',
    backfill_trixels dataset saved fs = Ok (trixels_by_depth, fs')
    /\ os.dirs fs' = os.dirs fs
    /\ (forall n, n ∈ saved ->
          os.path_isfile fs' (trixel_file dataset n) = true
          /\ stored_rows dataset fs' n = stored_rows dataset fs n)
    /\ (forall n, is_trixel_name n = true -> name_depth n < INGEST_MIN_DEPTH ->
          os.path_exists fs' (trixel_file dataset n) = false).
Proof.
  intros Hnormal Hne Hnames Hblobs Hothers.
  destruct (absolute_normal_rooted _ Hnormal) as (comps & Hcomps & Hplain & Hrooted).
  destruct (backfill_trixels_run dataset comps Hrooted Hcomps Hplain saved fs
              INGEST_MAX_DEPTH Hnames Hblobs Hothers Hne)
    as (tbd & fs' & Hrun & _ & Hdirs & Hleaves & Habove & _);
    [unfold INGEST_MIN_DEPTH, INGEST_MAX_DEPTH; lia |].
  exists tbd, fs'. split; [exact Hrun | split; [exact Hdirs | split]].
  - intros n Hn.
    pose proof (saved_located dataset comps Hrooted Hcomps Hplain saved fs
                  INGEST_MAX_DEPTH Hnames Hblobs n Hn) as H0.
    pose proof (located_dirs dataset fs fs' n Hdirs H0) as H1.
    destruct (saved_has_blob dataset comps Hrooted Hcomps Hplain saved fs
                INGEST_MAX_DEPTH Hnames Hblobs n Hn) as [rows Hrows0].
    assert (Hrows1 : os.files fs' !! blob_key dataset n = Some rows)
      by (rewrite (Hleaves n Hn); exact Hrows0).
    split.
    + rewrite (located_isfile dataset fs' n H1), Hrows1.
      apply bool_decide_eq_true_2. eexists. reflexivity.
    + unfold stored_rows.
      rewrite (located_np_load dataset fs n rows H0 Hrows0),
        (located_np_load dataset fs' n rows H1 Hrows1). reflexivity.
  - intros n Hv Hd.
    assert (Hnot : n ∉ saved).
    { intros Hn. destruct (Hnames n Hn) as [_ HD].
      unfold INGEST_MIN_DEPTH, INGEST_MAX_DEPTH in *. lia. }
    rewrite (path_exists_frame fs fs' _ Hdirs); [exact (Hothers n Hv Hnot) |].
    intros cur Hres.
    destruct (trixel_file_rooted dataset comps Hrooted Hcomps Hplain n Hv)
      as [Hfile Hnorm].
    destruct (trixel_name_plain n Hv) as [_ Hsegs].
    rewrite Hfile, app_assoc in Hres.
    apply resolve_rooted in Hres;
      [| apply Forall_app; split; assumption | reflexivity].
    destruct Hres as [-> _].
    replace (os.entry ((comps ++ segments n) ++ ["data.npy"])) with (blob_key dataset n)
      by (unfold blob_key; rewrite Hnorm, Hfile, app_assoc; reflexivity).
    exact (Habove n Hv Hd).
Qed.

End backfill_results.

Lemma backfill_recorded_ancestors_witness :
  exists trixels_by_depth fs',
    ingest.backfill_trixels survey three_leaves leaves_only = Ok (trixels_by_depth, fs')
    /\ (forall d, constants.INGEST_MIN_DEPTH <= d <= constants.INGEST_MAX_DEPTH ->
          exists names,
            trixels_by_depth !! d = Some names
            /\ NoDup names
            /\ (forall T, T ∈ names <->
                  exists n, n ∈ three_leaves
                            /\ Nat.iter (Z.to_nat (constants.INGEST_MAX_DEPTH - d))
                                 ingest.parent_name n = T)
            /\ (forall T, T ∈ names ->
                  is_trixel_name T = true /\ ingest.name_depth T = d))
    /\ (forall d, d < constants.INGEST_MIN_DEPTH \/ constants.INGEST_MAX_DEPTH < d ->
          trixels_by_depth !! d = None).
Proof.
  destruct three_leaves_conditions as (H1 & H2 & H3 & H4).
  exact (backfill_recorded_ancestors survey three_leaves leaves_only H1 H2 H3 H4
           leaves_only_no_other_blob).
Defined.

Lemma backfill_frame_witness :
  exists trixels_by_depth fs',
    ingest.backfill_trixels survey three_leaves leaves_only = Ok (trixels_by_depth, fs')
    /\ os.dirs fs' = os.dirs leaves_only
    /\ (forall n, n ∈ three_leaves ->
          os.path_isfile fs' (ingest.trixel_file survey n) = true
          /\ stored_rows survey fs' n = stored_rows survey leaves_only n)
    /\ (forall n, is_trixel_name n = true ->
          ingest.name_depth n < constants.INGEST_MIN_DEPTH ->
          os.path_exists fs' (ingest.trixel_file survey n) = false).
Proof.
  destruct three_leaves_conditions as (H1 & H2 & H3 & H4).
  exact (backfill_frame survey three_leaves leaves_only H1 H2 H3 H4
           leaves_only_no_other_blob).
Defined.

(** ** The extent of a dataset (ingest.py) *)

Section dataset_extent.

Import ingest.

Variable parse_layer_lines : string -> result (list line).

Definition line_x (l : line) : Z := let '(x, y, z, u, v, w) := l in x.
Definition line_y (l : line) : Z := let '(x, y, z, u, v, w) := l in y.
Definition line_z (l : line) : Z := let '(x, y, z, u, v, w) := l in z.

Lemma fold_min_le (l : list Z) (a : Z) :
  fold_left Z.min l a <= a /\ Forall (fun x => fold_left Z.min l a <= x) l
  /\ (fold_left Z.min l a = a \/ fold_left Z.min l a ∈ l).
Proof.
  revert a. induction l as [| x l IH]; intros a; simpl.
  - split; [lia | split; [constructor | left; reflexivity]].
  - destruct (IH (Z.min a x)) as (Hle & Hall & Hin).
    split; [lia | split; [constructor; [lia | exact Hall] |]].
    destruct Hin as [Hin | Hin]; [| right; right; exact Hin].
    rewrite Hin.
    destruct (Z.min_spec a x) as [[_ E] | [_ E]]; rewrite E.
    + left. reflexivity.
    + right. left.
Qed.

Lemma fold_max_ge (l : list Z) (a : Z) :
  a <= fold_left Z.max l a /\ Forall (fun x => x <= fold_left Z.max l a) l
  /\ (fold_left Z.max l a = a \/ fold_left Z.max l a ∈ l).
Proof.
  revert a. induction l as [| x l IH]; intros a; simpl.
  - split; [lia | split; [constructor | left; reflexivity]].
  - destruct (IH (Z.max a x)) as (Hle & Hall & Hin).
    split; [lia | split; [constructor; [lia | exact Hall] |]].
    destruct Hin as [Hin | Hin]; [| right; right; exact Hin].
    rewrite Hin.
    destruct (Z.max_spec a x) as [[_ E] | [_ E]]; rewrite E.
    + right. left.
    + left. reflexivity.
Qed.

Lemma py_min_list_spec (l : list Z) :
  l <> [] ->
  exists m, py_min_list l = Ok m /\ m ∈ l /\ Forall (fun x => m <= x) l.
Proof.
  destruct l as [| a l]; [congruence |]. intros _.
  destruct (fold_min_le l a) as (Hle & Hall & Hin).
  exists (fold_left Z.min l a). split; [reflexivity |]. split.
  - destruct Hin as [-> | Hin]; [left | right; exact Hin].
  - constructor; assumption.
Qed.

Lemma py_max_list_spec (l : list Z) :
  l <> [] ->
  exists m, py_max_list l = Ok m /\ m ∈ l /\ Forall (fun x => x <= m) l.
Proof.
  destruct l as [| a l]; [congruence |]. intros _.
  destruct (fold_max_ge l a) as (Hle & Hall & Hin).
  exists (fold_left Z.max l a). split; [reflexivity |]. split.
  - destruct Hin as [-> | Hin]; [left | right; exact Hin].
  - constructor; assumption.
Qed.

Lemma line_projections (lines : list line) :
  map (fun '(x, y, z, u, v, w) => x) lines = map line_x lines
  /\ map (fun '(x, y, z, u, v, w) => y) lines = map line_y lines
  /\ map (fun '(x, y, z, u, v, w) => z) lines = map line_z lines.
Proof.
  repeat split; apply map_ext; intros [[[[[x y] z] u] v] w]; reflexivity.
Qed.

(** What [get_layer_min_max_xy] answers for the lines of a layer. *)
Lemma get_layer_min_max_xy_lines (layer_path : string) (lines : list line) :
  parse_layer_lines layer_path = Ok lines ->
  (lines = [] ->
   get_layer_min_max_xy parse_layer_lines layer_path =
     Raise (ValueError "min() arg is an empty sequence"))
  /\ ((exists a b, a ∈ lines /\ b ∈ lines /\ line_z a <> line_z b) ->
      get_layer_min_max_xy parse_layer_lines layer_path =
        Raise (AssertionError "z_min != z_max, this is not a 2D slice"))
  /\ (lines <> [] ->
      (forall a b, a ∈ lines -> b ∈ lines -> line_z a = line_z b) ->
      exists min_x max_x min_y max_y,
        get_layer_min_max_xy parse_layer_lines layer_path =
          Ok (min_x, max_x, min_y, max_y)
        /\ min_x ∈ map line_x lines /\ max_x ∈ map line_x lines
        /\ min_y ∈ map line_y lines /\ max_y ∈ map line_y lines
        /\ Forall (fun l => min_x <= line_x l <= max_x
                            /\ min_y <= line_y l <= max_y) lines).
Proof.
  intros Hparse. unfold get_layer_min_max_xy. rewrite Hparse.
  change (Ok lines ≫= ?f) with (f lines). cbv beta.
  destruct (line_projections lines) as (-> & -> & ->).
  split; [intros ->; reflexivity |].
  assert (Hrun : lines <> [] ->
    exists min_x max_x min_y max_y min_z max_z,
      py_min_list (map line_x lines) = Ok min_x
      /\ py_max_list (map line_x lines) = Ok max_x
      /\ py_min_list (map line_y lines) = Ok min_y
      /\ py_max_list (map line_y lines) = Ok max_y
      /\ py_min_list (map line_z lines) = Ok min_z
      /\ py_max_list (map line_z lines) = Ok max_z
      /\ (min_x ∈ map line_x lines /\ max_x ∈ map line_x lines
          /\ min_y ∈ map line_y lines /\ max_y ∈ map line_y lines)
      /\ Forall (fun l => min_x <= line_x l <= max_x
                          /\ min_y <= line_y l <= max_y
                          /\ min_z <= line_z l <= max_z) lines
      /\ min_z ∈ map line_z lines /\ max_z ∈ map line_z lines).
  { intros Hne.
    assert (Hmap : forall f : line -> Z, map f lines <> []).
    { intros f E. apply map_eq_nil in E. contradiction. }
    destruct (py_min_list_spec _ (Hmap line_x)) as (min_x & E1 & I1 & A1).
    destruct (py_max_list_spec _ (Hmap line_x)) as (max_x & E2 & I2 & A2).
    destruct (py_min_list_spec _ (Hmap line_y)) as (min_y & E3 & I3 & A3).
    destruct (py_max_list_spec _ (Hmap line_y)) as (max_y & E4 & I4 & A4).
    destruct (py_min_list_spec _ (Hmap line_z)) as (min_z & E5 & I5 & A5).
    destruct (py_max_list_spec _ (Hmap line_z)) as (max_z & E6 & I6 & A6).
    exists min_x, max_x, min_y, max_y, min_z, max_z.
    repeat (split; [assumption |]).
    split; [repeat split; assumption |].
    split; [| split; assumption].
    rewrite Forall_map in A1, A2, A3, A4, A5, A6.
    rewrite Forall_forall in *. intros l Hl.
    specialize (A1 l Hl). specialize (A2 l Hl). specialize (A3 l Hl).
    specialize (A4 l Hl). specialize (A5 l Hl). specialize (A6 l Hl).
    simpl in *. lia. }
  split.
  - intros (a & b & Ha & Hb & Hz).
    destruct Hrun as (min_x & max_x & min_y & max_y & min_z & max_z
                      & -> & -> & -> & -> & -> & -> & _ & Hall & _).
    { intros ->. inversion Ha. }
    simpl. rewrite Forall_forall in Hall.
    pose proof (Hall a Ha). pose proof (Hall b Hb).
    destruct (min_z =? max_z) eqn:E; [apply Z.eqb_eq in E; lia | reflexivity].
  - intros Hne Hflat.
    destruct (Hrun Hne) as (min_x & max_x & min_y & max_y & min_z & max_z
                            & -> & -> & -> & -> & -> & -> & Hin & Hall & Hz1 & Hz2).
    simpl.
    apply list_elem_of_fmap in Hz1, Hz2.
    destruct Hz1 as (a & -> & Ha). destruct Hz2 as (b & -> & Hb).
    rewrite (Hflat a b Ha Hb), Z.eqb_refl. simpl.
    exists min_x, max_x, min_y, max_y. split; [reflexivity |].
    destruct Hin as (? & ? & ? & ?). repeat (split; [assumption |]).
    eapply Forall_impl; [exact Hall |]. simpl. intros l. lia.
Qed.

(** The loop of [get_dataset_min_max_xy] over the layers. *)
Lemma get_dataset_min_max_xy_loop (layers : list string) :
  forall (acc res : Z * Z * Z * Z),
    for_each
      (fun '(min_x, max_x, min_y, max_y) layer_path =>
         '(layer_min_x, layer_max_x, layer_min_y, layer_max_y) ←
           get_layer_min_max_xy parse_layer_lines layer_path;
         Ok (Z.min min_x layer_min_x, Z.max max_x layer_max_x,
             Z.min min_y layer_min_y, Z.max max_y layer_max_y))
      layers acc = Ok res ->
    let '(min_x0, max_x0, min_y0, max_y0) := acc in
    let '(min_x, max_x, min_y, max_y) := res in
    (min_x <= min_x0 /\ max_x0 <= max_x /\ min_y <= min_y0 /\ max_y0 <= max_y)
    /\ forall layer_path, layer_path ∈ layers ->
         exists lines,
           parse_layer_lines layer_path = Ok lines
           /\ lines <> []
           /\ (forall a b, a ∈ lines -> b ∈ lines -> line_z a = line_z b)
           /\ Forall (fun l => min_x <= line_x l <= max_x
                               /\ min_y <= line_y l <= max_y) lines.
Proof.
  induction layers as [| layer_path layers IH];
    intros [[[min_x0 max_x0] min_y0] max_y0] [[[min_x max_x] min_y] max_y] Hrun.
  - simpl in Hrun. injection Hrun as <- <- <- <-.
    split; [lia | intros p Hp; inversion Hp].
  - rewrite for_each_cons in Hrun.
    destruct (get_layer_min_max_xy parse_layer_lines layer_path)
      as [[[[lmin_x lmax_x] lmin_y] lmax_y] |] eqn:Hlayer; [| discriminate].
    change (Ok ?a ≫= ?f) with (f a) in Hrun. cbv beta iota in Hrun.
    simpl in Hrun.
    specialize (IH _ _ Hrun). simpl in IH. destruct IH as [Hmono Hrest].
    split; [lia |].
    intros p Hp. apply elem_of_cons in Hp. destruct Hp as [-> | Hp];
      [| apply Hrest, Hp].
    destruct (parse_layer_lines layer_path) as [lines |] eqn:Hparse.
    + destruct (get_layer_min_max_xy_lines layer_path lines Hparse)
        as (Hempty & Hsteep & Hflat).
      exists lines. split; [reflexivity |].
      assert (Hne : lines <> []).
      { intros E. rewrite (Hempty E) in Hlayer. discriminate. }
      assert (Hz : forall a b, a ∈ lines -> b ∈ lines -> line_z a = line_z b).
      { intros a b Ha Hb. destruct (Z.eq_dec (line_z a) (line_z b)) as [E | E];
          [exact E |].
        rewrite Hsteep in Hlayer by (exists a, b; repeat split; assumption).
        discriminate. }
      split; [exact Hne | split; [exact Hz |]].
      destruct (Hflat Hne Hz) as (a1 & a2 & a3 & a4 & Hok & _ & _ & _ & _ & Hall).
      rewrite Hlayer in Hok. injection Hok as <- <- <- <-.
      eapply Forall_impl; [exact Hall |]. simpl. intros l. lia.
    + unfold get_layer_min_max_xy in Hlayer. rewrite Hparse in Hlayer.
      discriminate.
Qed.

(** [get_layer_min_max_xy] raises ValueError on a layer without lines and
    AssertionError on a layer whose lines lie at more than one altitude;
    otherwise it returns the least and greatest x and y of the lines.  When
    [get_dataset_min_max_xy] returns, every layer of the dataset was read,
    has lines, all at one altitude, and every line of it lies in the
    rectangle returned; for a dataset without layers that "rectangle" is
    [sys.maxsize], [-sys.maxsize] in both directions. *)
Theorem get_dataset_min_max_xy_extent (dataset : Dataset) :
  (forall layer_path lines,
     parse_layer_lines layer_path = Ok lines ->
     (lines = [] ->
      get_layer_min_max_xy parse_layer_lines layer_path =
        Raise (ValueError "min() arg is an empty sequence"))
     /\ ((exists a b, a ∈ lines /\ b ∈ lines /\ line_z a <> line_z b) ->
         get_layer_min_max_xy parse_layer_lines layer_path =
           Raise (AssertionError "z_min != z_max, this is not a 2D slice"))
     /\ (lines <> [] ->
         (forall a b, a ∈ lines -> b ∈ lines -> line_z a = line_z b) ->
         exists min_x max_x min_y max_y,
           get_layer_min_max_xy parse_layer_lines layer_path =
             Ok (min_x, max_x, min_y, max_y)
           /\ min_x ∈ map line_x lines /\ max_x ∈ map line_x lines
           /\ min_y ∈ map line_y lines /\ max_y ∈ map line_y lines
           /\ Forall (fun l => min_x <= line_x l <= max_x
                               /\ min_y <= line_y l <= max_y) lines))
  /\ (forall min_x max_x min_y max_y,
        get_dataset_min_max_xy parse_layer_lines dataset =
          Ok (min_x, max_x, min_y, max_y) ->
        forall layer_path, layer_path ∈ layers dataset ->
          exists lines,
            parse_layer_lines layer_path = Ok lines
            /\ lines <> []
            /\ (forall a b, a ∈ lines -> b ∈ lines -> line_z a = line_z b)
            /\ Forall (fun l => min_x <= line_x l <= max_x
                                /\ min_y <= line_y l <= max_y) lines)
  /\ (layers dataset = [] ->
      get_dataset_min_max_xy parse_layer_lines dataset =
        Ok (sys_maxsize, - sys_maxsize, sys_maxsize, - sys_maxsize)).
Proof.
  split; [exact get_layer_min_max_xy_lines | split].
  - intros min_x max_x min_y max_y Hrun.
    apply (get_dataset_min_max_xy_loop (layers dataset) _ _ Hrun).
  - intros Hnone. unfold get_dataset_min_max_xy. rewrite Hnone. reflexivity.
Qed.

End dataset_extent.

(** The one layer of the dataset [survey]: two points at altitude 10. *)
Definition sample_lines (layer_path : string) : result (list ingest.line) :=
  if String.eqb layer_path "/data/unprocessed/survey/layer.xy"
  then Ok [ (0, 0, 10, 1%float, 0%float, 0%float);
            (3, 1, 10, 0%float, 1%float, 0%float) ]
  else Raise (FileNotFoundError layer_path).

Lemma get_dataset_min_max_xy_extent_witness :
  ingest.get_dataset_min_max_xy sample_lines survey = Ok (0, 3, 0, 1)
  /\ forall layer_path, layer_path ∈ ingest.layers survey ->
       exists lines,
         sample_lines layer_path = Ok lines
         /\ lines <> []
         /\ (forall a b, a ∈ lines -> b ∈ lines -> line_z a = line_z b)
         /\ Forall (fun l => 0 <= line_x l <= 3 /\ 0 <= line_y l <= 1) lines.
Proof.
  split; [reflexivity |].
  apply (proj1 (proj2 (get_dataset_min_max_xy_extent sample_lines survey)) 0 3 0 1).
  reflexivity.
Defined.

(** ** Building the grid-to-trixel matrix (ingest.py) *)

(** An invariant of a loop that speaks of the elements gone through. *)
Lemma for_each_prefix {A S} (P : list A -> S -> Prop) (body : S -> A -> result S)
    (xs : list A) :
  (forall pre x post s s',
     xs = pre ++ x :: post -> P pre s -> body s x = Ok s' -> P (pre ++ [x]) s') ->
  forall s s', P [] s -> for_each body xs s = Ok s' -> P xs s'.
Proof.
  intros Hstep.
  assert (Hgen : forall post pre s s',
            xs = pre ++ post -> P pre s -> for_each body post s = Ok s' -> P xs s').
  { induction post as [| x post IH]; intros pre s s' Hxs Hpre Hrun.
    - simpl in Hrun. injection Hrun as <-. rewrite Hxs, app_nil_r. exact Hpre.
    - rewrite for_each_cons in Hrun.
      destruct (body s x) as [s1 |] eqn:Hbody; [| discriminate].
      apply (IH (pre ++ [x]) s1 s').
      + rewrite <- app_assoc. exact Hxs.
      + apply (Hstep pre x post s s1 Hxs Hpre Hbody).
      + exact Hrun. }
  intros s s' Hs Hrun. apply (Hgen xs [] s s' eq_refl Hs Hrun).
Qed.

Lemma elem_of_py_range (a b v : Z) : v ∈ py_range a b <-> a <= v < b.
Proof.
  unfold py_range. rewrite list_elem_of_In, in_map_iff. split.
  - intros (i & <- & Hi). apply in_seq in Hi. lia.
  - intros Hv. exists (Z.to_nat (v - a)). split; [lia |]. apply in_seq. lia.
Qed.

Lemma NoDup_py_range (a b : Z) : NoDup (py_range a b).
Proof.
  unfold py_range. change (map ?f ?l) with (f <$> l).
  apply NoDup_fmap_2; [intros i j Hij; lia | apply NoDup_seq].
Qed.

Lemma length_py_range (a b : Z) : length (py_range a b) = Z.to_nat (b - a).
Proof. unfold py_range. rewrite length_map, length_seq. reflexivity. Qed.

Lemma lookup_py_range (a b : Z) (j : nat) :
  (j < Z.to_nat (b - a))%nat -> py_range a b !! j = Some (a + Z.of_nat j).
Proof.
  intros Hj. unfold py_range.
  change (map ?f ?l) with (f <$> l). rewrite list_lookup_fmap, lookup_seq_lt by exact Hj.
  reflexivity.
Qed.

Lemma filter_all {A} (P : A -> Prop) `{forall x, Decision (P x)} (l : list A) :
  (forall x, x ∈ l -> P x) -> filter P l = l.
Proof.
  induction l as [| x l IH]; intros Hall; [reflexivity |].
  rewrite filter_cons_True by (apply Hall; left).
  f_equal. apply IH. intros y Hy. apply Hall. right. exact Hy.
Qed.

Section cell_rows.

Variables min_x min_y max_x max_y : Z.

Lemma elem_of_cells (y x : Z) :
  (y, x) ∈ ingest.cells min_x min_y max_x max_y <->
  min_y <= y <= max_y /\ min_x <= x <= max_x.
Proof.
  unfold ingest.cells. rewrite list_elem_of_In, in_flat_map. split.
  - intros (y' & Hy & Hin). apply in_map_iff in Hin. destruct Hin as (x' & E & Hx).
    injection E as -> ->.
    apply list_elem_of_In, elem_of_py_range in Hy, Hx. lia.
  - intros [Hy Hx]. exists y. split.
    + apply list_elem_of_In, elem_of_py_range. lia.
    + apply in_map_iff. exists x. split; [reflexivity |].
      apply list_elem_of_In, elem_of_py_range. lia.
Qed.

(** The cells of one row, in the order the loop meets them. *)
Lemma cells_row (y : Z) :
  min_y <= y <= max_y ->
  filter (fun c : Z * Z => fst c = y) (ingest.cells min_x min_y max_x max_y)
  = map (fun x => (y, x)) (py_range min_x (max_x + 1)).
Proof.
  intros Hy. unfold ingest.cells.
  assert (Hin : y ∈ py_range min_y (max_y + 1)) by (apply elem_of_py_range; lia).
  pose proof (NoDup_py_range min_y (max_y + 1)) as Hnodup.
  induction Hnodup as [| y' ys Hnotin Hnodup IH]; [inversion Hin |].
  simpl. rewrite filter_app.
  destruct (decide (y' = y)) as [-> | Hne].
  - replace (filter (fun c : Z * Z => fst c = y)
               (flat_map (fun y0 => map (fun x => (y0, x)) (py_range min_x (max_x + 1))) ys))
      with (@nil (Z * Z)).
    + rewrite app_nil_r. apply filter_all.
      intros c Hc. apply list_elem_of_In, in_map_iff in Hc.
      destruct Hc as (x & <- & _). reflexivity.
    + symmetry. apply filter_none. intros c Hc Hfst.
      apply list_elem_of_In, in_flat_map in Hc. destruct Hc as (y0 & Hy0 & Hc).
      apply in_map_iff in Hc. destruct Hc as (x & <- & _). simpl in Hfst. subst y0.
      apply Hnotin, list_elem_of_In, Hy0.
  - rewrite IH by (apply elem_of_cons in Hin; destruct Hin; [congruence | assumption]).
    replace (filter (fun c : Z * Z => fst c = y)
               (map (fun x => (y', x)) (py_range min_x (max_x + 1))))
      with (@nil (Z * Z)); [reflexivity |].
    symmetry. apply filter_none. intros c Hc Hfst.
    apply list_elem_of_In, in_map_iff in Hc. destruct Hc as (x & <- & _).
    simpl in Hfst. congruence.
Qed.

End cell_rows.

Section mapping_built.

Import ingest constants.

Context {M : MathLib}.

Variable to_latlon : Z -> Z -> Z -> string -> result (float * float).
Variable dataset : Dataset.

(** The name at a cell locates it: the position [utm.to_latlon] gives for
    the cell passed the containment test of a trixel of that name, reached
    by subdivision, at depth [INGEST_MAX_DEPTH]. *)
Definition cell_located (utm_center_x utm_center_y : Z) (cell : Z * Z)
    (n : string) : Prop :=
  exists lat lon t,
    to_latlon (utm_center_x + snd cell) (utm_center_y + fst cell)
      (utm_zone dataset) (utm_hemisphere dataset) = Ok (lat, lon)
    /\ htm.name t = n
    /\ reachable t
    /\ htm.depth t = INGEST_MAX_DEPTH
    /\ (let '(px, py, pz) := htm.lat_lon_to_xyz lat lon in
        htm.contains t px py pz = true).

Variables min_x min_y max_x max_y : Z.
Variables utm_center_x utm_center_y : Z.

(** What the loop keeps, with the cells [pre] gone through: each row of the
    matrix holds the names of the cells of [pre] in that row, in order, and
    the trixel kept from the cell before is one of depth [INGEST_MAX_DEPTH]. *)
Definition rows_filled (pre : list (Z * Z))
    (acc : list (list string) * option htm.Trixel * Z) : Prop :=
  let '(mapping, prev_trixel, _) := acc in
  length mapping = Z.to_nat (max_y - min_y + 1)
  /\ (forall (i : nat) (row : list string),
        mapping !! i = Some row ->
        Forall2 (cell_located utm_center_x utm_center_y)
          (filter (fun c : Z * Z => fst c = min_y + Z.of_nat i) pre) row)
  /\ (forall p, prev_trixel = Some p ->
        reachable p /\ htm.depth p = INGEST_MAX_DEPTH).

Lemma py_append_at_row {A} (xss : list (list A)) (i : Z) (x : A) :
  0 <= i < Z.of_nat (length xss) ->
  exists row, xss !! Z.to_nat i = Some row
              /\ py_append_at xss i x = Ok (<[Z.to_nat i := row ++ [x]]> xss).
Proof.
  intros Hi. destruct (lookup_in_range xss i Hi) as [row Hrow].
  exists row. split; [exact Hrow |]. unfold py_append_at.
  rewrite (py_getitem_nonneg xss i row ltac:(lia) Hrow).
  change (Ok ?a ≫= ?f) with (f a). cbv beta.
  destruct (i <? 0) eqn:E; [apply Z.ltb_lt in E; lia | reflexivity].
Qed.

Lemma rows_filled_append (pre : list (Z * Z)) (mapping : list (list string))
    (prev prev' : option htm.Trixel) (hits hits' : Z) (y x : Z) (n : string) :
  min_y <= y <= max_y ->
  rows_filled pre (mapping, prev, hits) ->
  cell_located utm_center_x utm_center_y (y, x) n ->
  (forall p, prev' = Some p -> reachable p /\ htm.depth p = INGEST_MAX_DEPTH) ->
  exists mapping',
    py_append_at mapping (y - min_y) n = Ok mapping'
    /\ rows_filled (pre ++ [(y, x)]) (mapping', prev', hits').
Proof.
  intros Hy (Hlen & Hrows & _) Hcell Hprev'.
  destruct (py_append_at_row mapping (y - min_y) n) as (row & Hrow & Happend);
    [rewrite Hlen; lia |].
  eexists. split; [exact Happend |].
  split; [rewrite length_insert; exact Hlen | split; [| exact Hprev']].
  intros i row' Hrow'. rewrite filter_app.
  destruct (decide (i = Z.to_nat (y - min_y))) as [-> | Hne].
  - rewrite list_lookup_insert_eq in Hrow' by (apply lookup_lt_Some in Hrow; exact Hrow).
    injection Hrow' as <-.
    rewrite (filter_singleton_True _ _ []) by (simpl; lia).
    apply Forall2_app; [apply Hrows, Hrow | constructor; [exact Hcell | constructor]].
  - rewrite list_lookup_insert_ne in Hrow' by congruence.
    rewrite (filter_singleton_False _ _ []) by (simpl; lia).
    rewrite app_nil_r. apply Hrows, Hrow'.
Qed.

Lemma build_cell_keeps (pre post : list (Z * Z)) (cell : Z * Z)
    (acc acc' : list (list string) * option htm.Trixel * Z) :
  cells min_x min_y max_x max_y = pre ++ cell :: post ->
  rows_filled pre acc ->
  build_cell to_latlon dataset utm_center_x utm_center_y min_y acc cell = Ok acc' ->
  rows_filled (pre ++ [cell]) acc'.
Proof.
  intros Hcells Hacc Hstep. destruct cell as [y x].
  assert (Hy : min_y <= y <= max_y).
  { assert (Hin : (y, x) ∈ cells min_x min_y max_x max_y).
    { rewrite Hcells. apply elem_of_app. right. left. }
    apply elem_of_cells in Hin. lia. }
  destruct acc as [[mapping prev] hits]. unfold build_cell in Hstep.
  destruct (to_latlon _ _ _ _) as [[lat lon] |] eqn:Hpos; [| discriminate].
  change (Ok ?a ≫= ?f) with (f a) in Hstep. cbv beta iota in Hstep.
  destruct Hacc as (Hlen & Hrows & Hprev).
  destruct (htm.lat_lon_to_xyz lat lon) as [[px py] pz] eqn:Hxyz.
  destruct (match prev with
            | Some prev0 => if htm.contains prev0 px py pz then Some prev0 else None
            | None => None
            end) as [p |] eqn:Hcached.
  - assert (Hp : prev = Some p /\ htm.contains p px py pz = true).
    { destruct prev as [p0 |]; [| discriminate].
      destruct (htm.contains p0 px py pz) eqn:E; [| discriminate].
      injection Hcached as <-. split; [reflexivity | exact E]. }
    destruct Hp as [-> Hcontains]. destruct (Hprev p eq_refl) as [Hreach Hdepth].
    destruct (rows_filled_append pre mapping (Some p) (Some p) hits (hits + 1) y x
                (htm.name p) Hy (conj Hlen (conj Hrows Hprev)))
      as (mapping' & Happend & Hfilled).
    + exists lat, lon, p. cbn [fst snd]. rewrite Hxyz.
      repeat split; assumption.
    + exact Hprev.
    + rewrite Happend in Hstep. injection Hstep as <-. exact Hfilled.
  - destruct (htm.find_trixel_from_lat_lon lat lon INGEST_MAX_DEPTH) as [t |] eqn:Hfind;
      [| discriminate].
    change (Ok ?a ≫= ?f) with (f a) in Hstep. cbv beta in Hstep.
    unfold htm.find_trixel_from_lat_lon in Hfind. rewrite Hxyz in Hfind.
    destruct (find_trixel_from_xyz_found px py pz INGEST_MAX_DEPTH t Hfind)
      as (Hreach & Hdepth & Hcontains).
    destruct (rows_filled_append pre mapping prev (Some t) hits hits y x
                (htm.name t) Hy (conj Hlen (conj Hrows Hprev)))
      as (mapping' & Happend & Hfilled).
    + exists lat, lon, t. cbn [fst snd]. rewrite Hxyz.
      repeat split; try assumption. apply Hcontains. unfold INGEST_MAX_DEPTH. lia.
    + intros p Hp. injection Hp as <-. split; assumption.
    + rewrite Happend in Hstep. injection Hstep as <-. exact Hfilled.
Qed.

Lemma rows_filled_start :
  rows_filled [] (repeat [] (Z.to_nat (max_y - min_y + 1)), None, 0).
Proof.
  split; [apply repeat_length | split; [| discriminate]].
  intros i row Hrow.
  assert (Hin : In row (repeat [] (Z.to_nat (max_y - min_y + 1)))).
  { apply list_elem_of_In, list_elem_of_lookup. exists i. exact Hrow. }
  apply repeat_spec in Hin. subst row. constructor.
Qed.

Lemma build_loop_filled (acc : list (list string) * option htm.Trixel * Z) :
  for_each (build_cell to_latlon dataset utm_center_x utm_center_y min_y)
    (cells min_x min_y max_x max_y)
    (repeat [] (Z.to_nat (max_y - min_y + 1)), None, 0) = Ok acc ->
  rows_filled (cells min_x min_y max_x max_y) acc.
Proof.
  apply (for_each_prefix rows_filled); [| exact rows_filled_start].
  intros pre cell post s s' Hcells Hs Hstep.
  exact (build_cell_keeps pre post cell s s' Hcells Hs Hstep).
Qed.

(** The matrix the loop leaves is rectangular, and the name at each cell
    locates the cell. *)
Lemma mapping_of_rows (mapping : list (list string)) (prev : option htm.Trixel)
    (hits : Z) :
  min_x <= max_x + 1 -> min_y <= max_y + 1 ->
  rows_filled (cells min_x min_y max_x max_y) (mapping, prev, hits) ->
  rectangular (mkMapping min_x min_y max_x max_y mapping)
  /\ forall x y,
       min_x <= x <= max_x -> min_y <= y <= max_y ->
       exists n,
         stored_name (mkMapping min_x min_y max_x max_y mapping) x y = Some n
         /\ cell_located utm_center_x utm_center_y (y, x) n.
Proof.
  intros Hwide Hhigh (Hlen & Hrows & _).
  assert (Hrow : forall (i : nat) row,
            mapping !! i = Some row ->
            Forall2 (cell_located utm_center_x utm_center_y)
              (map (fun x => (min_y + Z.of_nat i, x)) (py_range min_x (max_x + 1)))
              row).
  { intros i row Hi. pose proof (lookup_lt_Some _ _ _ Hi) as Hlt.
    rewrite <- (cells_row min_x min_y max_x max_y) by lia.
    apply Hrows, Hi. }
  split.
  - split; simpl.
    + unfold height. simpl. lia.
    + apply Forall_forall. intros row Hin.
      apply list_elem_of_lookup in Hin. destruct Hin as [i Hi].
      pose proof (Forall2_length _ _ _ (Hrow i row Hi)) as Hsame.
      rewrite length_map, length_py_range in Hsame.
      unfold width. simpl. lia.
  - intros x y Hx Hy.
    destruct (lookup_in_range mapping (y - min_y)) as [row Hi]; [lia |].
    pose proof (Hrow _ row Hi) as Hcells.
    replace (min_y + Z.of_nat (Z.to_nat (y - min_y))) with y in Hcells by lia.
    assert (Hcell : map (fun x0 => (y, x0)) (py_range min_x (max_x + 1))
                      !! Z.to_nat (x - min_x) = Some (y, x)).
    { change (map ?f ?l) with (f <$> l).
      rewrite list_lookup_fmap, lookup_py_range by lia.
      simpl. do 2 f_equal. lia. }
    destruct (Forall2_lookup_l _ _ _ _ _ Hcells Hcell) as (n & Hn & Hlocated).
    exists n. split; [| exact Hlocated].
    unfold stored_name. simpl.
    replace (min_x <=? x) with true by (symmetry; apply Z.leb_le; lia).
    replace (x <=? max_x) with true by (symmetry; apply Z.leb_le; lia).
    replace (min_y <=? y) with true by (symmetry; apply Z.leb_le; lia).
    replace (y <=? max_y) with true by (symmetry; apply Z.leb_le; lia).
    simpl. rewrite Hi. simpl. exact Hn.
Qed.

End mapping_built.

Section mapping_theorem.

Import ingest constants.

Context {M : MathLib}.

Lemma cell_located_name (to_latlon : Z -> Z -> Z -> string -> result (float * float))
    (dataset : Dataset) (cx cy : Z) (cell : Z * Z) (n : string) :
  cell_located to_latlon dataset cx cy cell n ->
  is_trixel_name n = true /\ name_depth n = INGEST_MAX_DEPTH.
Proof.
  intros (lat & lon & t & _ & <- & Hreach & Hdepth & _).
  split; [apply reachable_trixel_name, Hreach |].
  unfold name_depth. rewrite count_split. exact Hdepth.
Qed.

(** What [build_utm_to_htm_mapping] returns for bounds that are not
    inverted. *)
Lemma build_utm_to_htm_mapping_built
    (to_latlon : Z -> Z -> Z -> string -> result (float * float))
    (dataset : Dataset) (min_x min_y max_x max_y : Z) (m : Mapping) :
  min_x <= max_x + 1 -> min_y <= max_y + 1 ->
  build_utm_to_htm_mapping to_latlon dataset min_x min_y max_x max_y = Ok m ->
  (ingest.min_x m = min_x /\ ingest.min_y m = min_y
   /\ ingest.max_x m = max_x /\ ingest.max_y m = max_y)
  /\ rectangular m
  /\ exists utm_center_x utm_center_y,
       utm_center (utm_corner_min_x dataset) (utm_corner_max_x dataset)
         = Ok utm_center_x
       /\ utm_center (utm_corner_min_y dataset) (utm_corner_max_y dataset)
         = Ok utm_center_y
       /\ forall x y,
            min_x <= x <= max_x -> min_y <= y <= max_y ->
            exists n,
              stored_name m x y = Some n
              /\ is_trixel_name n = true
              /\ name_depth n = INGEST_MAX_DEPTH
              /\ cell_located to_latlon dataset utm_center_x utm_center_y (y, x) n.
Proof.
  intros Hwide Hhigh Hrun. unfold build_utm_to_htm_mapping in Hrun.
  destruct (utm_center (utm_corner_min_x dataset) (utm_corner_max_x dataset))
    as [cx |]; [| discriminate].
  destruct (utm_center (utm_corner_min_y dataset) (utm_corner_max_y dataset))
    as [cy |]; [| discriminate].
  change (Ok ?a ≫= ?f) with (f a) in Hrun. cbv beta zeta in Hrun.
  change (Ok ?a ≫= ?f) with (f a) in Hrun. cbv beta zeta in Hrun.
  destruct (for_each _ (cells min_x min_y max_x max_y) _)
    as [[[mapping prev] hits] |] eqn:Hloop; [| discriminate].
  change (Ok ?a ≫= ?f) with (f a) in Hrun. cbv beta iota in Hrun.
  injection Hrun as <-.
  apply build_loop_filled in Hloop.
  destruct (mapping_of_rows to_latlon dataset min_x min_y max_x max_y cx cy
              mapping prev hits Hwide Hhigh Hloop) as [Hrect Hcells].
  split; [repeat split |]. split; [exact Hrect |].
  exists cx, cy. split; [reflexivity | split; [reflexivity |]].
  intros x y Hx Hy. destruct (Hcells x y Hx Hy) as (n & Hn & Hlocated).
  exists n. split; [exact Hn |].
  destruct (cell_located_name _ _ _ _ _ _ Hlocated) as [Hv Hd].
  repeat split; assumption.
Qed.

(** With bounds that are not inverted, the matrix [build_utm_to_htm_mapping]
    returns is rectangular over them, one row for each y and one name in it
    for each x, and the name stored for a cell is a name of the grammar, of
    depth [INGEST_MAX_DEPTH] = 20, of a trixel that passed the containment
    test for the position [utm.to_latlon] gives for the cell, whether the
    trixel was found by descent or kept from the cell before. *)
Theorem build_utm_to_htm_mapping_cells
    (to_latlon : Z -> Z -> Z -> string -> result (float * float))
    (dataset : Dataset) (min_x min_y max_x max_y : Z) (m : Mapping) :
  min_x <= max_x + 1 -> min_y <= max_y + 1 ->
  build_utm_to_htm_mapping to_latlon dataset min_x min_y max_x max_y = Ok m ->
  (ingest.min_x m = min_x /\ ingest.min_y m = min_y
   /\ ingest.max_x m = max_x /\ ingest.max_y m = max_y)
  /\ rectangular m
  /\ exists utm_center_x utm_center_y,
       utm_center (utm_corner_min_x dataset) (utm_corner_max_x dataset)
         = Ok utm_center_x
       /\ utm_center (utm_corner_min_y dataset) (utm_corner_max_y dataset)
         = Ok utm_center_y
       /\ forall x y,
            min_x <= x <= max_x -> min_y <= y <= max_y ->
            exists n,
              stored_name m x y = Some n
              /\ is_trixel_name n = true
              /\ name_depth n = INGEST_MAX_DEPTH
              /\ cell_located to_latlon dataset utm_center_x utm_center_y (y, x) n.
Proof.
  apply build_utm_to_htm_mapping_built.
Qed.

End mapping_theorem.

(** A stand-in for [utm.to_latlon]: some ten metres of latitude and of
    longitude to the unit, around latitude 35, longitude 45. *)
Definition float_of_Z (z : Z) : float :=
  SF2Prim (binary_normalize prec emax z 0 false).

Definition sample_to_latlon (easting northing zone : Z) (letter : string)
  : result (float * float) :=
  Ok (35 + float_of_Z northing * 0x1p-13, 45 + float_of_Z easting * 0x1p-13)%float.

Lemma build_utm_to_htm_mapping_cells_witness :
  (0 <= 3 + 1 /\ 0 <= 1 + 1)
  /\ exists m,
       @ingest.build_utm_to_htm_mapping reference_math sample_to_latlon survey 0 0 3 1
       = Ok m
       /\ rectangular m
       /\ width m = 4 /\ height m = 2
       /\ exists n, stored_name m 3 1 = Some n
                    /\ is_trixel_name n = true
                    /\ ingest.name_depth n = constants.INGEST_MAX_DEPTH.
Proof.
  split; [lia |].
  assert (Hrun : exists m,
            @ingest.build_utm_to_htm_mapping reference_math sample_to_latlon survey 0 0 3 1
            = Ok m) by (eexists; vm_compute; reflexivity).
  destruct Hrun as [m Hrun]. exists m. split; [exact Hrun |].
  destruct (@build_utm_to_htm_mapping_cells reference_math sample_to_latlon survey
              0 0 3 1 m ltac:(lia) ltac:(lia) Hrun)
    as ((Hminx & Hminy & Hmaxx & Hmaxy) & Hrect & cx & cy & _ & _ & Hcells).
  split; [exact Hrect |].
  split; [unfold width; rewrite Hminx, Hmaxx; reflexivity |].
  split; [unfold height; rewrite Hminy, Hmaxy; reflexivity |].
  destruct (Hcells 3 1 ltac:(lia) ltac:(lia)) as (n & Hn & Hv & Hd & _).
  exists n. repeat split; assumption.
Defined.

(** ** Filing the points of a layer under trixels (ingest.py) *)

Section dict_buckets.

Context {V : Type}.

(** The values filed under a key, in order. *)
Definition rows_under (k : string) (es : list (string * V)) : list V :=
  map snd (filter (fun e : string * V => fst e = k) es).

Lemma dict_get_append (d : list (string * list V)) (k k' : string) (v : V) :
  htm.dict_get (dict_append d k v) k' =
    if decide (k = k') then Some (default [] (htm.dict_get d k) ++ [v])
    else htm.dict_get d k'.
Proof.
  induction d as [| [k0 vs] d IH]; simpl.
  - destruct (String.eqb k k') eqn:E.
    + apply String.eqb_eq in E. rewrite decide_True by exact E. reflexivity.
    + apply String.eqb_neq in E. rewrite decide_False by exact E. reflexivity.
  - destruct (String.eqb k0 k) eqn:E0; simpl.
    + apply String.eqb_eq in E0. subst k0.
      destruct (String.eqb k k') eqn:E.
      * apply String.eqb_eq in E. rewrite decide_True by exact E. reflexivity.
      * apply String.eqb_neq in E. rewrite decide_False by exact E. reflexivity.
    + rewrite IH. destruct (String.eqb k0 k') eqn:E.
      * apply String.eqb_eq in E. subst k0. apply String.eqb_neq in E0.
        rewrite decide_False by congruence. reflexivity.
      * reflexivity.
Qed.

Lemma dict_append_keys (d : list (string * list V)) (k : string) (v : V) :
  NoDup (map fst d) ->
  NoDup (map fst (dict_append d k v))
  /\ forall k', k' ∈ map fst (dict_append d k v) <-> k' = k \/ k' ∈ map fst d.
Proof.
  induction d as [| [k0 vs] d IH]; simpl; intros Hnodup.
  - split; [repeat constructor; set_solver | intros k'; set_solver].
  - apply NoDup_cons in Hnodup. destruct Hnodup as [Hnotin Hnodup].
    destruct (String.eqb k0 k) eqn:E0; simpl.
    + apply String.eqb_eq in E0. subst k0.
      split; [apply NoDup_cons; split; assumption | intros k'; set_solver].
    + destruct (IH Hnodup) as [IHnodup IHkeys]. apply String.eqb_neq in E0.
      split.
      * apply NoDup_cons. split; [| exact IHnodup].
        rewrite IHkeys. intros [E | Hin]; [congruence | contradiction].
      * intros k'. rewrite elem_of_cons, IHkeys, elem_of_cons. tauto.
Qed.

(** Filing pairs one after the other groups the values by key. *)
Lemma dict_append_all (es : list (string * V)) :
  forall d : list (string * list V),
    NoDup (map fst d) ->
    let d' := fold_left (fun acc e => dict_append acc (fst e) (snd e)) es d in
    NoDup (map fst d')
    /\ forall k,
         htm.dict_get d' k =
           match rows_under k es with
           | [] => htm.dict_get d k
           | rows => Some (default [] (htm.dict_get d k) ++ rows)
           end.
Proof.
  induction es as [| [k0 v] es IH]; intros d Hnodup; simpl.
  - split; [exact Hnodup | reflexivity].
  - destruct (dict_append_keys d k0 v Hnodup) as [Hnodup' _].
    destruct (IH (dict_append d k0 v) Hnodup') as [Hfinal Hget].
    split; [exact Hfinal |].
    intros k. rewrite (Hget k), dict_get_append. unfold rows_under.
    rewrite filter_cons. simpl.
    destruct (decide (k0 = k)) as [-> | Hne].
    + simpl. destruct (map snd (filter _ es)) as [| r rows]; simpl.
      * reflexivity.
      * rewrite <- app_assoc. reflexivity.
    + reflexivity.
Qed.

End dict_buckets.

Section layer_points.

Import ingest constants.

Context {M : MathLib}.

Variable parse_layer_lines : string -> result (list line).
Variable to_latlon : Z -> Z -> Z -> string -> result (float * float).
Variable dataset : Dataset.
Variable mapping : Mapping.
Variables utm_center_x utm_center_y : Z.

(** A line is filed as a pair: under the name the matrix gives for its
    (x, y), with the row [[lat, lon, z, u, v, w]] of its position. *)
Definition filed_as (l : line) (e : string * point_row) : Prop :=
  let '(x, y, z, u, v, w) := l in
  exists lat lon,
    to_latlon (utm_center_x + x) (utm_center_y + y)
      (utm_zone dataset) (utm_hemisphere dataset) = Ok (lat, lon)
    /\ get_trixel_name mapping x y = Ok (fst e)
    /\ snd e = (lat, lon, z, u, v, w).

Definition file_line (trixels : list (string * list point_row)) (l : line)
  : result (list (string * list point_row)) :=
  let '(x, y, z, u, v, w) := l in
  let utm_x := utm_center_x + x in
  let utm_y := utm_center_y + y in
  '(lat, lon) ← to_latlon utm_x utm_y (utm_zone dataset) (utm_hemisphere dataset);
  htm_trixel_name ← get_trixel_name mapping x y;
  Ok (dict_append trixels htm_trixel_name (lat, lon, z, u, v, w)).

Lemma file_line_filed (trixels trixels' : list (string * list point_row)) (l : line) :
  file_line trixels l = Ok trixels' ->
  exists e, filed_as l e /\ trixels' = dict_append trixels (fst e) (snd e).
Proof.
  destruct l as [[[[[x y] z] u] v] w]. unfold file_line. intros H.
  destruct (to_latlon _ _ _ _) as [[lat lon] |] eqn:Hpos; [| discriminate].
  change (Ok ?a ≫= ?f) with (f a) in H. cbv beta iota in H.
  destruct (get_trixel_name mapping x y) as [n |] eqn:Hname; [| discriminate].
  injection H as <-.
  exists (n, (lat, lon, z, u, v, w)). split; [| reflexivity].
  exists lat, lon. repeat split; assumption.
Qed.

Lemma file_lines_filed (lines : list line) (trixels : list (string * list point_row)) :
  for_each file_line lines [] = Ok trixels ->
  exists es,
    Forall2 filed_as lines es
    /\ trixels = fold_left (fun acc e => dict_append acc (fst e) (snd e)) es [].
Proof.
  apply (for_each_prefix
           (fun pre d => exists es,
              Forall2 filed_as pre es
              /\ d = fold_left (fun acc e => dict_append acc (fst e) (snd e)) es [])).
  - intros pre l post d d' _ (es & Hes & ->) Hstep.
    destruct (file_line_filed _ _ _ Hstep) as (e & He & ->).
    exists (es ++ [e]). split.
    + apply Forall2_app; [exact Hes | constructor; [exact He | constructor]].
    + rewrite fold_left_app. reflexivity.
  - exists []. split; [constructor | reflexivity].
Qed.

End layer_points.

Section layer_theorem.

Import ingest constants.

Context {M : MathLib}.

Lemma parse_layer_to_trixels_unfold
    (parse_layer_lines : string -> result (list line))
    (to_latlon : Z -> Z -> Z -> string -> result (float * float))
    (dataset : Dataset) (layer_path : string) (mapping : Mapping) :
  parse_layer_to_trixels parse_layer_lines to_latlon dataset layer_path mapping =
    (lines ← parse_layer_lines layer_path;
     utm_center_x ← utm_center (utm_corner_min_x dataset) (utm_corner_max_x dataset);
     utm_center_y ← utm_center (utm_corner_min_y dataset) (utm_corner_max_y dataset);
     for_each (file_line to_latlon dataset mapping utm_center_x utm_center_y) lines []).
Proof.
  unfold parse_layer_to_trixels, file_line.
  destruct (parse_layer_lines layer_path) as [lines |]; [| reflexivity].
  change (Ok ?a ≫= ?f) with (f a). cbv beta.
  destruct (utm_center _ _) as [cx |]; [| reflexivity].
  change (Ok ?a ≫= ?f) with (f a). cbv beta.
  destruct (utm_center _ _) as [cy |]; [| reflexivity].
  change (Ok ?a ≫= ?f) with (f a). cbv beta.
  f_equal.
Qed.

(** What [parse_layer_to_trixels] returns. *)
Lemma parse_layer_to_trixels_filed
    (parse_layer_lines : string -> result (list line))
    (to_latlon : Z -> Z -> Z -> string -> result (float * float))
    (dataset : Dataset) (layer_path : string) (mapping : Mapping)
    (trixels : list (string * list point_row)) :
  parse_layer_to_trixels parse_layer_lines to_latlon dataset layer_path mapping
    = Ok trixels ->
  exists lines utm_center_x utm_center_y es,
    parse_layer_lines layer_path = Ok lines
    /\ utm_center (utm_corner_min_x dataset) (utm_corner_max_x dataset)
       = Ok utm_center_x
    /\ utm_center (utm_corner_min_y dataset) (utm_corner_max_y dataset)
       = Ok utm_center_y
    /\ Forall2 (filed_as to_latlon dataset mapping utm_center_x utm_center_y) lines es
    /\ NoDup (map fst trixels)
    /\ forall k,
         htm.dict_get trixels k =
           match rows_under k es with
           | [] => None
           | rows => Some rows
           end.
Proof.
  rewrite parse_layer_to_trixels_unfold. intros Hrun.
  destruct (parse_layer_lines layer_path) as [lines |]; [| discriminate].
  change (Ok ?a ≫= ?f) with (f a) in Hrun. cbv beta in Hrun.
  destruct (utm_center (utm_corner_min_x dataset) _) as [cx |]; [| discriminate].
  change (Ok ?a ≫= ?f) with (f a) in Hrun. cbv beta in Hrun.
  destruct (utm_center (utm_corner_min_y dataset) _) as [cy |]; [| discriminate].
  change (Ok ?a ≫= ?f) with (f a) in Hrun. cbv beta in Hrun.
  destruct (file_lines_filed _ _ _ _ _ _ _ Hrun) as (es & Hes & ->).
  exists lines, cx, cy, es. repeat (split; [reflexivity || exact Hes |]).
  destruct (dict_append_all es [] (NoDup_nil_2 : NoDup (map fst []))) as [Hnodup Hget].
  split; [exact Hnodup |].
  intros k. rewrite (Hget k). destruct (rows_under k es); reflexivity.
Qed.

(** The dict [parse_layer_to_trixels] returns files every line of the layer
    once: each line goes, as the row [[lat, lon, z, u, v, w]] of its
    position, under the name the matrix gives for its (x, y); no name is a
    key twice; and the rows under a name are the rows of the lines filed
    under it, in the order of the file. *)
Theorem parse_layer_to_trixels_buckets
    (parse_layer_lines : string -> result (list line))
    (to_latlon : Z -> Z -> Z -> string -> result (float * float))
    (dataset : Dataset) (layer_path : string) (mapping : Mapping)
    (trixels : list (string * list point_row)) :
  parse_layer_to_trixels parse_layer_lines to_latlon dataset layer_path mapping
    = Ok trixels ->
  exists lines utm_center_x utm_center_y es,
    parse_layer_lines layer_path = Ok lines
    /\ utm_center (utm_corner_min_x dataset) (utm_corner_max_x dataset)
       = Ok utm_center_x
    /\ utm_center (utm_corner_min_y dataset) (utm_corner_max_y dataset)
       = Ok utm_center_y
    /\ Forall2 (filed_as to_latlon dataset mapping utm_center_x utm_center_y) lines es
    /\ NoDup (map fst trixels)
    /\ forall k,
         htm.dict_get trixels k =
           match rows_under k es with
           | [] => None
           | rows => Some rows
           end.
Proof.
  apply parse_layer_to_trixels_filed.
Qed.

End layer_theorem.

(** Three points over the grid [two_cells]: two in the first cell, one in
    the second. *)
Definition two_cell_lines (layer_path : string) : result (list ingest.line) :=
  Ok [ (0, 0, 10, 1%float, 0%float, 0%float);
       (1, 0, 10, 0%float, 1%float, 0%float);
       (0, 0, 10, 0%float, 0%float, 1%float) ].

Lemma parse_layer_to_trixels_buckets_witness :
  exists trixels,
    ingest.parse_layer_to_trixels two_cell_lines sample_to_latlon survey
      "layer.xy" two_cells = Ok trixels
    /\ map fst trixels = ["N0-0"; "N0-1"]
    /\ NoDup (map fst trixels)
    /\ (length <$> htm.dict_get trixels "N0-0") = Some 2%nat.
Proof.
  assert (Hrun : exists trixels,
            ingest.parse_layer_to_trixels two_cell_lines sample_to_latlon survey
              "layer.xy" two_cells = Ok trixels
            /\ map fst trixels = ["N0-0"; "N0-1"]
            /\ (length <$> htm.dict_get trixels "N0-0") = Some 2%nat)
    by (eexists; repeat split; vm_compute; reflexivity).
  destruct Hrun as (trixels & Hrun & Hkeys & Hrows). exists trixels.
  split; [exact Hrun | split; [exact Hkeys | split; [| exact Hrows]]].
  destruct (parse_layer_to_trixels_buckets two_cell_lines sample_to_latlon survey
              "layer.xy" two_cells trixels Hrun)
    as (lines & cx & cy & es & _ & _ & _ & _ & Hnodup & _).
  exact Hnodup.
Defined.
(** ** From the extent to the filed points (ingest.py) *)

Lemma for_each_total_in {A S} (body : S -> A -> result S) (xs : list A) :
  (forall s x, x ∈ xs -> is_Ok (body s x)) -> forall s, is_Ok (for_each body xs s).
Proof.
  induction xs as [| x xs IH]; intros Hbody s.
  - exists s. reflexivity.
  - rewrite for_each_cons. destruct (Hbody s x) as [s1 ->]; [left |].
    change (Ok ?a ≫= ?f) with (f a). cbv beta.
    apply IH. intros s' y Hy. apply Hbody. right. exact Hy.
Qed.

Section ingest_pipeline.

Import ingest constants.

Context {M : MathLib}.

Variable parse_layer_lines : string -> result (list line).
Variable to_latlon : Z -> Z -> Z -> string -> result (float * float).

Lemma get_trixel_name_stored (m : Mapping) (x y : Z) (n : string) :
  rectangular m ->
  ingest.min_x m <= x <= ingest.max_x m -> ingest.min_y m <= y <= ingest.max_y m ->
  stored_name m x y = Some n -> get_trixel_name m x y = Ok n.
Proof.
  intros Hrect Hx Hy Hn.
  destruct (stored_name_in_range m x y Hrect Hx Hy) as (row & n' & Hrow & Hcol & _ & Hs).
  rewrite Hs in Hn. injection Hn as ->.
  unfold get_trixel_name.
  rewrite (py_getitem_nonneg (mapping m) (y - ingest.min_y m) row ltac:(lia) Hrow).
  change (Ok ?a ≫= ?f) with (f a). cbv beta.
  apply py_getitem_nonneg; [lia | exact Hcol].
Qed.

(** The steps of [ingest_dataset] up to the parsing of the layers. *)
Lemma ingest_layers_parsed (dataset : Dataset) (min_x max_x min_y max_y : Z)
    (m : Mapping) (layer_path : string) :
  get_dataset_min_max_xy parse_layer_lines dataset = Ok (min_x, max_x, min_y, max_y) ->
  build_utm_to_htm_mapping to_latlon dataset min_x min_y max_x max_y = Ok m ->
  layer_path ∈ layers dataset ->
  exists trixels,
    parse_layer_to_trixels parse_layer_lines to_latlon dataset layer_path m
      = Ok trixels
    /\ forall k rows,
         htm.dict_get trixels k = Some rows ->
         is_trixel_name k = true /\ name_depth k = INGEST_MAX_DEPTH /\ rows <> [].
Proof.
  intros Hextent Hbuild Hlayer.
  destruct (get_dataset_min_max_xy_loop parse_layer_lines (layers dataset) _ _ Hextent)
    as [_ Hlayers].
  destruct (Hlayers layer_path Hlayer) as (lines & Hparse & Hne & _ & Hbounds).
  assert (Hspan : min_x <= max_x /\ min_y <= max_y).
  { destruct lines as [| l lines]; [contradiction |].
    apply Forall_cons in Hbounds. destruct Hbounds as [Hl _]. lia. }
  destruct (build_utm_to_htm_mapping_built to_latlon dataset min_x min_y max_x max_y m
              ltac:(lia) ltac:(lia) Hbuild)
    as ((Hminx & Hminy & Hmaxx & Hmaxy) & Hrect & cx & cy & Hcx & Hcy & Hcells).
  assert (Hcell : forall l, l ∈ lines ->
            exists n lat lon,
              to_latlon (cx + line_x l) (cy + line_y l)
                (utm_zone dataset) (utm_hemisphere dataset) = Ok (lat, lon)
              /\ get_trixel_name m (line_x l) (line_y l) = Ok n
              /\ is_trixel_name n = true /\ name_depth n = INGEST_MAX_DEPTH).
  { intros l Hl. rewrite Forall_forall in Hbounds. specialize (Hbounds l Hl).
    destruct (Hcells (line_x l) (line_y l) ltac:(lia) ltac:(lia))
      as (n & Hn & Hv & Hd & lat & lon & t & Hpos & _).
    exists n, lat, lon. split; [exact Hpos |].
    split; [| split; assumption].
    apply get_trixel_name_stored; [exact Hrect | lia | lia | exact Hn]. }
  assert (Hrun : is_Ok (for_each (file_line to_latlon dataset m cx cy) lines [])).
  { apply for_each_total_in. intros d l Hl.
    destruct (Hcell l Hl) as (n & lat & lon & Hpos & Hname & _).
    destruct l as [[[[[x y] z] u] v] w]. unfold file_line.
    simpl in Hpos, Hname. rewrite Hpos.
    change (Ok ?a ≫= ?f) with (f a). cbv beta iota. rewrite Hname.
    eexists. reflexivity. }
  destruct Hrun as [trixels Hrun].
  assert (Hparsed : parse_layer_to_trixels parse_layer_lines to_latlon dataset
                      layer_path m = Ok trixels).
  { rewrite parse_layer_to_trixels_unfold, Hparse, Hcx, Hcy. exact Hrun. }
  exists trixels. split; [exact Hparsed |].
  intros k rows Hk.
  destruct (parse_layer_to_trixels_filed _ _ _ _ _ _ Hparsed)
    as (lines' & cx' & cy' & es & Hparse' & _ & _ & Hes & _ & Hget).
  rewrite Hparse in Hparse'. injection Hparse' as <-.
  rewrite (Hget k) in Hk.
  destruct (rows_under k es) as [| r rs] eqn:Hunder; [discriminate |].
  injection Hk as <-.
  assert (He : exists e, e ∈ es /\ fst e = k).
  { unfold rows_under in Hunder.
    destruct (filter (fun e : string * point_row => fst e = k) es) as [| e l] eqn:Hf;
      [discriminate |].
    assert (Hin : e ∈ filter (fun e0 : string * point_row => fst e0 = k) es)
      by (rewrite Hf; left).
    apply list_elem_of_filter in Hin. destruct Hin as [Hfst Hin].
    exists e. split; assumption. }
  destruct He as (e & He & <-).
  apply list_elem_of_lookup in He. destruct He as [i Hi].
  destruct (Forall2_lookup_r _ _ _ _ _ Hes Hi) as (l & Hl & Hfiled).
  assert (Hin : l ∈ lines) by (apply list_elem_of_lookup; exists i; exact Hl).
  destruct (Hcell l Hin) as (n & _ & _ & _ & Hname & Hv & Hd).
  destruct l as [[[[[x y] z] u] v] w]. destruct Hfiled as (_ & _ & _ & Hname' & _).
  simpl in Hname. rewrite Hname in Hname'. injection Hname' as ->.
  split; [exact Hv | split; [exact Hd | discriminate]].
Qed.

(** In [ingest_dataset], with the extent taken from the layers and the
    matrix built over it, parsing any layer of the dataset succeeds: every
    point is looked up inside the matrix, so no lookup raises or lands on
    another cell, and every key of the dict returned is a name of the
    grammar at depth [INGEST_MAX_DEPTH] = 20 with at least one row. *)
Theorem ingest_layers_filed (dataset : Dataset) (min_x max_x min_y max_y : Z)
    (m : Mapping) (layer_path : string) :
  get_dataset_min_max_xy parse_layer_lines dataset = Ok (min_x, max_x, min_y, max_y) ->
  build_utm_to_htm_mapping to_latlon dataset min_x min_y max_x max_y = Ok m ->
  layer_path ∈ layers dataset ->
  exists trixels,
    parse_layer_to_trixels parse_layer_lines to_latlon dataset layer_path m
      = Ok trixels
    /\ forall k rows,
         htm.dict_get trixels k = Some rows ->
         is_trixel_name k = true /\ name_depth k = INGEST_MAX_DEPTH /\ rows <> [].
Proof.
  apply ingest_layers_parsed.
Qed.

End ingest_pipeline.

Lemma ingest_layers_filed_witness :
  exists m trixels,
    ingest.get_dataset_min_max_xy sample_lines survey = Ok (0, 3, 0, 1)
    /\ @ingest.build_utm_to_htm_mapping reference_math sample_to_latlon survey 0 0 3 1
       = Ok m
    /\ ingest.parse_layer_to_trixels sample_lines sample_to_latlon survey
         "/data/unprocessed/survey/layer.xy" m = Ok trixels
    /\ length trixels = 2%nat
    /\ forall k rows,
         htm.dict_get trixels k = Some rows ->
         is_trixel_name k = true
         /\ ingest.name_depth k = constants.INGEST_MAX_DEPTH /\ rows <> [].
Proof.
  assert (Hbuild : exists m,
            @ingest.build_utm_to_htm_mapping reference_math sample_to_latlon survey 0 0 3 1
            = Ok m) by (eexists; vm_compute; reflexivity).
  destruct Hbuild as [m Hbuild].
  destruct (@ingest_layers_filed reference_math sample_lines sample_to_latlon survey
              0 3 0 1 m "/data/unprocessed/survey/layer.xy" eq_refl Hbuild)
    as (trixels & Hparsed & Hkeys); [left |].
  exists m, trixels. split; [reflexivity |]. split; [exact Hbuild |].
  split; [exact Hparsed |]. split; [| exact Hkeys].
  assert (Hlen : (length <$> (m' ← @ingest.build_utm_to_htm_mapping reference_math
                                      sample_to_latlon survey 0 0 3 1;
                              ingest.parse_layer_to_trixels sample_lines sample_to_latlon
                                survey "/data/unprocessed/survey/layer.xy" m'))
                 = Ok 2%nat) by (vm_compute; reflexivity).
  rewrite Hbuild in Hlen. change (Ok m ≫= ?f) with (f m) in Hlen. cbv beta in Hlen.
  rewrite Hparsed in Hlen. injection Hlen as Hlen. exact Hlen.
Defined.
